(* ===== verification/_CoqProject ===== *)
-Q . S2P
Prelude.v
PyStr.v
PurePath.v
Utf8.v
Shell.v
Argparse.v
Runtime.v
RunAF3.v
Main.v
Batch.v
Cli.v
