(* ===== verification/Prelude.v ===== *)
(** * A verification development for [src/alphafold3.py]

    ** The program

    The repository is one Python script, a command-line wrapper around a
    containerised structure-prediction tool.  Its parts and how they
    interact:

    - [af3_argparse_main] (lines 46-73) declares the options on an
      [argparse] parser, then lets two external collaborators
      ([add_mmseqs_msa], [add_custom_template]) add theirs.
    - The [__main__] block (lines 76-128) parses [argv], validates the
      batch (lines 85-93), defaults [args.output_json] (lines 95-96), then
      loops over the input files (lines 98-128).  Each iteration opens the
      file in a [with] block and loads it with [json.load]; with
      [--mmseqs2] it calls the collaborator [add_msa_to_json] and derives
      the path to run with [str.replace] (lines 102-121); after the block
      it calls [run_alphafold3].
    - [run_alphafold3] (lines 8-43) builds one shell command string that
      mounts four directories into a docker container, starts it with
      [subprocess.Popen(cmd, shell=True)], waits for it with
      [communicate()], prints the decoded output and raises
      [CalledProcessError] on a nonzero exit status.

    ** The development (files in dependency order)

    - [Prelude] (this file): the effect monad [M] in which the program is
      written: a computation is the list of events the outside world
      observes (files opened and closed, MSA calls, processes started,
      lines printed) and an [outcome] (a return value, a raised exception,
      or [Blocked] when a child never exits).  [mbind] stops at the first
      exception, [mfinally] models [with]/[finally], [mfor] a [for] loop.
      Notation in [py_scope]; the hint databases [af3] and [af3_rw];
      generic lemmas on strings and lists; the reflexive-transitive
      closure [star]; the loop lemmas [mfor_all_ret], [mfor_stop],
      [mfor_not_blocked] and the invariant principle [mfor_trace_inv].
    - [PyStr] (Module [Str]): [str.replace] as a scan structural on the
      string, its textbook reference [replace_ref] (find the first
      occurrence, replace, continue after it), [print]'s line,
      truthiness of lists and strings.
    - [PurePath] (Module [PPath]): [pathlib] on POSIX: [Path(s)] (splitroot,
      split on ['/'], drop empty and ['.'] parts), [str(p)], [.parent],
      [.name], and [.resolve()] on a file system without symbolic links.
    - [Utf8] (Module [Utf8]): [bytes.decode()] with the strict UTF-8 codec
      (Unicode Table 3-7) as a decidable validity test.
    - [Shell] (Module [Sh]): how [/bin/sh -c] splits a command string into
      commands and words, for the characters it takes literally.
    - [Argparse] (Module [Argparse]): [argparse] as the script uses it:
      declarations ([add_argument] with its conflict check), the
      classification of each string by [_parse_optional] (exact,
      [--opt=value] and abbreviated options, negative numbers, spaces),
      the positional matching of [_match_arguments_partial],
      [consume_optional], the required-argument check and "unrecognized
      arguments", following CPython 3.12; the invariant [ns_inv] of the
      namespaces [parse_args] returns.
    - [Runtime] (Module [Py]): Python values, exceptions (with
      [ArgParseError] and [SystemExit]), events, and the environment
      [env]: the working directory and the oracles for [open],
      [json.load], [add_msa_to_json] and the child process, each indexed
      by the loop iteration.
    - [RunAF3] (Module [AF3]): [run_alphafold3]: [cmd_of] is the f-string of
      lines 16-28 character for character, [af3_cmd] adds the path
      handling of lines 14-25, [on_failure]/[on_success] are lines 34-37
      and 39-43, [run_alphafold3] the whole function.
    - [Main] (Module [Main]): [args] (the namespace lines 46-73 declare),
      [count_mismatch], [template_conflict] and [validate] (lines 85-93),
      [default_outputs] (95-96), [index] ([args.output_json[i]]),
      [derive_run_json] (115-119), [with_open] (99), [prepare] (100-121),
      [iteration] (98-128) and [main] (85-128).
    - [Batch] (Module [Batch]): the abstract specification of a batch run
      (spec.md, sections 2, 4, 5 and 7) as a transition system [bstep] on
      abstract states (items still to run, commands launched), the
      abstraction [abs] of a run of [main], and the resource measures
      [depth] and [max_open] on traces.
    - [Cli] (Module [Cli]): each [add_argument] call of lines 47-68 as a
      declaration, [af3_argparse_main] (lines 46-73) with the
      collaborators' declarations as parameters, [to_args]/[cli_args]
      (line 83), and [program] (lines 76-128): parsing, then [main].

    ** What the theorems show

    - The validator: [Main.validate_spec] characterises the accepted
      batches; rejected batches raise [ValueError] with an empty trace
      ([main_rejects_count_mismatch], [main_rejects_template_batch]);
      after validation [args.output_json[i]] never raises
      ([index_default_outputs]).
    - The command: for paths made of characters the shell takes literally,
      [/bin/sh] runs exactly the intended docker argument vector
      ([AF3.af3_cmd_argv]); the input mount source is absolute and
      canonical ([mount_input_src_abs]); concrete runs show a space
      splitting a mount ([af3_cmd_space_splits]) and a [;] starting a
      second command ([af3_cmd_semicolon_injects]); for every working
      directory and input path, an input directory with a blank is never
      mounted as written ([af3_cmd_blank_mount], from
      [Sh.sh_commands_no_blank]: no word the shell reader splits off
      contains a blank).
    - The child: one theorem per branch of lines 30-43 (exit 0, nonzero
      exit, undecodable stderr, a child that never exits) and one for all
      branches at once: exactly one process, started first, and each
      stream printed at most once ([run_af3_one_spawn_no_duplicate]).
    - The batch: what one iteration does with and without [--mmseqs2]
      ([iteration_no_augmentation], [iteration_augmented]), the derived
      run path ([derive_run_json_suffix], and
      [derive_run_json_all_occurrences] for what [str.replace] does beyond
      the suffix; [derive_run_json_reference]: the one-pass scan equals
      the textbook definition of [str.replace]), the loop stopping at
      the first failure ([main_stops_at_first_failure]) or running one
      container per file in order ([main_runs_every_file]), the invariant
      that no container starts while an input file is open
      ([main_closes_before_spawn]), and two whole runs
      ([main_single_input], [main_json_error_aborts]).
    - The specification: [Batch.main_refines_spec] (refinement: every run
      of [main] is a run of the abstract transition system, when the
      children's output decodes), [spec_launched_prefix] (by rule
      induction: the commands launched are those of the first [n] files,
      in order, one each), [main_terminates] (only a child that never
      exits blocks a run), [main_one_file_open] (at most one input file
      open at a time, all closed at the end).
    - The command line: [Cli.cli_args_render] (round trip: a namespace
      rendered as a command line parses back to itself),
      [program_render] (the program on that command line is [main] on the
      namespace), [cli_args_types] (accepted namespaces have nonempty
      [nargs="+"] lists, from [Argparse.parse_args_inv]), two refused
      command lines ([program_flag_between_inputs],
      [program_output_json_first]), [program_io_after_validation]
      (nothing but the help text happens before parsing and validation
      succeed), [program_help_exits] ([-h] exits 0 before the
      required-argument check) and [program_abbreviations] ([--data] and
      [--model] run exactly as [--database] and [--model_params]).

    ** Bounds and fuel

    No definition of the program needs fuel: [str.replace] carries the
    count of characters still to skip and recurses on the string; the
    shell reader, path parsing, UTF-8 validation, argparse's
    classification and its loop (on the list of options, each with the
    run of arguments after it) and the batch loop recurse structurally,
    so every definition is total and computes by [vm_compute].  The only
    fuel is that of the reference [Str.replace_ref]: the text after an
    occurrence is shorter, so any fuel larger than the length of the
    string gives the result, and [derive_run_json_reference] holds for
    every such fuel.  Exit statuses are [Z] (a status killed by a signal
    is negative in [Popen.returncode]); no arithmetic on them is done.

    ** Not modelled

    - The collaborators [add_msa_to_json], [mmseqs2_argparse_util],
      [custom_template_argpase_util]: external modules.  The MSA call is
      an oracle that returns or raises (its hanging is not modelled); the
      options they register are a parameter of [Cli.af3_argparse_main],
      restricted to the action kinds [Argparse] models, with string
      values ([type=int] conversion is not modelled).
    - [argparse] inputs whose handling differs between CPython releases
      ([--], a single-dash flag followed by more characters such as
      [-hx]) and single-dash strings with non-ASCII bytes that reach the
      negative-number test: [parse_args] answers [Unsupported] and
      [Cli.program] [None].  The help and usage texts are not rendered.
    - The JSON document itself: only whether [json.load] succeeds matters
      to the program, whose parsed value is passed on and never inspected.
    - docker and the prediction tool: an oracle giving an exit status and
      captured bytes, or a child that never exits; [-it]'s need for a
      terminal is outside the model.
    - Symbolic links ([resolve] is lexical) and the rest of the shell
      grammar (quotes, expansions, redirections: the reader answers
      [None]).
    - The imports (lines 1-5): the modules they bring are the models
      above.

    ** Plan for later sittings

    1. UTF-8 decoding to code points and the round trip with encoding,
       justifying the representation of decoded text by its bytes.
    2. The rest of the shell grammar (quoting) and a hanging MSA
       collaborator.
    3. The completeness direction of the refinement: every run of the
       specification is a run of [main] in some environment. *)

From Stdlib Require Import String Ascii List Bool ZArith Lia.
Import ListNotations.

Declare Scope py_scope.
Delimit Scope py_scope with py.

(** ** Outcomes of a Python computation *)

(** A computation either returns, raises an exception, or never returns
    (it is blocked on a child process that does not exit). *)
Inductive outcome (E A : Type) : Type :=
| Ret (a : A)
| Raise (e : E)
| Blocked.
Arguments Ret {E A} a.
Arguments Raise {E A} e.
Arguments Blocked {E A}.

(** A computation with observable events [Ev] and exceptions [E]: the
    events it emits, in order, and its outcome.  The events are those the
    outside world sees (files opened and closed, processes spawned, lines
    printed); an exception stops the computation after the events emitted
    so far. *)
Definition M (Ev E A : Type) : Type := (list Ev * outcome E A)%type.

Definition mret {Ev E A} (a : A) : M Ev E A := ([], Ret a).

Definition mbind {Ev E A B} (m : M Ev E A) (f : A -> M Ev E B) : M Ev E B :=
  match m with
  | (t, Ret a) => let (t', r) := f a in (t ++ t', r)
  | (t, Raise e) => (t, Raise e)
  | (t, Blocked) => (t, Blocked)
  end.

Definition emit {Ev E} (ev : Ev) : M Ev E unit := ([ev], Ret tt).
Definition mraise {Ev E A} (e : E) : M Ev E A := ([], Raise e).
Definition mblock {Ev E A} : M Ev E A := ([], Blocked).

Notation "x <- m ;; k" := (mbind m (fun x => k))
  (at level 61, m at next level, right associativity) : py_scope.
Notation "m ;;; k" := (mbind m (fun _ => k))
  (at level 61, right associativity) : py_scope.

Definition trace_of {Ev E A} (m : M Ev E A) : list Ev := fst m.
Definition outcome_of {Ev E A} (m : M Ev E A) : outcome E A := snd m.

(** [try: body finally: fin]: [fin] runs whether [body] returns or raises;
    when [body] never returns, neither does the whole statement. *)
Definition mfinally {Ev E A} (body : M Ev E A) (fin : M Ev E unit) : M Ev E A :=
  match body with
  | (t, Ret a) => let (t', r) := fin in
                  (t ++ t', match r with Ret _ => Ret a | Raise e => Raise e | Blocked => Blocked end)
  | (t, Raise e) => let (t', r) := fin in
                  (t ++ t', match r with Ret _ => Raise e | Raise e' => Raise e' | Blocked => Blocked end)
  | (t, Blocked) => (t, Blocked)
  end.

(** A [for] loop over a list, each iteration a computation; the first
    exception or blocked iteration stops the loop. *)
Fixpoint mfor {Ev E A} (xs : list A) (body : nat -> A -> M Ev E unit) (i : nat)
  : M Ev E unit :=
  match xs with
  | [] => mret tt
  | x :: xs' => mbind (body i x) (fun _ => mfor xs' body (S i))
  end.

(** ** Strings *)

Open Scope string_scope.

(** Python's [sep.join(xs)]. *)
Fixpoint join (sep : string) (xs : list string) : string :=
  match xs with
  | [] => ""
  | [x] => x
  | x :: xs' => x ++ sep ++ join sep xs'
  end.

(** Every character of [s] satisfies [q]. *)
Definition chars_ok (q : ascii -> bool) (s : string) : bool :=
  forallb q (list_ascii_of_string s).

(** The events of the iterations of [mfor], all of them. *)
Fixpoint mfor_trace {Ev E A} (xs : list A) (body : nat -> A -> M Ev E unit) (i : nat) : list Ev :=
  match xs with
  | [] => []
  | x :: xs' => (trace_of (body i x) ++ mfor_trace xs' body (S i))%list
  end.

(** [[f i x0; f (i+1) x1; ...]]: what [enumerate] pairs. *)
Fixpoint imap {A B} (f : nat -> A -> B) (i : nat) (xs : list A) : list B :=
  match xs with
  | [] => []
  | x :: xs' => f i x :: imap f (S i) xs'
  end.

Lemma imap_app {A B} (f : nat -> A -> B) i (l1 l2 : list A) :
  imap f i (l1 ++ l2) = (imap f i l1 ++ imap f (i + length l1) l2)%list.
Proof.
  revert i. induction l1 as [|x l1 IH]; intros i; simpl; [now rewrite Nat.add_0_r|].
  rewrite IH. now rewrite Nat.add_succ_r.
Qed.

Lemma length_imap {A B} (f : nat -> A -> B) i (l : list A) : length (imap f i l) = length l.
Proof. revert i. induction l; simpl; auto. Qed.

Lemma Forall_firstn {A} (P : A -> Prop) n (l : list A) : Forall P l -> Forall P (firstn n l).
Proof. revert l. induction n as [|n IH]; intros [|x l] H; simpl; auto. inversion H; auto. Qed.

Lemma Forall_skipn {A} (P : A -> Prop) n (l : list A) : Forall P l -> Forall P (skipn n l).
Proof. revert l. induction n as [|n IH]; intros [|x l] H; simpl; auto. inversion H; auto. Qed.

(** The reflexive-transitive closure of a transition relation. *)
Inductive star {A} (R : A -> A -> Prop) : A -> A -> Prop :=
| star_refl x : star R x x
| star_step x y z : R x y -> star R y z -> star R x z.

Lemma star_one {A} (R : A -> A -> Prop) x y : R x y -> star R x y.
Proof. intros H. eapply star_step; [exact H | apply star_refl]. Qed.

Lemma star_trans {A} (R : A -> A -> Prop) x y z : star R x y -> star R y z -> star R x z.
Proof. induction 1; eauto using star_step. Qed.

(** ** Tactics and hint databases *)

Create HintDb af3 discriminated.
Create Rewrite HintDb af3_rw.

Ltac inv H := inversion H; subst; clear H.

(** Split every [match]/[if] on a boolean test in the goal. *)
Ltac case_bool :=
  repeat match goal with
         | |- context [if ?b then _ else _] =>
             let E := fresh "E" in destruct b eqn:E
         end.

(** ** Generic lemmas *)

Lemma append_assoc (a b c : string) : (a ++ b) ++ c = a ++ (b ++ c).
Proof. induction a as [|x a IH]; simpl; [reflexivity | now rewrite IH]. Qed.

Lemma append_nil_r (a : string) : a ++ "" = a.
Proof. induction a as [|x a IH]; simpl; [reflexivity | now rewrite IH]. Qed.

Lemma length_append (a b : string) : String.length (a ++ b) = String.length a + String.length b.
Proof. induction a as [|x a IH]; simpl; [reflexivity | now rewrite IH]. Qed.

Lemma append_String (c : ascii) (a b : string) : String c a ++ b = String c (a ++ b).
Proof. reflexivity. Qed.

Lemma append_inv_l (a b c : string) : a ++ b = a ++ c -> b = c.
Proof. induction a as [|x a IH]; simpl; [auto | intros H; inv H; auto]. Qed.

Lemma string_of_list_ascii_app (l1 l2 : list ascii) :
  string_of_list_ascii (l1 ++ l2) = string_of_list_ascii l1 ++ string_of_list_ascii l2.
Proof. induction l1 as [|x l1 IH]; simpl; [reflexivity | now rewrite IH]. Qed.

#[export] Hint Rewrite append_assoc append_nil_r length_append string_of_list_ascii_app : af3_rw.

Lemma mbind_ret_l {Ev E A B} (a : A) (f : A -> M Ev E B) : mbind (mret a) f = f a.
Proof. unfold mbind, mret. destruct (f a). reflexivity. Qed.

Lemma mbind_ret_r {Ev E A} (m : M Ev E A) : mbind m mret = m.
Proof. destruct m as [t [a|e|]]; simpl; rewrite ?app_nil_r; reflexivity. Qed.

Lemma mbind_assoc {Ev E A B C} (m : M Ev E A) (f : A -> M Ev E B) (g : B -> M Ev E C) :
  mbind (mbind m f) g = mbind m (fun a => mbind (f a) g).
Proof.
  destruct m as [t [a|e|]]; simpl; try reflexivity.
  destruct (f a) as [t1 [b|e|]]; simpl; try reflexivity.
  destruct (g b) as [t2 r]. now rewrite app_assoc.
Qed.

#[export] Hint Rewrite @mbind_ret_l @mbind_ret_r @mbind_assoc : af3_rw.

(** The events of [m >>= f]: those of [m], then, when [m] returns, those
    of the continuation. *)
Lemma trace_mbind {Ev E A B} (m : M Ev E A) (f : A -> M Ev E B) :
  trace_of (mbind m f) =
  (trace_of m ++ match outcome_of m with Ret a => trace_of (f a) | _ => [] end)%list.
Proof.
  destruct m as [t [a|e|]]; simpl; rewrite ?app_nil_r; try reflexivity.
  now destruct (f a).
Qed.

Lemma outcome_mbind {Ev E A B} (m : M Ev E A) (f : A -> M Ev E B) :
  outcome_of (mbind m f) =
  match outcome_of m with Ret a => outcome_of (f a) | Raise e => Raise e | Blocked => Blocked end.
Proof. destruct m as [t [a|e|]]; simpl; try reflexivity. now destruct (f a). Qed.

Lemma mbind_raise {Ev E A B} (m : M Ev E A) (f : A -> M Ev E B) t e :
  m = (t, Raise e) -> mbind m f = (t, Raise e).
Proof. intros ->. reflexivity. Qed.

#[export] Hint Resolve mbind_raise : af3.

Lemma Forall_removelast {A} (P : A -> Prop) (l : list A) :
  Forall P l -> Forall P (removelast l).
Proof.
  induction 1 as [|x l Hx Hl IH]; simpl; [constructor|].
  destruct l; [constructor | now constructor].
Qed.

#[export] Hint Resolve Forall_removelast : af3.

Lemma chars_ok_cons q c s : chars_ok q (String c s) = q c && chars_ok q s.
Proof. reflexivity. Qed.

Lemma chars_ok_app q a b : chars_ok q (a ++ b) = chars_ok q a && chars_ok q b.
Proof.
  induction a as [|c a IH]; [reflexivity|].
  rewrite append_String, !chars_ok_cons, IH. apply andb_assoc.
Qed.

#[export] Hint Rewrite chars_ok_cons chars_ok_app : af3_rw.

Lemma Forall_tl {A} (P : A -> Prop) (l : list A) : Forall P l -> Forall P (tl l).
Proof. destruct 1; simpl; auto. Qed.

#[export] Hint Resolve Forall_tl Forall_rev Forall_firstn Forall_skipn : af3.
#[export] Hint Constructors star : af3.
#[export] Hint Resolve star_one star_trans : af3.

Lemma Forall_filter {A} (P : A -> Prop) (f : A -> bool) (l : list A) :
  Forall P l -> Forall P (filter f l).
Proof. induction 1; simpl; [constructor|]. destruct (f _); auto. Qed.

#[export] Hint Resolve Forall_filter : af3.

Lemma In_removelast {A} (x : A) (l : list A) : In x (removelast l) -> In x l.
Proof.
  induction l as [|y l IH]; simpl; auto.
  destruct l as [|z l]; simpl; [contradiction|].
  intros [->|H]; [now left | right; exact (IH H)].
Qed.

(** ** The loop *)

Section Loop.
Context {Ev E A : Type}.
Variable body : nat -> A -> M Ev E unit.

Lemma mfor_cons x xs i :
  mfor (x :: xs) body i = mbind (body i x) (fun _ => mfor xs body (S i)).
Proof. reflexivity. Qed.

Lemma mbind_ret_eq {B} (m : M Ev E unit) (f : unit -> M Ev E B) :
  outcome_of m = Ret tt -> mbind m f = let (t', r) := f tt in ((trace_of m ++ t')%list, r).
Proof. destruct m as [t [[]|e|]]; simpl; congruence. Qed.

(** When every iteration returns, the loop returns with all their
    events, in order. *)
Lemma mfor_all_ret xs i :
  (forall k x, nth_error xs k = Some x -> outcome_of (body (i + k) x) = Ret tt) ->
  mfor xs body i = (mfor_trace xs body i, Ret tt).
Proof.
  revert i. induction xs as [|x xs IH]; intros i H; [reflexivity|].
  rewrite mfor_cons, mbind_ret_eq.
  - rewrite IH; [reflexivity|]. intros k y Hy.
    replace (S i + k) with (i + S k) by lia. apply (H (S k)), Hy.
  - rewrite <- (Nat.add_0_r i) at 1. apply (H 0). reflexivity.
Qed.

(** When iteration [k] is the first that does not return, the loop
    ends with it: the events of the iterations before it, then its own,
    and nothing of the iterations after it. *)
Lemma mfor_stop xs i k x :
  nth_error xs k = Some x ->
  (forall j y, j < k -> nth_error xs j = Some y -> outcome_of (body (i + j) y) = Ret tt) ->
  outcome_of (body (i + k) x) <> Ret tt ->
  mfor xs body i =
  ((mfor_trace (firstn k xs) body i ++ trace_of (body (i + k) x))%list, outcome_of (body (i + k) x)).
Proof.
  revert i k. induction xs as [|y xs IH]; intros i k Hk Hbefore Hfail; [destruct k; discriminate|].
  destruct k as [|k].
  - simpl in Hk. inv Hk. rewrite Nat.add_0_r in *. rewrite mfor_cons. simpl.
    destruct (body i x) as [t [[]|e|]]; simpl in *; try congruence; reflexivity.
  - simpl in Hk. rewrite mfor_cons, mbind_ret_eq.
    + rewrite (IH (S i) k Hk).
      * replace (S i + k) with (i + S k) by lia. simpl. now rewrite app_assoc.
      * intros j z Hj Hz. replace (S i + j) with (i + S j) by lia. apply (Hbefore (S j)); [lia | exact Hz].
      * now replace (S i + k) with (i + S k) by lia.
    + rewrite <- (Nat.add_0_r i) at 1. apply (Hbefore 0); [lia | reflexivity].
Qed.
(** A loop none of whose iterations blocks does not block. *)
Lemma mfor_not_blocked xs i :
  (forall j x, outcome_of (body j x) <> Blocked) -> outcome_of (mfor xs body i) <> Blocked.
Proof.
  intros H. revert i. induction xs as [|x xs IH]; intros i; [discriminate|].
  rewrite mfor_cons, outcome_mbind. specialize (H i x).
  destruct (outcome_of (body i x)); [apply IH | discriminate | exact H].
Qed.

(** A property of traces that holds of the empty trace, is closed under
    concatenation and holds of every iteration's events holds of the
    loop's events, however the loop ends. *)
Lemma mfor_trace_inv (P : list Ev -> Prop) :
  P [] -> (forall t1 t2, P t1 -> P t2 -> P (t1 ++ t2)%list) ->
  (forall i x, P (trace_of (body i x))) ->
  forall xs i, P (trace_of (mfor xs body i)).
Proof.
  intros Hnil Happ Hbody xs. induction xs as [|x xs IH]; intros i; [exact Hnil|].
  rewrite mfor_cons, trace_mbind. apply Happ; [apply Hbody|].
  destruct (outcome_of (body i x)); auto.
Qed.
End Loop.
