(* ===== verification/PyStr.v ===== *)
(** Python's built-in string operations as [src/alphafold3.py] uses them:
    [str.replace] (line 116), the line [print] writes (lines 35-43), and
    the truthiness tests of lines 85, 90 and 95.  [str.replace] is a scan
    that is structural on the string: after a match it skips the rest of
    the matched occurrence, so occurrences are replaced left to right and
    never overlap, as CPython's [replace] does. *)

From Stdlib Require Import String Ascii List Bool Arith Lia.
From S2P Require Import Prelude.
Import ListNotations.
Open Scope string_scope.

Module Str.

(** [rep_scan old new skip s]: the replacement of [s], where the first
    [skip] characters of [s] belong to an occurrence already replaced. *)
Fixpoint rep_scan (old new : string) (skip : nat) (s : string) : string :=
  match s with
  | EmptyString => EmptyString
  | String c s' =>
      match skip with
      | S k => rep_scan old new k s'
      | O => if prefix old s
             then new ++ rep_scan old new (String.length old - 1) s'
             else String c (rep_scan old new 0 s')
      end
  end.

(** [s.replace("", new)] inserts [new] before every character and at the
    end. *)
Fixpoint interleave (new s : string) : string :=
  match s with
  | EmptyString => new
  | String c s' => new ++ String c (interleave new s')
  end.

(** [s.replace(old, new)]. *)
Definition py_replace (s old new : string) : string :=
  if (old =? "")%string then interleave new s else rep_scan old new 0 s.

(** Does [w] occur in [s] as a substring ([w in s]). *)
Fixpoint occurs (w s : string) : bool :=
  match s with
  | EmptyString => (w =? "")%string
  | String _ s' => prefix w s || occurs w s'
  end.

(** [print(a1, ..., an)] writes the arguments separated by single spaces,
    then a newline. *)
Definition py_print_line (args : list string) : string :=
  join " " args ++ String "010"%char "".

(** Truthiness of the values the program tests: [None] and empty lists
    and strings are false. *)
Definition truthy_list {A} (o : option (list A)) : bool :=
  match o with
  | Some (_ :: _) => true
  | _ => false
  end.

Definition truthy_str (o : option string) : bool :=
  match o with
  | Some (String _ _) => true
  | _ => false
  end.

(** [s[n:]]. *)
Fixpoint sdrop (n : nat) (s : string) : string :=
  match n, s with
  | S n', String _ s' => sdrop n' s'
  | _, _ => s
  end.

(** The text before the first occurrence of [old] in [s] and the text
    after it ([s.partition(old)] when [old] occurs). *)
Fixpoint find_split (old s : string) : option (string * string) :=
  if prefix old s then Some (EmptyString, sdrop (String.length old) s) else
  match s with
  | EmptyString => None
  | String c s' =>
      match find_split old s' with
      | Some (pre, post) => Some (String c pre, post)
      | None => None
      end
  end.

(** The textbook definition of [s.replace(old, new)]: replace the first
    occurrence, then replace in the text after it.  The text after an
    occurrence is shorter, so [fuel] larger than the length of [s] is
    enough. *)
Fixpoint replace_ref (fuel : nat) (old new s : string) : string :=
  match fuel with
  | 0 => s
  | S n =>
      match find_split old s with
      | None => s
      | Some (pre, post) => pre ++ new ++ replace_ref n old new post
      end
  end.

(** ** Lemmas *)

Lemma rep_scan_skip old new (w rest : string) :
  rep_scan old new (String.length w) (w ++ rest) = rep_scan old new 0 rest.
Proof. induction w as [|c w IH]; simpl; auto. Qed.

Lemma prefix_refl_app (w rest : string) : prefix w (w ++ rest) = true.
Proof.
  induction w as [|c w IH]; simpl; [destruct rest; reflexivity|].
  destruct (ascii_dec c c); [exact IH | congruence].
Qed.

Lemma rep_scan_cons old new c s :
  rep_scan old new 0 (String c s) =
  if prefix old (String c s)
  then new ++ rep_scan old new (String.length old - 1) s
  else String c (rep_scan old new 0 s).
Proof. reflexivity. Qed.

(** One occurrence at the front is replaced, and the scan resumes right
    after it. *)
Lemma rep_scan_hit old new (rest : string) :
  old <> "" ->
  rep_scan old new 0 (old ++ rest) = new ++ rep_scan old new 0 rest.
Proof.
  intros Hne. destruct old as [|c w]; [congruence|].
  change (String c w ++ rest) with (String c (w ++ rest)).
  rewrite rep_scan_cons, <- append_String, prefix_refl_app. simpl.
  rewrite Nat.sub_0_r. now rewrite rep_scan_skip.
Qed.

Lemma rep_scan_miss old new c s :
  prefix old (String c s) = false ->
  rep_scan old new 0 (String c s) = String c (rep_scan old new 0 s).
Proof. intros H. now rewrite rep_scan_cons, H. Qed.

(** A pattern without [sep] that matches the front of [x ++ sep :: y]
    lies inside [x]. *)
Lemma prefix_app_sep (w x y : string) (sep : ascii) :
  (forall n, String.get n w <> Some sep) ->
  prefix w (x ++ String sep y) = true -> prefix w x = true.
Proof.
  revert x. induction w as [|a w IH]; intros x Hw Hp; [destruct x; reflexivity|].
  destruct x as [|b x]; simpl in Hp.
  - destruct (ascii_dec a sep); [|discriminate]. subst. now elim (Hw 0).
  - simpl. destruct (ascii_dec a b); [|discriminate]. subst.
    apply IH; auto. intros n. exact (Hw (S n)).
Qed.

Lemma occurs_cons w c s :
  occurs w (String c s) = prefix w (String c s) || occurs w s.
Proof. reflexivity. Qed.

#[export] Hint Rewrite rep_scan_skip rep_scan_hit using congruence : af3_rw.

(** Appending a pattern whose first character occurs nowhere else in it to
    a string without occurrences: the only occurrence is the appended
    one. *)
Lemma rep_scan_suffix (c : ascii) (w new s : string) :
  (forall n, String.get n w <> Some c) ->
  occurs (String c w) s = false ->
  rep_scan (String c w) new 0 (s ++ String c w) = s ++ new.
Proof.
  intros Hw. induction s as [|d s IH]; intros Hocc.
  - pose proof (rep_scan_hit (String c w) new "" ltac:(discriminate)) as H.
    rewrite append_nil_r in H. simpl in *. rewrite H. apply append_nil_r.
  - rewrite occurs_cons in Hocc. apply orb_false_iff in Hocc as [Hp Ho].
    simpl String.append. rewrite rep_scan_miss; [now rewrite IH|].
    simpl. simpl in Hp. destruct (ascii_dec c d) as [<-|]; [|reflexivity].
    destruct (prefix w (s ++ String c w)) eqn:E; [|reflexivity].
    apply prefix_app_sep in E; [congruence|exact Hw].
Qed.

Lemma prefix_sdrop old s : prefix old s = true -> s = old ++ sdrop (String.length old) s.
Proof.
  revert s. induction old as [|c old IH]; intros s H; [reflexivity|].
  destruct s as [|d s]; [discriminate|]. simpl in H.
  destruct (ascii_dec c d) as [<-|]; [|discriminate]. simpl. now rewrite <- IH.
Qed.

Lemma find_split_spec old s pre post :
  find_split old s = Some (pre, post) -> s = pre ++ old ++ post.
Proof.
  revert pre. induction s as [|c s IH]; intros pre H; cbn [find_split] in H.
  - destruct old; [inv H; reflexivity | discriminate].
  - destruct (prefix old (String c s)) eqn:Hp.
    + inv H. exact (prefix_sdrop _ _ Hp).
    + destruct (find_split old s) as [[pre' post']|]; [|discriminate].
      inv H. simpl. now rewrite (IH pre' eq_refl).
Qed.

Lemma find_split_none_cons old c s :
  prefix old (String c s) = false ->
  find_split old (String c s) =
  match find_split old s with Some (pre, post) => Some (String c pre, post) | None => None end.
Proof. intros H. cbn [find_split]. now rewrite H. Qed.

Lemma replace_ref_S n old new s :
  replace_ref (S n) old new s =
  match find_split old s with
  | None => s
  | Some (pre, post) => pre ++ new ++ replace_ref n old new post
  end.
Proof. reflexivity. Qed.

(** The one-pass scan and the textbook definition agree, for every
    fuel larger than the length of the string. *)
Lemma rep_scan_ref old new :
  old <> "" ->
  forall s fuel, String.length s < fuel -> rep_scan old new 0 s = replace_ref fuel old new s.
Proof.
  intros Hne s. remember (String.length s) as m eqn:Hm. revert s Hm.
  induction m as [m IH] using lt_wf_ind. intros s Hm fuel Hf.
  destruct fuel as [|n]; [lia|]. simpl replace_ref.
  destruct (prefix old s) eqn:Hp.
  - assert (Hfs : find_split old s = Some ("", sdrop (String.length old) s))
      by (destruct s; cbn [find_split]; now rewrite Hp).
    rewrite Hfs. pose proof (prefix_sdrop _ _ Hp) as Hs. rewrite Hs at 1.
    rewrite rep_scan_hit by exact Hne. simpl. f_equal.
    apply (IH (String.length (sdrop (String.length old) s))); [|reflexivity|].
    all: rewrite Hs in Hm; rewrite length_append in Hm; destruct old; [congruence|]; simpl in *; lia.
  - destruct s as [|c s'].
    + destruct old; [congruence|]. reflexivity.
    + rewrite rep_scan_miss by exact Hp. rewrite find_split_none_cons by exact Hp.
      simpl in Hm. rewrite (IH (String.length s') ltac:(lia) s' eq_refl n ltac:(lia)).
      destruct n as [|n']; [lia|]. rewrite replace_ref_S.
      destruct (find_split old s') as [[pre post]|] eqn:Hfs; [|reflexivity].
      rewrite append_String. do 3 f_equal.
      pose proof (find_split_spec _ _ _ _ Hfs) as Hs'. rewrite Hs', !length_append in Hm.
      destruct old; [congruence|]. simpl in Hm.
      rewrite <- (IH (String.length post) ltac:(lia) post eq_refl n' ltac:(lia)).
      apply (IH (String.length post)); [lia | reflexivity | lia].
Qed.

End Str.
