(* ===== verification/PurePath.v ===== *)
(** [pathlib] on POSIX, as [run_alphafold3] uses it (lines 14-25 of
    [src/alphafold3.py]): [Path(s)] parses a string into an anchor and a
    list of parts ([posixpath.splitroot], then [rel.split('/')] keeping the
    parts that are neither empty nor ['.']); [str(p)] prints it back;
    [.parent] drops the last part; [.name] is the last part; [.resolve()]
    makes the path absolute against the working directory and removes
    ['..'] parts.  [resolve] is modelled for a file system without symbolic
    links, where [os.path.realpath] is lexical; the working directory is a
    list of well-formed parts, as [os.getcwd()] returns a canonical
    absolute path. *)

From Stdlib Require Import String Ascii List Bool Arith Lia.
From S2P Require Import Prelude.
Import ListNotations.
Open Scope string_scope.

Module PPath.

(** The anchor of a POSIX path: none, ['/'], or exactly two slashes
    (POSIX leaves the meaning of a leading ['//'] to the system, so
    [pathlib] keeps it). *)
Inductive root : Type := NoRoot | Slash | DoubleSlash.

Record path : Type := mk_path { p_root : root; p_parts : list string }.

Abbreviation slash := "/"%char (only parsing).

(** [s.split('/')]: always at least one element. *)
Fixpoint split_sep (s : string) : list string :=
  match s with
  | EmptyString => [""]
  | String c s' =>
      if ascii_dec c slash then "" :: split_sep s'
      else match split_sep s' with
           | [] => [String c ""]
           | x :: xs => String c x :: xs
           end
  end.

(** [s.lstrip('/')]. *)
Fixpoint lstrip (s : string) : string :=
  match s with
  | String c s' => if ascii_dec c slash then lstrip s' else s
  | EmptyString => EmptyString
  end.

(** [posixpath.splitroot] without the (empty) drive:
    [if p[:1] != sep: ('', p) elif p[1:2] != sep or p[2:3] == sep:
    (sep, p.lstrip(sep)) else: (p[:2], p[2:])]. *)
Definition splitroot (s : string) : root * string :=
  match s with
  | String c1 rest1 =>
      if ascii_dec c1 slash then
        match rest1 with
        | String c2 rest2 =>
            if ascii_dec c2 slash then
              match rest2 with
              | String c3 _ => if ascii_dec c3 slash then (Slash, lstrip s) else (DoubleSlash, rest2)
              | EmptyString => (DoubleSlash, rest2)
              end
            else (Slash, lstrip s)
        | EmptyString => (Slash, lstrip s)
        end
      else (NoRoot, s)
  | EmptyString => (NoRoot, s)
  end.

(** The parts [pathlib] keeps: [if x and x != '.']. *)
Definition keep_part (x : string) : bool :=
  negb (x =? "")%string && negb (x =? ".")%string.

(** [PurePosixPath(s)]. *)
Definition parse (s : string) : path :=
  let (r, rel) := splitroot s in mk_path r (filter keep_part (split_sep rel)).

Definition root_str (r : root) : string :=
  match r with NoRoot => "" | Slash => "/" | DoubleSlash => "//" end.

(** [str(p)]: the anchor and the parts joined by ['/'], or ['.'] when
    both are empty. *)
Definition to_str (p : path) : string :=
  match root_str (p_root p) ++ join "/" (p_parts p) with
  | EmptyString => "."
  | s => s
  end.

(** [p.name]: the last part, or the empty string. *)
Definition name (p : path) : string := last (p_parts p) "".

(** [p.parent]: the path itself when it has no parts. *)
Definition parent (p : path) : path :=
  match p_parts p with
  | [] => p
  | _ => mk_path (p_root p) (removelast (p_parts p))
  end.

(** The lexical core of [os.path.realpath] on a symlink-free system:
    [acc] is the reversed stack of parts; ['..'] pops it (and stays at the
    root when it is empty), any other part is pushed. *)
Fixpoint norm_dots (acc : list string) (xs : list string) : list string :=
  match xs with
  | [] => acc
  | x :: xs' =>
      if (x =? "..")%string then norm_dots (tl acc) xs' else norm_dots (x :: acc) xs'
  end.

(** [p.resolve()] with working directory [cwd]: a relative path is taken
    from [cwd]; a leading ['//'] becomes ['/'] ([realpath] strips it). *)
Definition resolve (cwd : list string) (p : path) : path :=
  let base := match p_root p with NoRoot => cwd | _ => [] end in
  mk_path Slash (rev (norm_dots (rev base) (p_parts p))).

(** ** Well-formedness *)

Definition not_slash (c : ascii) : bool := negb (c =? slash)%char.

Definition no_slash (x : string) : Prop := chars_ok not_slash x = true.

(** A part as [pathlib] stores it: nonempty, not ['.'], without ['/']. *)
Definition wf_part (x : string) : Prop :=
  x <> "" /\ x <> "." /\ no_slash x.

Definition wf_path (p : path) : Prop := Forall wf_part (p_parts p).

(** A resolved part is well formed and is not ['..']. *)
Definition canon_part (x : string) : Prop := wf_part x /\ x <> "..".

(** The same, decided. *)
Definition canon_part_b (x : string) : bool :=
  negb (x =? "")%string && negb (x =? ".")%string && negb (x =? "..")%string
  && chars_ok not_slash x.


(** ** Lemmas *)

Lemma no_slash_cons c x : no_slash (String c x) -> c <> slash /\ no_slash x.
Proof.
  unfold no_slash. rewrite chars_ok_cons. intros H. apply andb_prop in H as [H1 H2].
  split; [intros ->; discriminate H1 | exact H2].
Qed.

Lemma canon_part_b_spec x : canon_part_b x = true -> canon_part x.
Proof.
  unfold canon_part_b. intros H.
  apply andb_prop in H as [H H4]. apply andb_prop in H as [H H3].
  apply andb_prop in H as [H1 H2].
  apply negb_true_iff, String.eqb_neq in H1, H2, H3. repeat split; auto.
Qed.

Lemma canon_parts_b xs : forallb canon_part_b xs = true -> Forall canon_part xs.
Proof.
  intros H. apply Forall_forall. intros x Hx. apply canon_part_b_spec.
  rewrite forallb_forall in H. auto.
Qed.

Lemma split_sep_no_slash x : no_slash x -> split_sep x = [x].
Proof.
  induction x as [|c x IH]; intros H; [reflexivity|].
  apply no_slash_cons in H as [Hc Hx]. simpl.
  destruct (ascii_dec c slash); [contradiction|]. now rewrite IH.
Qed.

Lemma split_sep_app x y : no_slash x -> split_sep (x ++ String slash y) = x :: split_sep y.
Proof.
  induction x as [|c x IH]; intros H; [reflexivity|].
  apply no_slash_cons in H as [Hc Hx]. simpl.
  destruct (ascii_dec c slash); [contradiction|]. now rewrite IH.
Qed.

Lemma join_cons (x : string) xs :
  join "/" (x :: xs) = x ++ match xs with [] => "" | _ => String slash (join "/" xs) end.
Proof. destruct xs; simpl; [now rewrite append_nil_r | reflexivity]. Qed.

Lemma split_sep_join parts :
  Forall no_slash parts -> parts <> [] -> split_sep (join "/" parts) = parts.
Proof.
  induction parts as [|x xs IH]; intros Hf Hne; [congruence|].
  inversion Hf as [|? ? Hx Hxs]; subst. rewrite join_cons. destruct xs as [|y ys].
  - rewrite append_nil_r. now apply split_sep_no_slash.
  - rewrite split_sep_app by exact Hx. now rewrite IH.
Qed.

Lemma wf_part_no_slash x : wf_part x -> no_slash x.
Proof. intros (_ & _ & H). exact H. Qed.

Lemma filter_keep_wf parts : Forall wf_part parts -> filter keep_part parts = parts.
Proof.
  induction 1 as [|x xs (H1 & H2 & _) _ IH]; [reflexivity|]. simpl.
  unfold keep_part at 1. apply String.eqb_neq in H1, H2. rewrite H1, H2. simpl. now rewrite IH.
Qed.

(** A nonempty list of well-formed parts prints as a string whose first
    character is not a slash. *)
Lemma join_head parts :
  Forall wf_part parts -> parts <> [] ->
  exists c s, join "/" parts = String c s /\ c <> slash.
Proof.
  intros Hf Hne. destruct parts as [|x xs]; [congruence|].
  inversion Hf as [|? ? (Hx1 & _ & Hx3) _]; subst.
  destruct x as [|c x]; [congruence|]. rewrite join_cons.
  exists c, (x ++ match xs with [] => "" | _ => String slash (join "/" xs) end). split; [reflexivity|].
  intros ->. apply no_slash_cons in Hx3 as [Hc _]. exact (Hc eq_refl).
Qed.

Lemma parse_rel_wf parts :
  Forall wf_part parts -> filter keep_part (split_sep (join "/" parts)) = parts.
Proof.
  intros Hf. destruct parts as [|x xs]; [reflexivity|].
  rewrite split_sep_join; [now apply filter_keep_wf | | congruence].
  eapply Forall_impl; [exact wf_part_no_slash | exact Hf].
Qed.

Lemma splitroot_root r c s :
  c <> slash -> splitroot (root_str r ++ String c s) = (r, String c s).
Proof. intros Hc. destruct r; simpl; destruct (ascii_dec c slash); congruence. Qed.

(** Printing a well-formed path and parsing it back gives the path. *)
Theorem parse_to_str (p : path) : wf_path p -> parse (to_str p) = p.
Proof.
  destruct p as [r parts]. unfold wf_path. simpl. intros Hf.
  destruct parts as [|x xs]; [destruct r; reflexivity|].
  destruct (join_head (x :: xs) Hf ltac:(congruence)) as (c & s & Hj & Hc).
  assert (Hs : to_str (mk_path r (x :: xs)) = root_str r ++ String c s)
    by (unfold to_str; simpl p_root; simpl p_parts; rewrite Hj; destruct r; reflexivity).
  unfold parse. rewrite Hs, splitroot_root by exact Hc. cbv beta iota.
  rewrite <- Hj, parse_rel_wf by exact Hf. reflexivity.
Qed.

Lemma Forall_filter_keep xs :
  Forall no_slash xs -> Forall wf_part (filter keep_part xs).
Proof.
  induction 1 as [|x xs Hx _ IH]; simpl; [constructor|].
  unfold keep_part. destruct (x =? "")%string eqn:E1, (x =? ".")%string eqn:E2; simpl; auto.
  constructor; auto. apply String.eqb_neq in E1, E2. repeat split; auto.
Qed.

Lemma split_sep_no_slash_all s : Forall no_slash (split_sep s).
Proof.
  induction s as [|c s IH]; simpl.
  - repeat constructor.
  - destruct (ascii_dec c slash) as [Hs|Hs].
    + constructor; [reflexivity | exact IH].
    + assert (Hc : not_slash c = true) by (apply negb_true_iff, Ascii.eqb_neq, Hs).
      unfold no_slash in *.
      destruct (split_sep s) as [|x xs]; inversion IH; subst; constructor; auto;
        rewrite chars_ok_cons, Hc; auto.
Qed.

(** Every parsed path is well formed. *)
Lemma parse_wf s : wf_path (parse s).
Proof.
  unfold parse. destruct (splitroot s) as [r rel]. unfold wf_path; simpl.
  apply Forall_filter_keep, split_sep_no_slash_all.
Qed.

(** [str(Path(s))] is a canonical spelling: parsing it again changes
    nothing. *)
Corollary parse_idempotent s : parse (to_str (parse s)) = parse s.
Proof. apply parse_to_str, parse_wf. Qed.

(** [.parent] and [.name] split a path with parts into its last part and
    the rest. *)
Lemma parent_name (p : path) :
  p_parts p <> [] -> (p_parts (parent p) ++ [name p])%list = p_parts p.
Proof.
  destruct p as [r parts]. unfold parent, name; simpl. intros Hne.
  destruct parts as [|x xs]; [congruence|]. simpl p_parts.
  symmetry. apply app_removelast_last. discriminate.
Qed.

Lemma parent_root p : p_root (parent p) = p_root p.
Proof. unfold parent. now destruct (p_parts p). Qed.

Lemma parent_In p x : In x (p_parts (parent p)) -> In x (p_parts p).
Proof.
  unfold parent. destruct p as [r [|y ys]]; [exact (fun H => H)|].
  exact (In_removelast x (y :: ys)).
Qed.

Lemma parent_wf p : wf_path p -> wf_path (parent p).
Proof.
  destruct p as [r parts]. unfold wf_path, parent; simpl. intros Hf.
  destruct parts as [|x xs]; [exact Hf|]. exact (Forall_removelast _ _ Hf).
Qed.

Lemma norm_dots_canon acc xs :
  Forall canon_part acc -> Forall wf_part xs -> Forall canon_part (norm_dots acc xs).
Proof.
  revert acc. induction xs as [|x xs IH]; intros acc Ha Hx; simpl; auto.
  inversion Hx; subst. destruct (x =? "..")%string eqn:E.
  - apply IH; auto. destruct acc; simpl; auto. now inversion Ha.
  - apply IH; auto. constructor; auto. split; auto. now apply String.eqb_neq.
Qed.

Lemma norm_dots_plain acc xs :
  Forall (fun x => x <> "..") xs -> norm_dots acc xs = (rev xs ++ acc)%list.
Proof.
  revert acc. induction xs as [|x xs IH]; intros acc Hx; simpl; auto.
  inversion Hx; subst. apply String.eqb_neq in H1. rewrite H1, IH by auto.
  now rewrite <- app_assoc.
Qed.

Lemma canon_wf x : canon_part x -> wf_part x.
Proof. now intros []. Qed.

Lemma canon_not_dotdot x : canon_part x -> x <> "..".
Proof. now intros []. Qed.

Section Resolve.
Variable cwd : list string.
(** [os.getcwd()] is absolute and canonical. *)
Hypothesis cwd_canon : Forall canon_part cwd.

(** A resolved path is absolute and its parts are canonical. *)
Lemma resolve_canon p :
  wf_path p -> p_root (resolve cwd p) = Slash /\ Forall canon_part (p_parts (resolve cwd p)).
Proof.
  intros Hp. split; [reflexivity|]. simpl. apply Forall_rev, norm_dots_canon; [|exact Hp].
  apply Forall_rev. destruct (p_root p); auto.
Qed.

(** Resolving twice is resolving once. *)
Lemma resolve_idempotent p : wf_path p -> resolve cwd (resolve cwd p) = resolve cwd p.
Proof.
  intros Hp. destruct (resolve_canon p Hp) as [Hr Hc].
  destruct (resolve cwd p) as [r parts] eqn:E. simpl in *. subst r.
  unfold resolve; simpl. rewrite norm_dots_plain, app_nil_r, rev_involutive; [reflexivity|].
  eapply Forall_impl; [exact canon_not_dotdot | exact Hc].
Qed.

(** A relative path without ['..'] resolves to the working directory
    followed by its parts. *)
Lemma resolve_relative p :
  p_root p = NoRoot -> Forall (fun x => x <> "..") (p_parts p) ->
  p_parts (resolve cwd p) = (cwd ++ p_parts p)%list.
Proof.
  intros Hr Hx. unfold resolve. rewrite Hr. simpl.
  rewrite norm_dots_plain by exact Hx. now rewrite rev_app_distr, !rev_involutive.
Qed.
End Resolve.

(** A path anchored at ['/'] prints with a leading slash. *)
Lemma to_str_slash parts : to_str (mk_path Slash parts) = "/" ++ join "/" parts.
Proof. reflexivity. Qed.

(** ** Character classes survive parsing, resolving and printing *)

Section Chars.
Variable q : ascii -> bool.

Lemma chars_ok_lstrip s : chars_ok q s = true -> chars_ok q (lstrip s) = true.
Proof.
  induction s as [|c s IH]; simpl; auto. intros H.
  destruct (ascii_dec c slash); auto.
  rewrite chars_ok_cons in H. apply andb_prop in H as [_ H]. auto.
Qed.

Lemma chars_ok_splitroot s : chars_ok q s = true -> chars_ok q (snd (splitroot s)) = true.
Proof.
  intros H. unfold splitroot. destruct s as [|c1 r1]; [exact H|].
  destruct (ascii_dec c1 slash); [|exact H].
  pose proof (chars_ok_lstrip _ H) as Hl.
  rewrite chars_ok_cons in H. apply andb_prop in H as [_ H1].
  destruct r1 as [|c2 r2]; [exact Hl|]. destruct (ascii_dec c2 slash); [|exact Hl].
  rewrite chars_ok_cons in H1. apply andb_prop in H1 as [_ H2].
  destruct r2 as [|c3 r3]; [exact H2|]. destruct (ascii_dec c3 slash); [exact Hl | exact H2].
Qed.

Lemma chars_ok_split_sep s : chars_ok q s = true -> Forall (fun x => chars_ok q x = true) (split_sep s).
Proof.
  induction s as [|c s IH]; simpl; intros H; [repeat constructor|].
  rewrite chars_ok_cons in H. apply andb_prop in H as [Hc H].
  specialize (IH H). destruct (ascii_dec c slash); [now constructor|].
  destruct (split_sep s) as [|x xs]; inversion IH; subst; constructor; auto;
    rewrite chars_ok_cons, Hc; auto.
Qed.

Lemma chars_ok_parse s : chars_ok q s = true -> Forall (fun x => chars_ok q x = true) (p_parts (parse s)).
Proof.
  intros H. unfold parse. pose proof (chars_ok_splitroot s H) as Hr.
  destruct (splitroot s) as [r rel]. simpl in *.
  apply Forall_filter, chars_ok_split_sep, Hr.
Qed.

Lemma chars_ok_norm_dots acc xs :
  Forall (fun x => chars_ok q x = true) acc -> Forall (fun x => chars_ok q x = true) xs ->
  Forall (fun x => chars_ok q x = true) (norm_dots acc xs).
Proof.
  revert acc. induction xs as [|x xs IH]; intros acc Ha Hx; simpl; auto.
  inversion Hx; subst. destruct (x =? "..")%string; apply IH; auto with af3.
Qed.

Lemma chars_ok_resolve cwd p :
  Forall (fun x => chars_ok q x = true) cwd -> Forall (fun x => chars_ok q x = true) (p_parts p) ->
  Forall (fun x => chars_ok q x = true) (p_parts (resolve cwd p)).
Proof.
  intros Hc Hp. simpl. apply Forall_rev, chars_ok_norm_dots; auto.
  destruct (p_root p); auto with af3.
Qed.

Lemma chars_ok_parent p :
  Forall (fun x => chars_ok q x = true) (p_parts p) ->
  Forall (fun x => chars_ok q x = true) (p_parts (parent p)).
Proof.
  unfold parent. destruct p as [r parts]; simpl.
  destruct parts as [|x xs]; intros H; [exact H|]. exact (Forall_removelast _ _ H).
Qed.

Lemma chars_ok_name p :
  Forall (fun x => chars_ok q x = true) (p_parts p) -> chars_ok q (name p) = true.
Proof.
  unfold name. induction (p_parts p) as [|x xs IH]; intros H; [reflexivity|].
  inversion H; subst. destruct xs; auto.
Qed.

Hypothesis q_slash : q slash = true.
Hypothesis q_dot : q "."%char = true.

Lemma chars_ok_join xs :
  Forall (fun x => chars_ok q x = true) xs -> chars_ok q (join "/" xs) = true.
Proof.
  induction 1 as [|x xs Hx _ IH]; [reflexivity|]. rewrite join_cons.
  rewrite chars_ok_app, Hx. destruct xs; [reflexivity|].
  simpl. rewrite chars_ok_cons, q_slash. exact IH.
Qed.

Lemma chars_ok_to_str p :
  Forall (fun x => chars_ok q x = true) (p_parts p) -> chars_ok q (to_str p) = true.
Proof.
  intros H. unfold to_str.
  assert (Hs : chars_ok q (root_str (p_root p) ++ join "/" (p_parts p)) = true).
  { rewrite chars_ok_app, chars_ok_join by exact H.
    destruct (p_root p); simpl; unfold chars_ok; simpl; rewrite ?q_slash; reflexivity. }
  destruct (root_str (p_root p) ++ join "/" (p_parts p)); [|exact Hs].
  unfold chars_ok. simpl. now rewrite q_dot.
Qed.
End Chars.

End PPath.
