(* ===== verification/Utf8.v ===== *)
(** [bytes.decode()] with its default strict UTF-8 codec, the call
    [run_alphafold3] makes on the child's captured output (lines 35, 36, 39
    and 40 of [src/alphafold3.py]).  A byte string decodes exactly when it
    is a sequence of well-formed UTF-8 sequences (Unicode, Table 3-7: no
    overlong forms, no surrogates, nothing above U+10FFFF); otherwise the
    call raises [UnicodeDecodeError].  Decoded text is kept as its UTF-8
    bytes (a Rocq [string] is a byte string), which is also what [print]
    writes back on a UTF-8 terminal. *)

From Stdlib Require Import String Ascii Strings.Byte List Bool NArith ZArith Lia.
From S2P Require Import Prelude.
Import ListNotations.

Module Utf8.

Definition in_range (lo hi : N) (b : byte) : bool :=
  (lo <=? Byte.to_N b)%N && (Byte.to_N b <=? hi)%N.

(** A continuation byte, [10xxxxxx]. *)
Definition cont (b : byte) : bool := in_range 128 191 b.

(** The lead byte of a sequence: how many bytes follow it, and the range
    of the first of them (Table 3-7); [None] for bytes that never start a
    sequence ([80..C1], [F5..FF]). *)
Definition lead (n : N) : option (nat * N * N) :=
  if (n <=? 127)%N then Some (0%nat, 128%N, 191%N)
  else if (194 <=? n)%N && (n <=? 223)%N then Some (1%nat, 128%N, 191%N)
  else if (n =? 224)%N then Some (2%nat, 160%N, 191%N)
  else if (225 <=? n)%N && (n <=? 236)%N then Some (2%nat, 128%N, 191%N)
  else if (n =? 237)%N then Some (2%nat, 128%N, 159%N)
  else if (238 <=? n)%N && (n <=? 239)%N then Some (2%nat, 128%N, 191%N)
  else if (n =? 240)%N then Some (3%nat, 144%N, 191%N)
  else if (241 <=? n)%N && (n <=? 243)%N then Some (3%nat, 128%N, 191%N)
  else if (n =? 244)%N then Some (3%nat, 128%N, 143%N)
  else None.

(** Strict UTF-8 well-formedness of a byte string. *)
Fixpoint utf8_valid (l : list byte) : bool :=
  match l with
  | [] => true
  | b0 :: r =>
      match lead (Byte.to_N b0), r with
      | Some (0, _, _), _ => utf8_valid r
      | Some (1, lo, hi), b1 :: r1 => in_range lo hi b1 && utf8_valid r1
      | Some (2, lo, hi), b1 :: b2 :: r2 => in_range lo hi b1 && cont b2 && utf8_valid r2
      | Some (3, lo, hi), b1 :: b2 :: b3 :: r3 =>
          in_range lo hi b1 && cont b2 && cont b3 && utf8_valid r3
      | _, _ => false
      end
  end.

(** [b.decode()]: the text, or [None] when the codec raises
    [UnicodeDecodeError]. *)
Definition py_decode (b : list byte) : option string :=
  if utf8_valid b then Some (string_of_list_byte b) else None.

(** The bytes of one well-formed sequence at the front of a string. *)
Definition seq_len (l : list byte) : option nat :=
  match l with
  | [] => None
  | b0 :: r =>
      match lead (Byte.to_N b0), r with
      | Some (0, _, _), _ => Some 1%nat
      | Some (1, lo, hi), b1 :: _ => if in_range lo hi b1 then Some 2%nat else None
      | Some (2, lo, hi), b1 :: b2 :: _ => if in_range lo hi b1 && cont b2 then Some 3%nat else None
      | Some (3, lo, hi), b1 :: b2 :: b3 :: _ =>
          if in_range lo hi b1 && cont b2 && cont b3 then Some 4%nat else None
      | _, _ => None
      end
  end.

(** ** Lemmas *)

(** A nonempty string is valid exactly when it starts with a well-formed
    sequence and the rest is valid. *)
Lemma utf8_valid_step l :
  l <> [] ->
  utf8_valid l = match seq_len l with
                 | Some k => utf8_valid (skipn k l)
                 | None => false
                 end.
Proof.
  intros Hne. destruct l as [|b0 r]; [congruence|]. simpl.
  destruct (lead (Byte.to_N b0)) as [[[[|[|[|[|k]]]] lo] hi]|]; try reflexivity;
    destruct r as [|b1 [|b2 [|b3 r]]]; try reflexivity;
    repeat match goal with |- context [if ?c then _ else _] => destruct c end; reflexivity.
Qed.

Lemma seq_len_app l1 l2 k :
  seq_len l1 = Some k -> seq_len (l1 ++ l2) = Some k /\ (1 <= k <= length l1)%nat.
Proof.
  destruct l1 as [|b0 r]; [discriminate|]. simpl.
  destruct (lead (Byte.to_N b0)) as [[[[|[|[|[|j]]]] lo] hi]|]; try discriminate;
    destruct r as [|b1 [|b2 [|b3 r]]]; try discriminate; simpl;
    repeat match goal with |- context [if ?c then _ else _] => destruct c end;
    intros H; inv H; split; simpl; auto; lia.
Qed.

(** Concatenating two decodable byte strings gives a decodable one. *)
Lemma utf8_valid_app l1 l2 :
  utf8_valid l1 = true -> utf8_valid l2 = true -> utf8_valid (l1 ++ l2) = true.
Proof.
  remember (length l1) as n eqn:Hn. revert l1 Hn.
  induction n as [n IH] using lt_wf_ind. intros l1 Hn H1 H2.
  destruct l1 as [|b0 r]; [exact H2|].
  rewrite utf8_valid_step in H1 by discriminate.
  rewrite utf8_valid_step by discriminate.
  destruct (seq_len (b0 :: r)) as [k|] eqn:Hs; [|discriminate].
  destruct (seq_len_app _ l2 _ Hs) as [-> Hk].
  rewrite skipn_app. replace (k - length (b0 :: r))%nat with 0%nat by lia.
  simpl skipn at 2. apply (IH (length (skipn k (b0 :: r)))); auto.
  - rewrite length_skipn. subst n. lia.
Qed.

(** Bytes below 128 are always decodable. *)
Lemma utf8_valid_ascii l :
  Forall (fun b => (Byte.to_N b < 128)%N) l -> utf8_valid l = true.
Proof.
  induction 1 as [|b l Hb _ IH]; [reflexivity|]. simpl.
  unfold lead. replace ((Byte.to_N b <=? 127)%N) with true by (symmetry; apply N.leb_le; lia).
  exact IH.
Qed.

End Utf8.
