(* ===== verification/Shell.v ===== *)
(** How [/bin/sh -c] reads the command string that [run_alphafold3]
    passes to [subprocess.Popen(cmd, shell=True)] (lines 30-32 of
    [src/alphafold3.py]).  The model covers the part of the POSIX shell
    grammar the command string exercises: a backslash followed by a
    newline is removed (line continuation), blanks separate words, a
    newline or [;] ends a command, and the ordinary characters (letters,
    digits, [/ . _ - : = + , @ %] and bytes above 127) make up words.  Any
    other character (quotes, [$], [*], [&], [|], [#], [~], ...) would need
    the rest of the grammar (expansions, globbing, redirections, control
    operators): the reader then returns [None], "outside the model".  A
    [;] with no word before it is a shell syntax error, also [None]. *)

From Stdlib Require Import String Ascii List Bool Arith NArith Lia.
From S2P Require Import Prelude.
Import ListNotations.
Open Scope string_scope.

Module Sh.

Definition is_ordinary (c : ascii) : bool :=
  let n := N_of_ascii c in
  ((48 <=? n)%N && (n <=? 57)%N)            (* 0-9 *)
  || ((65 <=? n)%N && (n <=? 90)%N)         (* A-Z *)
  || ((97 <=? n)%N && (n <=? 122)%N)        (* a-z *)
  || (128 <=? n)%N
  || existsb (Ascii.eqb c) (list_ascii_of_string "/._-:=+,@%").

Definition is_blank (c : ascii) : bool := (c =? " ")%char || (c =? "009")%char.

Definition backslash : ascii := "\".
Definition newline : ascii := "010".
Definition semicolon : ascii := ";".

(** End the current word [w]; [inw] says whether a word has started
    (the word itself may be empty only when none has). *)
Definition flush_word (inw : bool) (w : string) (ws : list string) : list string :=
  if inw then ws ++ [w] else ws.

(** End the current command; an empty command line is skipped. *)
Definition flush_cmd (ws : list string) (cmds : list (list string)) : list (list string) :=
  match ws with [] => cmds | _ => cmds ++ [ws] end.

(** [sh_read s w inw ws cmds]: read [s] with current word [w], the words
    [ws] of the current command, and the finished commands [cmds]. *)
Fixpoint sh_read (s : string) (w : string) (inw : bool) (ws : list string)
  (cmds : list (list string)) : option (list (list string)) :=
  match s with
  | EmptyString => Some (flush_cmd (flush_word inw w ws) cmds)
  | String c rest =>
      if (c =? backslash)%char then
        match rest with
        | String c' rest' => if (c' =? newline)%char then sh_read rest' w inw ws cmds else None
        | EmptyString => None
        end
      else if is_blank c then sh_read rest "" false (flush_word inw w ws) cmds
      else if (c =? newline)%char then
        sh_read rest "" false [] (flush_cmd (flush_word inw w ws) cmds)
      else if (c =? semicolon)%char then
        match flush_word inw w ws with
        | [] => None
        | ws' => sh_read rest "" false [] (flush_cmd ws' cmds)
        end
      else if is_ordinary c then sh_read rest (w ++ String c "") true ws cmds
      else None
  end.

(** The simple commands the shell runs, each as its argument vector. *)
Definition sh_commands (s : string) : option (list (list string)) := sh_read s "" false [] [].

(** Every character of [s] is ordinary. *)
Definition sh_safe (s : string) : bool := chars_ok is_ordinary s.

(** No blank in [s]. *)
Definition no_blank (s : string) : bool := chars_ok (fun c => negb (is_blank c)) s.

(** ** Lemmas *)

Lemma sh_safe_cons c s : sh_safe (String c s) = is_ordinary c && sh_safe s.
Proof. reflexivity. Qed.

Lemma ordinary_not_special c :
  is_ordinary c = true ->
  (c =? backslash)%char = false /\ is_blank c = false /\
  (c =? newline)%char = false /\ (c =? semicolon)%char = false.
Proof.
  intros H. destruct c as [[] [] [] [] [] [] [] []]; try discriminate; repeat split; reflexivity.
Qed.

(** A run of ordinary characters extends the current word. *)
Lemma sh_read_safe x rest w inw ws cmds :
  sh_safe x = true ->
  sh_read (x ++ rest) w inw ws cmds = sh_read rest (w ++ x) (inw || negb (x =? "")%string) ws cmds.
Proof.
  revert w inw. induction x as [|c x IH]; intros w inw Hx.
  - now rewrite append_nil_r, orb_false_r.
  - rewrite sh_safe_cons in Hx. apply andb_prop in Hx as [Hc Hx].
    destruct (ordinary_not_special c Hc) as (H1 & H2 & H3 & H4).
    simpl. rewrite H1, H2, H3, H4, Hc, IH by exact Hx. simpl.
    now rewrite append_assoc, orb_true_r.
Qed.

Lemma sh_safe_app a b : sh_safe (a ++ b) = sh_safe a && sh_safe b.
Proof. apply chars_ok_app. Qed.

#[export] Hint Rewrite sh_safe_app : af3_rw.

Lemma no_blank_app a b : no_blank (a ++ b) = no_blank a && no_blank b.
Proof. apply chars_ok_app. Qed.

Definition words_ok (ws : list string) : Prop := Forall (fun w => no_blank w = true) ws.

Lemma words_ok_flush inw w ws : no_blank w = true -> words_ok ws -> words_ok (flush_word inw w ws).
Proof. intros Hw Hws. unfold flush_word. destruct inw; [apply Forall_app; auto | exact Hws]. Qed.

Lemma cmds_ok_flush ws cmds :
  words_ok ws -> Forall words_ok cmds -> Forall words_ok (flush_cmd ws cmds).
Proof. intros Hws Hc. unfold flush_cmd. destruct ws; [exact Hc | apply Forall_app; auto]. Qed.

(** Blanks only separate words: no word the reader produces contains
    one. *)
Lemma sh_read_no_blank s : forall w inw ws cmds out,
  no_blank w = true -> words_ok ws -> Forall words_ok cmds ->
  sh_read s w inw ws cmds = Some out -> Forall words_ok out.
Proof.
  remember (String.length s) as n eqn:Hn. revert s Hn.
  induction n as [n IH] using lt_wf_ind. intros s Hn w inw ws cmds out Hw Hws Hc H.
  destruct s as [|c s]; simpl in H.
  { inv H. apply cmds_ok_flush; [apply words_ok_flush|]; assumption. }
  simpl in Hn.
  assert (Hempty : no_blank "" = true) by reflexivity.
  destruct ((c =? backslash)%char).
  { destruct s as [|c' s']; [discriminate|]. destruct ((c' =? newline)%char); [|discriminate].
    simpl in Hn. exact (IH (String.length s') ltac:(lia) s' eq_refl _ _ _ _ _ Hw Hws Hc H). }
  destruct (is_blank c) eqn:Hb.
  { exact (IH (String.length s) ltac:(lia) s eq_refl _ _ _ _ _ Hempty (words_ok_flush _ _ _ Hw Hws) Hc H). }
  destruct ((c =? newline)%char).
  { refine (IH (String.length s) ltac:(lia) s eq_refl _ _ _ _ _ Hempty (Forall_nil _) _ H).
    apply cmds_ok_flush; [apply words_ok_flush|]; assumption. }
  destruct ((c =? semicolon)%char).
  { pose proof (words_ok_flush inw w ws Hw Hws) as Hf.
    destruct (flush_word inw w ws) as [|w0 ws0]; [discriminate|].
    exact (IH (String.length s) ltac:(lia) s eq_refl _ _ _ _ _ Hempty (Forall_nil _) (cmds_ok_flush _ _ Hf Hc) H). }
  destruct (is_ordinary c); [|discriminate].
  refine (IH (String.length s) ltac:(lia) s eq_refl _ _ _ _ _ _ Hws Hc H).
  rewrite no_blank_app, Hw. change (no_blank (String c "")) with (negb (is_blank c) && true). now rewrite Hb.
Qed.

Lemma sh_commands_no_blank s cmds :
  sh_commands s = Some cmds -> Forall (fun w => no_blank w = true) (concat cmds).
Proof.
  intros H. apply Forall_concat.
  exact (sh_read_no_blank s "" false [] [] cmds eq_refl (Forall_nil _) (Forall_nil _) H).
Qed.

End Sh.
