(* ===== verification/Argparse.v ===== *)
(** Python's [argparse], as [src/alphafold3.py] uses it (lines 46-83):
    an [ArgumentParser] with its default [-h/--help], positional and
    optional arguments with [nargs=None] or [nargs="+"], [store_true]
    flags, [required=True] options, [dest=], and [parse_args()] with its
    default settings ([allow_abbrev=True], [exit_on_error=True], no
    [fromfile_prefix_chars], no mutually exclusive groups).

    The model follows [ArgumentParser._parse_known_args] of CPython 3.12:
    every string is first classified by [_parse_optional] ([A] for an
    argument, [O] for an option, with the exact, [--opt=value] and
    abbreviated forms, the negative-number and space rules); then the
    positional arguments are matched greedily against the runs of [A]s
    before each option ([consume_positionals] with
    [_match_arguments_partial]), each option consumes its arguments
    ([consume_optional]), required arguments are checked, and leftover
    strings are refused ("unrecognized arguments").

    Two inputs whose handling differs between CPython releases are
    answered [Unsupported] rather than modelled: the separator [--]
    (3.13 changed which occurrences are removed) and a single-dash flag
    with characters after it, such as [-hx] (3.12.7 changed how such
    flags are chained).  A single-dash string with a non-ASCII byte that
    reaches the negative-number test is also [Unsupported] ([\d] matches
    every Unicode decimal digit). *)

From Stdlib Require Import String Ascii List Bool Arith Lia.
From S2P Require Import Prelude.
Import ListNotations.
Open Scope string_scope.

Module Argparse.

(** [nargs=None] (exactly one string) and [nargs="+"]. *)
Inductive nargs : Type := NOne | NPlus.

(** The actions the parser uses: [store] (the default), [store_true],
    and the [help] action [ArgumentParser] adds. *)
Inductive kind : Type :=
| Store (n : nargs)
| StoreTrue
| Help.

(** The values [parse_args] stores in the namespace (the options have no
    [type=], so arguments stay strings). *)
Inductive value : Type :=
| VNone
| VBool (b : bool)
| VStr (s : string)
| VList (l : list string).

(** An [Action]: its option strings ([[]] for a positional), [dest],
    kind, [required], and [default] ([None] for [argparse.SUPPRESS]). *)
Record action : Type := mk_action {
  act_opts : list string;
  act_dest : string;
  act_kind : kind;
  act_required : bool;
  act_default : option value
}.

(** A parser is its list [self._actions], in order of registration. *)
Definition parser : Type := list action.

Definition dash : ascii := "-"%char.
Definition is_dash (c : ascii) : bool := Ascii.eqb c dash.

(** [ArgumentParser(...)] with [add_help=True]: the [-h/--help] action,
    whose [dest] and [default] are [SUPPRESS]. *)
Definition help_action : action := mk_action ["-h"; "--help"] "help" Help false None.

Definition new_parser : parser := [help_action].

(** [add_argument(name, nargs=n)] for a positional: [required] is set
    because [nargs] is neither ["?"] nor ["*"]; the default is [None]. *)
Definition positional (name : string) (n : nargs) : action :=
  mk_action [] name (Store n) true (Some VNone).

(** [s.lstrip("-")]. *)
Fixpoint lstrip_dash (s : string) : string :=
  match s with
  | String c s' => if is_dash c then lstrip_dash s' else s
  | EmptyString => s
  end.

(** [s.replace("-", "_")]. *)
Fixpoint dash_to_underscore (s : string) : string :=
  match s with
  | String c s' => String (if is_dash c then "_"%char else c) (dash_to_underscore s')
  | EmptyString => s
  end.

(** A long option string: its second character is a prefix character. *)
Definition is_long (o : string) : bool :=
  match o with String _ (String c _) => is_dash c | _ => false end.

(** [_get_optional_kwargs]: without [dest=], the first long option string
    (else the first one), its leading dashes stripped, ['-'] made ['_']. *)
Definition infer_dest (opts : list string) : string :=
  let o := match filter is_long opts with o :: _ => o | [] => hd "" opts end in
  dash_to_underscore (lstrip_dash o).

(** [add_argument(opt, ..., action=..., required=..., dest=...)] for an
    optional: [store] defaults to [None], [store_true] to [False]. *)
Definition optional (opts : list string) (dest : option string) (k : kind) (required : bool)
  : action :=
  mk_action opts (match dest with Some d => d | None => infer_dest opts end) k required
            (Some (match k with StoreTrue => VBool false | _ => VNone end)).

(** Every option string registered, in order. *)
Definition all_opts (p : parser) : list string := flat_map act_opts p.

(** [add_argument]: [_check_conflict] with [conflict_handler="error"]
    raises [ArgumentError] naming the option strings already
    registered. *)
Definition add_argument (p : parser) (a : action) : list string + parser :=
  match filter (fun o => existsb (String.eqb o) (all_opts p)) (act_opts a) with
  | [] => inr (p ++ [a])%list
  | conflicts => inl conflicts
  end.

Fixpoint add_arguments (p : parser) (l : list action) : list string + parser :=
  match l with
  | [] => inr p
  | a :: l' => match add_argument p a with inr p' => add_arguments p' l' | inl c => inl c end
  end.

(** ** Classifying one string: [_parse_optional] *)

(** [self._option_string_actions]: each option string with the index of
    its action in [self._actions] (the identity argparse compares). *)
Definition option_table (p : parser) : list (string * (nat * action)) :=
  concat (imap (fun i a => map (fun o => (o, (i, a))) (act_opts a)) 0 p).

Fixpoint assoc {A} (k : string) (l : list (string * A)) : option A :=
  match l with
  | [] => None
  | (k', v) :: l' => if String.eqb k k' then Some v else assoc k l'
  end.

(** [s.partition("=")]: the part before the first ['='], and the part
    after it when there is one. *)
Fixpoint partition_eq (s : string) : string * option string :=
  match s with
  | EmptyString => ("", None)
  | String c s' =>
      if Ascii.eqb c "="%char then ("", Some s')
      else let (a, b) := partition_eq s' in (String c a, b)
  end.

Definition is_digit (c : ascii) : bool :=
  Nat.leb 48 (nat_of_ascii c) && Nat.leb (nat_of_ascii c) 57.

Definition digits1 (s : string) : bool :=
  match s with EmptyString => false | _ => chars_ok is_digit s end.

(** [\d*\.\d+]. *)
Fixpoint frac (s : string) : bool :=
  match s with
  | EmptyString => false
  | String c s' => if Ascii.eqb c "."%char then digits1 s' else is_digit c && frac s'
  end.

Definition newline : ascii := "010"%char.

(** [$] also matches before a final newline. *)
Definition strip_final_newline (s : string) : string :=
  match String.length s with
  | 0 => s
  | S n => if String.eqb (substring n 1 s) (String newline "") then substring 0 n s else s
  end.

(** [_negative_number_matcher]: ['^-\d+$|^-\d*\.\d+$']. *)
Definition neg_number (s : string) : bool :=
  match s with
  | String c r => is_dash c && (digits1 (strip_final_newline r) || frac (strip_final_newline r))
  | EmptyString => false
  end.

Definition is_ascii (c : ascii) : bool := Nat.ltb (nat_of_ascii c) 128.

Definition has_space (s : string) : bool :=
  negb (chars_ok (fun c => negb (Ascii.eqb c " "%char)) s).

(** A candidate interpretation of an option string: the action (with
    its index), the option string matched, and the explicit argument. *)
Definition otuple : Type := (nat * action * string * option string)%type.

(** [_get_option_tuples]: with two leading dashes, the registered option
    strings that start with the part before ['='] ([allow_abbrev]); with
    one, the option equal to its first two characters (the rest is its
    argument) and those that start with the whole string. *)
Definition option_tuples (tbl : list (string * (nat * action))) (s : string) : list otuple :=
  match s with
  | String c1 (String c2 rest) =>
      if is_dash c1 && is_dash c2 then
        let (pre, ex) := partition_eq s in
        map (fun '(o, ia) => (ia, o, ex)) (filter (fun '(o, _) => prefix pre o) tbl)
      else if is_dash c1 then
        flat_map (fun '(o, ia) =>
                    if String.eqb o (String c1 (String c2 "")) then [(ia, o, Some rest)]
                    else if prefix s o then [(ia, o, None)] else []) tbl
      else []
  | _ => []
  end.

(** An [O] of the pattern: a registered action, or an unknown option. *)
Inductive otoken : Type :=
| OKnown (i : nat) (a : action) (opt : string) (explicit : option string)
| OUnknown.

(** What [_parse_optional] decides for one string: [A] ([CPos]), [O],
    the "ambiguous option" error, or [CUnsupported]. *)
Inductive cls : Type :=
| CPos
| COpt (o : otoken)
| CAmbiguous (matches : list string)
| CUnsupported.

Definition otuple_token (t : otuple) : otoken :=
  let '(i, a, o, ex) := t in OKnown i a o ex.

(** [_negative_number_matcher] could match with a Unicode digit: a
    single-dash string with a non-ASCII byte. *)
Definition unicode_digit_possible (s : string) : bool :=
  match s with
  | String _ (String c2 _) => negb (is_dash c2) && negb (chars_ok is_ascii s)
  | _ => false
  end.

Definition parse_optional (tbl : list (string * (nat * action))) (s : string) : cls :=
  match s with
  | EmptyString => CPos
  | String c _ =>
      if negb (is_dash c) then CPos else
      match assoc s tbl with
      | Some (i, a) => COpt (OKnown i a s None)
      | None =>
          if Nat.eqb (String.length s) 1 then CPos else
          let explicit_hit :=
            match partition_eq s with
            | (o, Some ex) =>
                match assoc o tbl with
                | Some (i, a) => Some (OKnown i a o (Some ex))
                | None => None
                end
            | (_, None) => None
            end in
          match explicit_hit with
          | Some t => COpt t
          | None =>
              let has_neg := existsb (fun p => neg_number (fst p)) tbl in
              match option_tuples tbl s with
              | [t] => COpt (otuple_token t)
              | (_ :: _ :: _) as ts => CAmbiguous (map (fun '(_, _, o, _) => o) ts)
              | [] =>
                  if neg_number s && negb has_neg then CPos
                  else if has_space s then CPos
                  else if negb has_neg && unicode_digit_possible s then CUnsupported
                  else COpt OUnknown
              end
          end
      end
  end.

(** ** Parsing: [_parse_known_args] and [parse_args] *)

(** The errors [parse_args] reports with [parser.error] (the usage and
    the message go to stderr, then [SystemExit(2)]); [name] is
    [_get_action_name]: the option strings joined by ['/'], or the
    [dest] of a positional. *)
Inductive err : Type :=
| ErrAmbiguous (arg : string) (matches : list string)
| ErrExpectedOne (name : string)
| ErrExpectedAtLeastOne (name : string)
| ErrIgnoredExplicit (name : string) (arg : string)
| ErrRequired (names : list string)
| ErrUnrecognized (args : list string).

(** Why parsing stops early: the help action ([print_help()] then
    [SystemExit(0)]), an error, or an input outside the model. *)
Inductive stop : Type :=
| SHelp
| SErr (e : err)
| SUnsupported.

Inductive result : Type :=
| Parsed (ns : list (string * value))
| HelpExit
| Error (e : err)
| Unsupported.

Definition of_stop (s : stop) : result :=
  match s with SHelp => HelpExit | SErr e => Error e | SUnsupported => Unsupported end.

Definition action_name (a : action) : string :=
  match act_opts a with [] => act_dest a | os => join "/" os end.

(** The loop of [_parse_known_args] that builds [arg_strings_pattern]:
    after [--] every string is an argument (outside the model); the
    first ambiguous option string raises. *)
Fixpoint classify_all (tbl : list (string * (nat * action))) (argv : list string)
  : stop + list (string * option otoken) :=
  match argv with
  | [] => inr []
  | s :: argv' =>
      if String.eqb s "--" then inl SUnsupported else
      let rest := classify_all tbl argv' in
      match parse_optional tbl s with
      | CAmbiguous m => inl (SErr (ErrAmbiguous s m))
      | CUnsupported => match rest with inl (SErr e) => inl (SErr e) | _ => inl SUnsupported end
      | CPos => match rest with inl x => inl x | inr l => inr ((s, None) :: l) end
      | COpt o => match rest with inl x => inl x | inr l => inr ((s, Some o) :: l) end
      end
  end.

(** The pattern cut at each [O]: the run of [A]s before the first
    option, then each option with the run of [A]s after it. *)
Fixpoint split_runs (l : list (string * option otoken))
  : list string * list (string * otoken * list string) :=
  match l with
  | [] => ([], [])
  | (s, None) :: l' => let (r, segs) := split_runs l' in (s :: r, segs)
  | (s, Some o) :: l' => let (r, segs) := split_runs l' in ([], (s, o, r) :: segs)
  end.

(** The state of [_parse_known_args]: the namespace (a later [setattr]
    shadows an earlier one), [seen_actions] (by index), [extras], and the
    positionals not consumed yet. *)
Record pstate : Type := mk_pstate {
  st_ns : list (string * value);
  st_seen : list nat;
  st_extras : list string;
  st_pos : list (nat * action)
}.

Definition set_attr (d : string) (v : value) (st : pstate) : pstate :=
  mk_pstate ((d, v) :: st_ns st) (st_seen st) (st_extras st) (st_pos st).

Definition mark_seen (i : nat) (st : pstate) : pstate :=
  mk_pstate (st_ns st) (i :: st_seen st) (st_extras st) (st_pos st).

Definition add_extras (l : list string) (st : pstate) : pstate :=
  mk_pstate (st_ns st) (st_seen st) (st_extras st ++ l)%list (st_pos st).

Definition set_pos (ps : list (nat * action)) (st : pstate) : pstate :=
  mk_pstate (st_ns st) (st_seen st) (st_extras st) ps.

(** The defaults [parse_known_args] sets before parsing, for every
    action whose [dest] is not set yet and whose default is not
    [SUPPRESS]. *)
Definition init_ns (p : parser) : list (string * value) :=
  fold_left (fun ns a => match act_default a, assoc (act_dest a) ns with
                         | Some v, None => (act_dest a, v) :: ns
                         | _, _ => ns
                         end) p [].

Definition indexed (p : parser) : list (nat * action) := imap pair 0 p.

Definition init_state (p : parser) : pstate :=
  mk_pstate (init_ns p) [] [] (filter (fun ia => match act_opts (snd ia) with [] => true | _ => false end)
                                     (indexed p)).

(** [take_action]: mark the action seen, then call it with
    [_get_values]: one string for [nargs=None], the list for ["+"];
    [store_true] stores [True]; [help] prints the help and exits. *)
Definition take_action (ia : nat * action) (args : list string) (st : pstate) : stop + pstate :=
  let st' := mark_seen (fst ia) st in
  let a := snd ia in
  match act_kind a with
  | Help => inl SHelp
  | StoreTrue => inr (set_attr (act_dest a) (VBool true) st')
  | Store n => inr (set_attr (act_dest a) (match n, args with NOne, [x] => VStr x | _, _ => VList args end) st')
  end.

Definition pos_nargs (a : action) : nargs := match act_kind a with Store n => n | _ => NOne end.

(** The counts of the regular expression [_match_arguments_partial]
    matches on [k] strings [A] for positionals with at most [k] of them
    in all: each takes one string, except the first ["+"], which
    greedily takes what the ones after it leave. *)
Fixpoint alloc (ns : list nargs) (k : nat) : list nat :=
  match ns with
  | [] => []
  | NOne :: ns' => 1 :: alloc ns' (k - 1)
  | NPlus :: ns' => (k - length ns') :: map (fun _ => 1) ns'
  end.

Fixpoint assign (ps : list (nat * action)) (counts : list nat) (run : list string) (st : pstate)
  : stop + pstate :=
  match ps, counts with
  | p :: ps', c :: cs =>
      match take_action p (firstn c run) st with
      | inl x => inl x
      | inr st' => assign ps' cs (skipn c run) st'
      end
  | _, _ => inr st
  end.

(** [consume_positionals] on a run of [k] strings [A]: the longest
    prefix of the remaining positionals that can match ([min] of their
    number and [k], each needing one string), then the strings they do
    not take. *)
Definition consume_positionals (st : pstate) (run : list string) : stop + (pstate * list string) :=
  let k := length run in
  let i := Nat.min (length (st_pos st)) k in
  let ps := firstn i (st_pos st) in
  let counts := alloc (map (fun ia => pos_nargs (snd ia)) ps) k in
  match assign ps counts run (set_pos (skipn i (st_pos st)) st) with
  | inl x => inl x
  | inr st' => inr (st', skipn (list_sum counts) run)
  end.

(** [consume_optional] for the option [s] followed by the run [run]:
    an unknown option goes to [extras]; an explicit argument
    ([--opt=value]) is the only one taken, and is refused by a flag; an
    option with [nargs=None] takes the next string, one with ["+"] the
    whole run; [match_argument] raises when the run is too short. *)
Definition consume_optional (o : otoken) (s : string) (run : list string) (st : pstate)
  : stop + (pstate * list string) :=
  let with_run r := match r with inl x => inl x | inr st' => inr (st', run) end in
  match o with
  | OUnknown => inr (add_extras [s] st, run)
  | OKnown i a opt ex =>
      match ex, act_kind a with
      | Some e, Store _ => with_run (take_action (i, a) [e] st)
      | Some e, _ =>
          if negb (String.eqb e "") && negb (is_long opt) then inl SUnsupported
          else inl (SErr (ErrIgnoredExplicit (action_name a) e))
      | None, Store NOne =>
          match run with
          | x :: r => match take_action (i, a) [x] st with inl y => inl y | inr st' => inr (st', r) end
          | [] => inl (SErr (ErrExpectedOne (action_name a)))
          end
      | None, Store NPlus =>
          match run with
          | [] => inl (SErr (ErrExpectedAtLeastOne (action_name a)))
          | _ => match take_action (i, a) run st with inl y => inl y | inr st' => inr (st', []) end
          end
      | None, _ => with_run (take_action (i, a) [] st)
      end
  end.

(** The main loop: positionals on the run before each option, then the
    option; after the last option, the positionals once more, and what
    they leave goes to [extras]. *)
Fixpoint parse_segments (st : pstate) (run : list string) (segs : list (string * otoken * list string))
  : stop + pstate :=
  match consume_positionals st run with
  | inl x => inl x
  | inr (st1, leftover) =>
      let st2 := add_extras leftover st1 in
      match segs with
      | [] => inr st2
      | (s, o, run') :: segs' =>
          match consume_optional o s run' st2 with
          | inl x => inl x
          | inr (st3, r) => parse_segments st3 r segs'
          end
      end
  end.

(** The required actions not seen, in the order of [self._actions]. *)
Definition required_missing (p : parser) (seen : list nat) : list string :=
  concat (imap (fun i a => if act_required a && negb (existsb (Nat.eqb i) seen)
                           then [action_name a] else []) 0 p).

(** [parser.parse_args(argv)]: "the following arguments are required"
    is reported before "unrecognized arguments". *)
Definition parse_args (p : parser) (argv : list string) : result :=
  match classify_all (option_table p) argv with
  | inl s => of_stop s
  | inr toks =>
      let (run0, segs) := split_runs toks in
      match parse_segments (init_state p) run0 segs with
      | inl s => of_stop s
      | inr st =>
          match required_missing p (st_seen st) with
          | (_ :: _) as names => Error (ErrRequired names)
          | [] => match st_extras st with
                  | [] => Parsed (st_ns st)
                  | ex => Error (ErrUnrecognized ex)
                  end
          end
      end
  end.

(** ** Definitions the lemmas are stated with *)

(** A string [_parse_optional] always takes as an argument: it does not
    start with ['-']. *)
Definition plain (s : string) : bool :=
  match s with String c _ => negb (is_dash c) | EmptyString => true end.

(** The value [init_ns] gives [dest]: the default of the first action
    with that [dest] and a default that is not [SUPPRESS]. *)
Fixpoint default_of (p : parser) (d : string) : option value :=
  match p with
  | [] => None
  | a :: p' =>
      match act_default a with
      | Some v => if String.eqb d (act_dest a) then Some v else default_of p' d
      | None => default_of p' d
      end
  end.

Definition is_optional (a : action) : bool := match act_opts a with [] => false | _ => true end.

Definition not_help (a : action) : bool := match act_kind a with Help => false | _ => true end.

(** The type an action's declaration gives the values it stores. *)
Definition shape_ok (a : action) (v : value) : Prop :=
  match act_kind a, v with
  | Store NOne, VStr _ => True
  | Store NPlus, VList (_ :: _) => True
  | StoreTrue, VBool true => True
  | _, _ => False
  end.

(** Every attribute of the namespace is the default of an action with
    that [dest], or a value of the type that action declares. *)
Definition ns_inv (p : parser) (ns : list (string * value)) : Prop :=
  forall d v, assoc d ns = Some v ->
  exists a, In a p /\ act_dest a = d /\ (act_default a = Some v \/ shape_ok a v).

(** ** Lemmas *)

Lemma parse_optional_plain tbl s : plain s = true -> parse_optional tbl s = CPos.
Proof. destruct s as [|c s]; simpl; [reflexivity|]. now intros ->. Qed.

Lemma plain_not_sep s : plain s = true -> String.eqb s "--" = false.
Proof.
  intros H. apply String.eqb_neq. intros ->. discriminate H.
Qed.

Lemma classify_cons_plain tbl s argv :
  plain s = true ->
  classify_all tbl (s :: argv) =
  match classify_all tbl argv with inl x => inl x | inr l => inr ((s, None) :: l) end.
Proof. intros H. simpl. now rewrite plain_not_sep, parse_optional_plain by exact H. Qed.

Lemma classify_all_plain tbl xs rest :
  forallb plain xs = true ->
  classify_all tbl (xs ++ rest) =
  match classify_all tbl rest with
  | inl x => inl x
  | inr l => inr (map (fun s => (s, None)) xs ++ l)%list
  end.
Proof.
  induction xs as [|s xs IH]; intros H; [simpl; now destruct (classify_all tbl rest)|].
  simpl in H. apply andb_prop in H as [H1 H2]. rewrite <- app_comm_cons.
  rewrite classify_cons_plain, IH by assumption. now destruct (classify_all tbl rest).
Qed.

Lemma split_runs_plain xs l :
  split_runs (map (fun s => (s, None)) xs ++ l)%list =
  let (r, segs) := split_runs l in ((xs ++ r)%list, segs).
Proof.
  induction xs as [|s xs IH]; simpl; [now destruct (split_runs l)|].
  rewrite IH. now destruct (split_runs l).
Qed.

Lemma add_arguments_spec p l q : add_arguments p l = inr q -> q = (p ++ l)%list.
Proof.
  revert p. induction l as [|a l IH]; simpl; intros p H; [inv H; now rewrite app_nil_r|].
  unfold add_argument in H. destruct (filter _ _); [|discriminate].
  rewrite (IH _ H). now rewrite <- app_assoc.
Qed.

Lemma add_arguments_app p l1 l2 :
  add_arguments p (l1 ++ l2)%list =
  match add_arguments p l1 with inr r => add_arguments r l2 | inl c => inl c end.
Proof.
  revert p. induction l1 as [|a l1 IH]; simpl; intros p; [reflexivity|].
  destruct (add_argument p a); [reflexivity | apply IH].
Qed.

Lemma init_ns_fold p ns d :
  assoc d (fold_left (fun ns a => match act_default a, assoc (act_dest a) ns with
                                  | Some v, None => (act_dest a, v) :: ns
                                  | _, _ => ns
                                  end) p ns) =
  match assoc d ns with Some v => Some v | None => default_of p d end.
Proof.
  revert ns. induction p as [|a p IH]; intros ns; simpl; [now destruct (assoc d ns)|].
  rewrite IH. destruct (act_default a) as [v|]; [|reflexivity].
  destruct (String.eqb d (act_dest a)) eqn:E.
  - apply String.eqb_eq in E. subst.
    destruct (assoc (act_dest a) ns) eqn:Ha; simpl; rewrite ?String.eqb_refl, ?Ha; reflexivity.
  - destruct (assoc (act_dest a) ns); simpl; rewrite ?E; reflexivity.
Qed.

Lemma init_ns_assoc p d : assoc d (init_ns p) = default_of p d.
Proof. apply init_ns_fold. Qed.

Lemma default_of_app p1 p2 d :
  default_of (p1 ++ p2)%list d = match default_of p1 d with Some v => Some v | None => default_of p2 d end.
Proof.
  induction p1 as [|a p1 IH]; simpl; [reflexivity|].
  destruct (act_default a); [destruct (String.eqb d (act_dest a))|]; auto.
Qed.

Lemma indexed_app p1 p2 :
  indexed (p1 ++ p2)%list = (indexed p1 ++ imap pair (length p1) p2)%list.
Proof. unfold indexed. now rewrite imap_app. Qed.

Lemma filter_positional_optionals (l : list action) i :
  forallb is_optional l = true ->
  filter (fun ia => match act_opts (snd ia) with [] => true | _ => false end) (imap pair i l) = [].
Proof.
  revert i. induction l as [|a l IH]; intros i; simpl; [reflexivity|].
  intros H. apply andb_prop in H as [Ha Hl]. unfold is_optional in Ha.
  destruct (act_opts a); [discriminate|]. now apply IH.
Qed.

Lemma required_missing_app p1 p2 seen :
  forallb (fun a => negb (act_required a)) p2 = true ->
  required_missing (p1 ++ p2)%list seen = required_missing p1 seen.
Proof.
  unfold required_missing. rewrite imap_app, concat_app. intros H.
  enough (E : forall i, concat (imap (fun i a => if act_required a && negb (existsb (Nat.eqb i) seen)
                                                 then [action_name a] else []) i p2) = []).
  { now rewrite E, app_nil_r. }
  induction p2 as [|a p2 IH]; intros i; simpl in *; [reflexivity|].
  apply andb_prop in H as [Ha Hp]. destruct (act_required a); [discriminate|]. simpl. now apply IH.
Qed.

Lemma parse_optional_known tbl s i a :
  assoc s tbl = Some (i, a) -> plain s = false -> parse_optional tbl s = COpt (OKnown i a s None).
Proof.
  intros Ha Hp. destruct s as [|c s']; [discriminate|]. simpl in Hp.
  unfold parse_optional. now rewrite Hp, Ha.
Qed.

Lemma classify_cons_known tbl s i a rest :
  assoc s tbl = Some (i, a) -> plain s = false -> String.eqb s "--" = false ->
  classify_all tbl (s :: rest) =
  match classify_all tbl rest with inl x => inl x | inr l => inr ((s, Some (OKnown i a s None)) :: l) end.
Proof.
  intros Ha Hp Hs. simpl. rewrite Hs. now rewrite (parse_optional_known tbl s i a Ha Hp).
Qed.

Lemma assoc_app {A} k (l1 l2 : list (string * A)) :
  assoc k (l1 ++ l2)%list = match assoc k l1 with Some v => Some v | None => assoc k l2 end.
Proof. induction l1 as [|[k' v] l1 IH]; simpl; [reflexivity|]. now destruct (String.eqb k k'). Qed.

Lemma option_table_app p1 p2 :
  option_table (p1 ++ p2)%list =
  (option_table p1 ++ concat (imap (fun i a => map (fun o => (o, (i, a))) (act_opts a)) (length p1) p2))%list.
Proof. unfold option_table. now rewrite imap_app, concat_app. Qed.

Lemma classify_all_all_plain tbl xs :
  forallb plain xs = true -> classify_all tbl xs = inr (map (fun s => (s, None)) xs).
Proof. intros H. rewrite <- (app_nil_r xs), classify_all_plain by exact H. simpl. now rewrite !app_nil_r. Qed.

Lemma split_runs_all_plain xs : split_runs (map (fun s => (s, None)) xs) = (xs, []).
Proof. rewrite <- (app_nil_r (map _ xs)), split_runs_plain. simpl. now rewrite app_nil_r. Qed.

Lemma option_tuples_app tbl1 tbl2 s :
  option_tuples (tbl1 ++ tbl2) s = (option_tuples tbl1 s ++ option_tuples tbl2 s)%list.
Proof.
  unfold option_tuples. destruct s as [|c1 [|c2 rest]]; try reflexivity.
  destruct (is_dash c1 && is_dash c2); [destruct (partition_eq _); now rewrite filter_app, map_app|].
  destruct (is_dash c1); [apply flat_map_app | reflexivity].
Qed.

Lemma prefix_self s : prefix s s = true.
Proof. induction s as [|c s IH]; simpl; [reflexivity|]. destruct (ascii_dec c c); [exact IH | congruence]. Qed.

(** A table none of whose option strings starts with [s] has no entry
    for [s]. *)
Lemma assoc_prefix_free {A} s (tbl : list (string * A)) :
  filter (fun '(o, _) => prefix s o) tbl = [] -> assoc s tbl = None.
Proof.
  induction tbl as [|[k v] tbl IH]; simpl; [reflexivity|].
  destruct (String.eqb s k) eqn:E.
  - apply String.eqb_eq in E. subst. now rewrite prefix_self.
  - destruct (prefix s k); [discriminate | exact IH].
Qed.

Lemma option_tuples_long tbl r :
  partition_eq r = (r, None) ->
  option_tuples tbl (String "-" (String "-" r)) =
  map (fun '(o, ia) => (ia, o, None)) (filter (fun '(o, _) => prefix (String "-" (String "-" r)) o) tbl).
Proof. intros H. unfold option_tuples. cbn [partition_eq]. rewrite H. reflexivity. Qed.

(** [allow_abbrev]: a long option with no ['='] that is not registered
    and starts exactly one registered option string is read as that
    option. *)
Lemma parse_optional_abbrev tbl r t :
  assoc (String "-" (String "-" r)) tbl = None -> partition_eq r = (r, None) ->
  option_tuples tbl (String "-" (String "-" r)) = [t] ->
  parse_optional tbl (String "-" (String "-" r)) = COpt (otuple_token t).
Proof.
  intros Ha Hpe Ht. unfold parse_optional. rewrite Ha, Ht. cbn [partition_eq]. rewrite Hpe. reflexivity.
Qed.

Lemma classify_cons_opt tbl s o rest :
  String.eqb s "--" = false -> parse_optional tbl s = COpt o ->
  classify_all tbl (s :: rest) =
  match classify_all tbl rest with inl x => inl x | inr l => inr ((s, Some o) :: l) end.
Proof. intros Hs Ho. simpl. now rewrite Hs, Ho. Qed.

Lemma take_action_not_help ia args st :
  not_help (snd ia) = true -> exists st', take_action ia args st = inr st'.
Proof. unfold take_action, not_help. destruct (act_kind (snd ia)); try discriminate; eauto. Qed.

Lemma assign_not_help ps counts run st :
  forallb (fun ia => not_help (snd ia)) ps = true -> exists st', assign ps counts run st = inr st'.
Proof.
  revert counts run st. induction ps as [|ia ps IH]; intros counts run st H;
    [destruct counts; simpl; eauto|].
  cbn [forallb] in H. apply andb_prop in H as [H1 H2].
  destruct counts as [|c cs]; [simpl; eauto|]. simpl.
  destruct (take_action_not_help ia (firstn c run) st H1) as [st' ->]. apply IH, H2.
Qed.

(** Positionals that are not the help action never stop the parse. *)
Lemma consume_positionals_not_help st run :
  forallb (fun ia => not_help (snd ia)) (st_pos st) = true ->
  exists st' r, consume_positionals st run = inr (st', r).
Proof.
  intros H. unfold consume_positionals.
  set (i := Nat.min (length (st_pos st)) (length run)).
  destruct (assign_not_help (firstn i (st_pos st))
              (alloc (map (fun ia => pos_nargs (snd ia)) (firstn i (st_pos st))) (length run))
              run (set_pos (skipn i (st_pos st)) st)) as [st' ->]; [|eauto].
  rewrite <- (firstn_skipn i (st_pos st)), forallb_app in H. now apply andb_prop in H as [H _].
Qed.

(** *** The namespace invariant *)

Definition cnt_ok (n : nargs) (c : nat) : Prop :=
  match n with NOne => c = 1 | NPlus => 1 <= c end.

(** The strings a call of [take_action] receives fit the action. *)
Definition args_ok (a : action) (args : list string) : Prop :=
  match act_kind a with
  | Store NOne => exists x, args = [x]
  | Store NPlus => args <> []
  | _ => True
  end.

Definition tok_in (p : parser) (o : otoken) : Prop :=
  match o with OKnown _ a _ _ => In a p | OUnknown => True end.

Definition st_inv (p : parser) (st : pstate) : Prop :=
  ns_inv p (st_ns st) /\ Forall (fun ia => In (snd ia) p) (st_pos st).

Lemma alloc_ok ns k :
  length ns <= k -> Forall2 cnt_ok ns (alloc ns k) /\ list_sum (alloc ns k) <= k.
Proof.
  revert k. induction ns as [|n ns IH]; intros k Hk; simpl in *; [split; [constructor | lia]|].
  destruct n.
  - destruct (IH (k - 1)) as [H1 H2]; [lia|]. split; [constructor; [reflexivity | exact H1]|]. simpl. lia.
  - split.
    + constructor; [simpl; lia|]. clear IH Hk. induction ns as [|[|] ns IH']; constructor; simpl; auto.
    + simpl. enough (list_sum (map (fun _ : nargs => 1) ns) = length ns) by lia.
      clear. induction ns; simpl; auto.
Qed.

Lemma ns_inv_cons p ns d v :
  ns_inv p ns -> (exists a, In a p /\ act_dest a = d /\ (act_default a = Some v \/ shape_ok a v)) ->
  ns_inv p ((d, v) :: ns).
Proof.
  intros Hns Hv d' v' H. simpl in H.
  destruct (String.eqb d' d) eqn:E; [|now apply Hns].
  apply String.eqb_eq in E. subst. now inv H.
Qed.

Lemma take_action_inv p ia args st st' :
  In (snd ia) p -> args_ok (snd ia) args -> st_inv p st ->
  take_action ia args st = inr st' -> st_inv p st'.
Proof.
  destruct ia as [i a]. unfold take_action, args_ok, st_inv. simpl.
  intros Hin Hargs [Hns Hpos] H.
  destruct (act_kind a) as [[|]| |] eqn:K; inv H; (split; [|exact Hpos]);
    apply ns_inv_cons; auto; exists a; unfold shape_ok; rewrite K; repeat split; auto; right;
    first [exact I | now destruct Hargs as [x ->] | destruct args; [congruence | exact I]].
Qed.

Lemma assign_inv p ps counts run st st' :
  Forall (fun ia => In (snd ia) p) ps ->
  Forall2 cnt_ok (map (fun ia => pos_nargs (snd ia)) ps) counts ->
  list_sum counts <= length run -> st_inv p st ->
  assign ps counts run st = inr st' -> st_inv p st'.
Proof.
  revert counts run st. induction ps as [|[i a] ps IH]; intros counts run st Hps Hc Hsum Hst H;
    [destruct counts; inv H; exact Hst|].
  inv Hc. inv Hps. simpl in *.
  destruct (take_action (i, a) (firstn y run) st) as [x|st1] eqn:Ht; [discriminate|].
  apply (IH l' (skipn y run) st1); auto.
  - rewrite length_skipn. lia.
  - apply (take_action_inv p (i, a) (firstn y run) st); auto.
    unfold args_ok, cnt_ok, pos_nargs in *. simpl in *.
    destruct (act_kind a) as [[|]| |]; auto.
    + subst. destruct run as [|x run]; [simpl in Hsum; lia|]. now exists x.
    + destruct run as [|x run]; [simpl in Hsum; lia|]. destruct y; [lia|]. discriminate.
Qed.

Lemma st_inv_extras p l st : st_inv p st -> st_inv p (add_extras l st).
Proof. exact id. Qed.

Lemma consume_positionals_inv p st run st' r :
  st_inv p st -> consume_positionals st run = inr (st', r) -> st_inv p st'.
Proof.
  unfold consume_positionals. intros Hst H.
  set (i := Nat.min (length (st_pos st)) (length run)) in H.
  destruct (alloc_ok (map (fun ia => pos_nargs (snd ia)) (firstn i (st_pos st))) (length run))
    as [H1 H2].
  { rewrite length_map, length_firstn. lia. }
  destruct (assign _ _ _ _) as [x|st1] eqn:Ha; inv H.
  refine (assign_inv p _ _ _ _ _ (Forall_firstn _ _ _ (proj2 Hst)) H1 H2 _ Ha).
  split; [apply Hst | apply Forall_skipn, Hst].
Qed.

Lemma consume_optional_inv p o s run st st' r :
  tok_in p o -> st_inv p st -> consume_optional o s run st = inr (st', r) -> st_inv p st'.
Proof.
  destruct o as [i a opt ex|]; simpl; intros Hin Hst H; [|now inv H].
  destruct ex as [e|], (act_kind a) as [[|]| |] eqn:K; try discriminate;
    repeat match goal with
           | H : (if ?b then _ else _) = _ |- _ => destruct b; discriminate
           | H : match ?r with _ => _ end = inr _ |- _ =>
               let E := fresh "E" in destruct r eqn:E; try discriminate
           end;
    inv H; (eapply (take_action_inv p (i, a)); [exact Hin | | exact Hst | eassumption]);
    unfold args_ok; simpl; rewrite K; eauto; discriminate.
Qed.

Lemma parse_segments_inv p segs : forall st run st',
  Forall (fun seg => tok_in p (snd (fst seg))) segs -> st_inv p st ->
  parse_segments st run segs = inr st' -> st_inv p st'.
Proof.
  induction segs as [|[[s o] run'] segs IH]; intros st run st' Hsegs Hst H; simpl in H;
    destruct (consume_positionals st run) as [x|[st1 leftover]] eqn:Hc; try discriminate;
    pose proof (consume_positionals_inv p _ _ _ _ Hst Hc) as Hst1.
  - inv H. now apply st_inv_extras.
  - inv Hsegs. destruct (consume_optional _ _ _ _) as [x|[st3 r]] eqn:Ho; [discriminate|].
    apply (IH st3 r); auto. exact (consume_optional_inv p o s run' _ st3 r H2 (st_inv_extras p _ _ Hst1) Ho).
Qed.

Lemma in_imap {A B} (f : nat -> A -> B) j l x :
  In x (imap f j l) -> exists k y, In y l /\ x = f k y.
Proof.
  revert j. induction l as [|y l IH]; simpl; intros j H; [contradiction|].
  destruct H as [<-|H]; [now exists j, y; auto|].
  destruct (IH _ H) as (k & z & Hz & ->). exists k, z. auto.
Qed.

Lemma assoc_in {A} k (l : list (string * A)) v : assoc k l = Some v -> exists k', In (k', v) l.
Proof.
  induction l as [|[k' w] l IH]; simpl; [discriminate|].
  destruct (String.eqb k k'); [intros H; inv H; eauto|]. intros H. destruct (IH H). eauto.
Qed.

Lemma table_in p o i a : In (o, (i, a)) (option_table p) -> In a p.
Proof.
  unfold option_table. intros H. apply in_concat in H as (l & Hl & Ho).
  apply in_imap in Hl as (k & b & Hb & ->). apply in_map_iff in Ho as (o' & Ho & _). now inv Ho.
Qed.

Lemma option_tuples_in tbl s t : In t (option_tuples tbl s) -> exists o, In (o, fst (fst t)) tbl.
Proof.
  unfold option_tuples. destruct s as [|c1 [|c2 rest]]; cbn -[partition_eq prefix String.eqb]; try contradiction.
  destruct (is_dash c1 && is_dash c2).
  - destruct (partition_eq _) as [pre ex]. intros H.
    apply in_map_iff in H as ([o ia] & <- & H). apply filter_In in H as [H _]. now exists o.
  - destruct (is_dash c1); [|contradiction]. intros H.
    apply in_flat_map in H as ([o ia] & Hin & H).
    destruct (String.eqb _ _); [destruct H as [<-|[]]; now exists o|].
    destruct (prefix _ _); [destruct H as [<-|[]]; now exists o | contradiction].
Qed.

Lemma tuple_token_in p s t : In t (option_tuples (option_table p) s) -> tok_in p (otuple_token t).
Proof.
  intros H. destruct (option_tuples_in _ _ _ H) as [o Ho].
  destruct t as [[[i a] o'] ex]. eapply table_in, Ho.
Qed.

Lemma parse_optional_in p s o : parse_optional (option_table p) s = COpt o -> tok_in p o.
Proof.
  unfold parse_optional. destruct s as [|c s']; [discriminate|].
  destruct (negb (is_dash c)); [discriminate|].
  destruct (assoc _ _) as [[i a]|] eqn:Ha.
  { intros H. inv H. destruct (assoc_in _ _ _ Ha). simpl. eapply table_in; eauto. }
  destruct (Nat.eqb _ _); [discriminate|].
  destruct (partition_eq _) as [o' [ex|]].
  - destruct (assoc o' _) as [[i a]|] eqn:Ho.
    { intros H. inv H. destruct (assoc_in _ _ _ Ho). simpl. eapply table_in; eauto. }
    destruct (option_tuples _ _) as [|t [|t' ts]] eqn:Ht; case_bool; try discriminate;
      intros H; inv H; try exact I.
    apply (tuple_token_in p (String c s')). rewrite Ht. now left.
  - destruct (option_tuples _ _) as [|t [|t' ts]] eqn:Ht; case_bool; try discriminate;
      intros H; inv H; try exact I.
    apply (tuple_token_in p (String c s')). rewrite Ht. now left.
Qed.

Definition ptok_in (p : parser) (t : string * option otoken) : Prop :=
  match snd t with Some o => tok_in p o | None => True end.

Lemma classify_all_in p argv toks :
  classify_all (option_table p) argv = inr toks -> Forall (ptok_in p) toks.
Proof.
  revert toks. induction argv as [|s argv IH]; simpl; intros toks H; [now inv H|].
  destruct (String.eqb s "--"); [discriminate|].
  destruct (parse_optional _ s) as [|o| |] eqn:Hp;
    destruct (classify_all _ argv) as [[| |]|l]; try discriminate; inv H;
    constructor; auto; unfold ptok_in; simpl; first [exact I | eapply parse_optional_in; eassumption].
Qed.

Lemma split_runs_in p toks :
  Forall (ptok_in p) toks -> Forall (fun seg => tok_in p (snd (fst seg))) (snd (split_runs toks)).
Proof.
  induction 1 as [|[s [o|]] toks Ht _ IH]; simpl; [constructor| |];
    destruct (split_runs toks); simpl in *; auto.
Qed.

Lemma default_of_in p d v :
  default_of p d = Some v -> exists a, In a p /\ act_dest a = d /\ act_default a = Some v.
Proof.
  induction p as [|a p IH]; simpl; [discriminate|].
  destruct (act_default a) eqn:Ea; [destruct (String.eqb d (act_dest a)) eqn:E|];
    intros H; try (destruct (IH H) as (b & ? & ? & ?); now exists b; auto).
  inv H. apply String.eqb_eq in E. exists a. auto.
Qed.

Lemma init_state_inv p : st_inv p (init_state p).
Proof.
  split.
  - intros d v H. simpl in H. rewrite init_ns_assoc in H.
    destruct (default_of_in _ _ _ H) as (a & ? & ? & ?). exists a. auto.
  - apply Forall_forall. intros [i a] H. apply filter_In in H as [H _].
    apply in_imap in H as (k & b & Hb & E). now inv E.
Qed.

(** Every namespace [parse_args] returns maps each attribute to the
    default of an action with that [dest], or to a value of the type
    the action declares: a string for [nargs=None], a nonempty list for
    ["+"], [True] for [store_true]. *)
Theorem parse_args_inv p argv ns : parse_args p argv = Parsed ns -> ns_inv p ns.
Proof.
  unfold parse_args. destruct (classify_all _ argv) as [x|toks] eqn:Hc; [destruct x; discriminate|].
  pose proof (split_runs_in p toks (classify_all_in p argv toks Hc)) as Hsegs.
  destruct (split_runs toks) as [run0 segs]. simpl in Hsegs.
  destruct (parse_segments _ _ _) as [x|st] eqn:Hps; [destruct x; discriminate|].
  destruct (required_missing _ _) as [|? ?]; [|discriminate].
  destruct (st_extras st); [|discriminate]. intros H. inv H.
  exact (proj1 (parse_segments_inv p segs _ _ _ Hsegs (init_state_inv p) Hps)).
Qed.

End Argparse.
