(* ===== verification/Runtime.v ===== *)
(** The Python runtime the program runs in: the values it passes through
    untouched (the options the collaborators register on the parser), the
    exceptions it raises or propagates, the events the outside world
    observes, and the environment: the file system, [json.load], the MSA
    collaborator [add_msa_to_json] and the child processes.  Each oracle
    of the environment takes the index of the loop iteration that consults
    it, so the world may change between iterations (the MSA collaborator
    writes files; a file may be edited while the batch runs). *)

From Stdlib Require Import String Strings.Byte List ZArith.
From S2P Require Import Prelude Argparse.
Import ListNotations.
Open Scope string_scope.

Module Py.

(** A Python value whose type the sources do not fix (the options that
    [mmseqs2_argparse_util] and [custom_template_argpase_util] declare). *)
Inductive pyval : Type :=
| PyNone
| PyBool (b : bool)
| PyInt (z : Z)
| PyStr (s : string)
| PyList (l : list string).

(** [bool(v)]. *)
Definition truthy (v : pyval) : bool :=
  match v with
  | PyNone => false
  | PyBool b => b
  | PyInt z => negb (z =? 0)%Z
  | PyStr s => negb (String.eqb s "")
  | PyList l => match l with [] => false | _ => true end
  end.

(** What [Popen.communicate()] returns once the child exits, with
    [returncode]. *)
Record completed : Type := mk_completed {
  returncode : Z;
  out_bytes : list byte;
  err_bytes : list byte
}.

(** A child either exits or never does ([communicate] has no timeout). *)
Inductive child : Type :=
| Exits (c : completed)
| Hangs.

(** The keyword arguments of the call to [add_msa_to_json] (lines 103-113);
    the loaded document [af3_json] is determined by [input_json]. *)
Record msa_call : Type := mk_msa_call {
  msa_input_json : string;
  msa_templates : pyval;
  msa_num_templates : pyval;
  msa_custom_template : pyval;
  msa_custom_template_chain : pyval;
  msa_target_id : pyval;
  msa_output_json : option string;
  msa_to_file : bool
}.

Inductive exc : Type :=
| ValueError (msg : string)
(** [open] failed: [FileNotFoundError], [PermissionError], ... *)
| OSError (path : string)
(** [json.load] failed on the file at [path]. *)
| JSONDecodeError (path : string)
(** [add_msa_to_json] raised. *)
| CollaboratorError (msg : string)
(** [subprocess.CalledProcessError(returncode, cmd, output, stderr)]. *)
| CalledProcessError (rc : Z) (cmd : string) (output : option (list byte)) (stderr : option (list byte))
| UnicodeDecodeError
| IndexError
(** [add_argument] refused option strings already registered. *)
| ArgumentError (conflicts : list string)
(** [parser.error(msg)]: the usage and [msg] on stderr, then
    [SystemExit(2)]. *)
| ArgParseError (e : Argparse.err)
| SystemExit (code : Z).

Inductive event : Type :=
| EvOpen (path : string)
| EvClose (path : string)
| EvMsa (call : msa_call)
| EvSpawn (cmd : string)
| EvPrint (line : string)
(** [parser.print_help()] on stdout. *)
| EvHelp.

Definition PyM (A : Type) : Type := M event exc A.

(** The environment of one run. *)
Record env : Type := mk_env {
  (** [os.getcwd()], as its list of parts. *)
  env_cwd : list string;
  (** [open(path, "r")] in iteration [i]: [None] when it succeeds. *)
  env_open : nat -> string -> option exc;
  (** [json.load(f)] in iteration [i]: [None] when the file parses. *)
  env_json_load : nat -> string -> option exc;
  (** [add_msa_to_json(...)] in iteration [i]: [None] when it returns. *)
  env_msa : nat -> msa_call -> option exc;
  (** The child started for [cmd] in iteration [i]. *)
  env_child : nat -> string -> child
}.

(** A statement that raises [e] when the oracle says so. *)
Definition raise_opt (o : option exc) : PyM unit :=
  match o with None => mret tt | Some e => mraise e end.

Definition is_spawn (ev : event) : bool :=
  match ev with EvSpawn _ => true | _ => false end.

Definition spawns (t : list event) : list string :=
  flat_map (fun ev => match ev with EvSpawn c => [c] | _ => [] end) t.

Definition prints (t : list event) : list string :=
  flat_map (fun ev => match ev with EvPrint l => [l] | _ => [] end) t.

Lemma spawns_app t1 t2 : spawns (t1 ++ t2) = (spawns t1 ++ spawns t2)%list.
Proof. apply flat_map_app. Qed.

Lemma prints_app t1 t2 : prints (t1 ++ t2) = (prints t1 ++ prints t2)%list.
Proof. apply flat_map_app. Qed.

#[export] Hint Rewrite spawns_app prints_app : af3_rw.

End Py.
