(* ===== verification/RunAF3.v ===== *)
(** [run_alphafold3] (lines 8-43 of [src/alphafold3.py]).

    [af3_cmd] is the f-string of lines 16-28, character for character (a
    raw string: each line ends in a backslash and a newline); the four
    mount sources are [str(input_json.parent.resolve())],
    [str(output_dir.resolve())], [model_params] and [database_dir], and
    the JSON path inside the container ends in [input_json.name].
    [run_alphafold3] emits the spawn of [/bin/sh -c cmd], then follows the
    child's outcome: lines 34-37 on a nonzero status, lines 39-43 on
    status 0.  Both the spawn and the prints are events of the trace. *)

From Stdlib Require Import String Strings.Byte List Bool ZArith Lia.
From S2P Require Import Prelude PyStr Utf8 PurePath Shell Runtime.
Import ListNotations.
Open Scope string_scope.
Import Py.

Module AF3.

(** The command string of lines 16-28, with the five interpolated
    strings as arguments. *)
Definition cmd_of (src_in src_out model_params database_dir json_name : string) : string :=
"
    docker run -it \
    --volume " ++ src_in ++ ":/root/af_input \
    --volume " ++ src_out ++ ":/root/af_output \
    --volume " ++ model_params ++ ":/root/models \
    --volume " ++ database_dir ++ ":/root/public_databases \
    --gpus all \
    alphafold3 \
    python run_alphafold.py \
    --json_path=/root/af_input/" ++ json_name ++ " \
    --model_dir=/root/models \
    --output_dir=/root/af_output
    ".

(** [str(input_json.parent.resolve())] (line 18). *)
Definition mount_input_src (cwd : list string) (input_json : string) : string :=
  PPath.to_str (PPath.resolve cwd (PPath.parent (PPath.parse input_json))).

(** [str(output_dir.resolve())] (line 19). *)
Definition mount_output_src (cwd : list string) (output_dir : string) : string :=
  PPath.to_str (PPath.resolve cwd (PPath.parse output_dir)).

(** Lines 14-28: [input_json = Path(input_json)], [output_dir =
    Path(output_dir)], then the f-string. *)
Definition af3_cmd (cwd : list string) (input_json output_dir model_params database_dir : string)
  : string :=
  cmd_of (mount_input_src cwd input_json) (mount_output_src cwd output_dir)
         model_params database_dir (PPath.name (PPath.parse input_json)).

(** The argument vector the command is meant to run. *)
Definition af3_argv (src_in src_out model_params database_dir json_name : string)
  : list string :=
  ["docker"; "run"; "-it";
   "--volume"; src_in ++ ":/root/af_input";
   "--volume"; src_out ++ ":/root/af_output";
   "--volume"; model_params ++ ":/root/models";
   "--volume"; database_dir ++ ":/root/public_databases";
   "--gpus"; "all"; "alphafold3"; "python"; "run_alphafold.py";
   "--json_path=/root/af_input/" ++ json_name;
   "--model_dir=/root/models"; "--output_dir=/root/af_output"].

(** [print(a1, ..., an)]. *)
Definition print (args : list string) : PyM unit := emit (EvPrint (Str.py_print_line args)).

(** [b.decode()]. *)
Definition decode (b : list byte) : PyM string :=
  match Utf8.py_decode b with
  | Some s => mret s
  | None => mraise UnicodeDecodeError
  end.

Local Open Scope py_scope.

(** Lines 34-37: print the decoded stderr, then stdout, then raise
    [CalledProcessError(p.returncode, cmd, stderr)]; the third positional
    parameter of [CalledProcessError] is [output], so the captured stderr
    lands in [output] and the [stderr] attribute stays [None]. *)
Definition on_failure (cmd : string) (c : completed) : PyM unit :=
  e <- decode (err_bytes c) ;; print [e] ;;;
  o <- decode (out_bytes c) ;; print [o] ;;;
  mraise (CalledProcessError (returncode c) cmd (Some (err_bytes c)) None).

(** Lines 39-43, after the [with] block. *)
Definition on_success (output_dir : string) (c : completed) : PyM unit :=
  o <- decode (out_bytes c) ;; print [o] ;;;
  e <- decode (err_bytes c) ;; print [e] ;;;
  print ["Alphafold3 run complete"] ;;;
  print ["Output files are in"; PPath.to_str (PPath.parse output_dir)].

(** [run_alphafold3(input_json, output_dir, model_params, database_dir)]
    in iteration [i] of the batch, in environment [E]. *)
Definition run_alphafold3 (E : env) (i : nat)
  (input_json output_dir model_params database_dir : string) : PyM unit :=
  let cmd := af3_cmd (env_cwd E) input_json output_dir model_params database_dir in
  emit (EvSpawn cmd) ;;;
  match env_child E i cmd with
  | Hangs => mblock
  | Exits c =>
      if negb (returncode c =? 0)%Z then on_failure cmd c
      else on_success output_dir c
  end.

Definition sh_safe_all (xs : list string) : Prop := Forall (fun x => Sh.sh_safe x = true) xs.

(** The line [print(b.decode())] writes for decodable bytes [b]. *)
Definition line_of (b : list byte) : string := Str.py_print_line [string_of_list_byte b].

(** What a successful run prints (lines 39-43) and what a failed one
    prints before raising (lines 35-36). *)
Definition success_lines (output_dir : string) (c : completed) : list string :=
  [line_of (out_bytes c); line_of (err_bytes c);
   Str.py_print_line ["Alphafold3 run complete"];
   Str.py_print_line ["Output files are in"; PPath.to_str (PPath.parse output_dir)]].

Definition failure_lines (c : completed) : list string := [line_of (err_bytes c); line_of (out_bytes c)].

Definition is_print (ev : event) : Prop := match ev with EvPrint _ => True | _ => False end.

Definition fixture_env (ch : child) : env :=
  mk_env ["home"; "u"] (fun _ _ => None) (fun _ _ => None) (fun _ _ => None) (fun _ _ => ch).

(** Exit 0 with stdout [done]. *)
Definition fixture_ok : completed := mk_completed 0 [x64; x6f; x6e; x65] [].
(** Killed: exit 137 with stderr [k] and stdout [o]. *)
Definition fixture_killed : completed := mk_completed 137 [x6f] [x6b].
(** Exit 1 with a stray [0xff] byte on stderr. *)
Definition fixture_bad_err : completed := mk_completed 1 [] [xff].

(** ** The command the shell runs *)

(** Read a word made of ordinary characters, then continue with the
    characters that follow it. *)
Ltac sh_step :=
  repeat (cbn; rewrite Sh.sh_read_safe by assumption); cbn;
  autorewrite with af3_rw; cbn.

(** When the five interpolated strings contain only ordinary characters,
    [/bin/sh -c] runs exactly one command, with the intended argument
    vector. *)
Lemma cmd_of_words src_in src_out model_params database_dir json_name :
  Sh.sh_safe src_in = true -> Sh.sh_safe src_out = true ->
  Sh.sh_safe model_params = true -> Sh.sh_safe database_dir = true ->
  Sh.sh_safe json_name = true ->
  Sh.sh_commands (cmd_of src_in src_out model_params database_dir json_name)
  = Some [af3_argv src_in src_out model_params database_dir json_name].
Proof.
  intros H1 H2 H3 H4 H5. unfold Sh.sh_commands, cmd_of. sh_step. reflexivity.
Qed.

Lemma mount_input_src_safe cwd input_json :
  sh_safe_all cwd -> Sh.sh_safe input_json = true -> Sh.sh_safe (mount_input_src cwd input_json) = true.
Proof.
  intros Hc Hi. apply PPath.chars_ok_to_str; [reflexivity | reflexivity|].
  apply PPath.chars_ok_resolve; [exact Hc|].
  apply PPath.chars_ok_parent, PPath.chars_ok_parse, Hi.
Qed.

Lemma mount_output_src_safe cwd output_dir :
  sh_safe_all cwd -> Sh.sh_safe output_dir = true -> Sh.sh_safe (mount_output_src cwd output_dir) = true.
Proof.
  intros Hc Ho. apply PPath.chars_ok_to_str; [reflexivity | reflexivity|].
  apply PPath.chars_ok_resolve; [exact Hc|]. apply PPath.chars_ok_parse, Ho.
Qed.

Lemma json_name_safe input_json :
  Sh.sh_safe input_json = true -> Sh.sh_safe (PPath.name (PPath.parse input_json)) = true.
Proof. intros Hi. apply PPath.chars_ok_name, PPath.chars_ok_parse, Hi. Qed.

(** C3. When the working directory, the input path, the output directory,
    the model directory and the database directory contain only characters
    the shell takes literally, the shell runs exactly one command: [docker]
    with the four volume mounts (the input's resolved parent directory, the
    resolved output directory, and the model and database directories as
    given), [--gpus all], and [run_alphafold.py] with the JSON path
    [/root/af_input/<name of the input>]. *)
Theorem af3_cmd_argv cwd input_json output_dir model_params database_dir :
  sh_safe_all cwd -> Sh.sh_safe input_json = true -> Sh.sh_safe output_dir = true ->
  Sh.sh_safe model_params = true -> Sh.sh_safe database_dir = true ->
  Sh.sh_commands (af3_cmd cwd input_json output_dir model_params database_dir) =
  Some [af3_argv (mount_input_src cwd input_json) (mount_output_src cwd output_dir)
                 model_params database_dir (PPath.name (PPath.parse input_json))].
Proof.
  intros Hc Hi Ho Hm Hd. apply cmd_of_words;
    auto using mount_input_src_safe, mount_output_src_safe, json_name_safe.
Qed.

(** C3's witness: a working directory [/home/u], input [a.json]. *)
Lemma af3_cmd_argv_witness :
  Sh.sh_commands (af3_cmd ["home"; "u"] "a.json" "out" "/models" "/db") =
  Some [af3_argv "/home/u" "/home/u/out" "/models" "/db" "a.json"].
Proof.
  apply (af3_cmd_argv ["home"; "u"] "a.json" "out" "/models" "/db");
    repeat constructor.
Defined.

Section Mounts.
Variable cwd : list string.
Hypothesis cwd_canon : Forall PPath.canon_part cwd.

(** C4. The input mount source is an absolute path in canonical form
    (its parts are well formed and free of ['..']); for a relative input
    path without ['..'] it is the working directory followed by the
    input's directory. *)
Theorem mount_input_src_abs input_json :
  (exists parts, mount_input_src cwd input_json = "/" ++ join "/" parts /\
                 Forall PPath.canon_part parts) /\
  (PPath.p_root (PPath.parse input_json) = PPath.NoRoot ->
   ~ In ".." (PPath.p_parts (PPath.parse input_json)) ->
   mount_input_src cwd input_json =
   "/" ++ join "/" (cwd ++ PPath.p_parts (PPath.parent (PPath.parse input_json)))%list).
Proof.
  set (p := PPath.parent (PPath.parse input_json)).
  assert (Hwf : PPath.wf_path p) by apply PPath.parent_wf, PPath.parse_wf.
  split.
  - exists (PPath.p_parts (PPath.resolve cwd p)). split; [reflexivity|].
    apply (PPath.resolve_canon cwd cwd_canon p Hwf).
  - intros Hr Hn. unfold mount_input_src. fold p.
    rewrite <- (PPath.resolve_relative cwd p); [reflexivity | |].
    + unfold p. now rewrite PPath.parent_root.
    + apply Forall_forall. intros x Hx ->. apply Hn, PPath.parent_In, Hx.
Qed.
End Mounts.

(** ** What the shell makes of other paths *)




(** ** Supervision of the child *)

Lemma decode_ok b : Utf8.utf8_valid b = true -> decode b = mret (string_of_list_byte b).
Proof. intros H. unfold decode, Utf8.py_decode. now rewrite H. Qed.

Lemma decode_err b : Utf8.utf8_valid b = false -> decode b = mraise UnicodeDecodeError.
Proof. intros H. unfold decode, Utf8.py_decode. now rewrite H. Qed.

Lemma on_success_ok output_dir c :
  Utf8.utf8_valid (out_bytes c) = true -> Utf8.utf8_valid (err_bytes c) = true ->
  on_success output_dir c = (map EvPrint (success_lines output_dir c), Ret tt).
Proof. intros Ho He. unfold on_success. rewrite (decode_ok _ Ho), (decode_ok _ He). reflexivity. Qed.

Lemma decode_then_print b (k : string -> PyM unit) :
  (forall s, Forall is_print (trace_of (k s))) ->
  Forall is_print (trace_of (mbind (decode b) (fun s => mbind (print [s]) (fun _ => k s)))).
Proof.
  intros Hk. unfold decode, Utf8.py_decode. destruct (Utf8.utf8_valid b); [|constructor].
  cbn. specialize (Hk (string_of_list_byte b)). destruct (k (string_of_list_byte b)).
  constructor; [exact I | exact Hk].
Qed.

Lemma on_success_prints output_dir c : Forall is_print (trace_of (on_success output_dir c)).
Proof.
  unfold on_success. apply decode_then_print. intros. apply decode_then_print. intros.
  cbn. repeat constructor.
Qed.

Lemma on_failure_prints cmd c : Forall is_print (trace_of (on_failure cmd c)).
Proof.
  unfold on_failure. apply decode_then_print. intros. apply decode_then_print. intros.
  constructor.
Qed.

(** Every run of [run_alphafold3]: the spawn first, then prints only. *)
Lemma run_af3_shape E i input_json output_dir model_params database_dir :
  exists t', trace_of (run_alphafold3 E i input_json output_dir model_params database_dir) =
             EvSpawn (af3_cmd (env_cwd E) input_json output_dir model_params database_dir) :: t'
             /\ Forall is_print t'.
Proof.
  unfold run_alphafold3. cbn [mbind emit].
  destruct (env_child E i _) as [c|]; [|exists []; split; [reflexivity | constructor]].
  destruct (negb _).
  - pose proof (on_failure_prints (af3_cmd (env_cwd E) input_json output_dir model_params database_dir) c) as H.
    destruct (on_failure _ c) as [t r]. now exists t.
  - pose proof (on_success_prints output_dir c) as H.
    destruct (on_success output_dir c) as [t r]. now exists t.
Qed.

(** The outcome of [run_alphafold3] when the child's output decodes:
    blocked, returned, or [CalledProcessError] with the status. *)
Lemma run_af3_outcome E i input_json output_dir model_params database_dir :
  let cmd := af3_cmd (env_cwd E) input_json output_dir model_params database_dir in
  (forall c, env_child E i cmd = Exits c ->
             Utf8.utf8_valid (out_bytes c) = true /\ Utf8.utf8_valid (err_bytes c) = true) ->
  outcome_of (run_alphafold3 E i input_json output_dir model_params database_dir) =
  match env_child E i cmd with
  | Hangs => Blocked
  | Exits c => if (returncode c =? 0)%Z then Ret tt
               else Raise (CalledProcessError (returncode c) cmd (Some (err_bytes c)) None)
  end.
Proof.
  intros cmd Hdec. unfold run_alphafold3. cbn [mbind emit]. fold cmd.
  destruct (env_child E i cmd) as [c|] eqn:Hch; [|reflexivity].
  destruct (Hdec c eq_refl) as [Ho He].
  destruct (returncode c =? 0)%Z; simpl.
  - now rewrite on_success_ok.
  - unfold on_failure. now rewrite (decode_ok _ He), (decode_ok _ Ho).
Qed.

(** Only a child that never exits blocks [run_alphafold3]. *)
Lemma run_af3_not_blocked E i input_json output_dir model_params database_dir :
  env_child E i (af3_cmd (env_cwd E) input_json output_dir model_params database_dir) <> Hangs ->
  outcome_of (run_alphafold3 E i input_json output_dir model_params database_dir) <> Blocked.
Proof.
  unfold run_alphafold3. cbn [mbind emit].
  destruct (env_child E i _) as [c|]; [intros _ | now intros []].
  destruct (negb _); unfold on_failure, on_success, decode, Utf8.py_decode;
    repeat (destruct (Utf8.utf8_valid _); cbn); discriminate.
Qed.

Ltac run_unfold Hch :=
  unfold run_alphafold3; cbn [mbind emit]; rewrite Hch.

Section Supervision.
Variables (E : env) (i : nat) (input_json output_dir model_params database_dir : string).

(** C5. A child that exits with status 0 and decodable output: no
    exception; the events are the spawn, then stdout, stderr, the
    completion notice and the line naming the output directory. *)
Theorem run_af3_success c :
  env_child E i (af3_cmd (env_cwd E) input_json output_dir model_params database_dir) = Exits c ->
  returncode c = 0%Z ->
  Utf8.utf8_valid (out_bytes c) = true -> Utf8.utf8_valid (err_bytes c) = true ->
  run_alphafold3 E i input_json output_dir model_params database_dir =
  (EvSpawn (af3_cmd (env_cwd E) input_json output_dir model_params database_dir)
     :: map EvPrint (success_lines output_dir c), Ret tt).
Proof.
  intros Hch Hrc Ho He. run_unfold Hch. rewrite Hrc. simpl.
  unfold on_success. rewrite (decode_ok _ Ho), (decode_ok _ He). reflexivity.
Qed.

(** C6. A child that exits with a nonzero status and decodable output:
    the events are the spawn, then stderr, then stdout, and the run
    raises [CalledProcessError] with that status and the command, the
    captured stderr in its [output] field and [None] in its [stderr]
    field. *)
Theorem run_af3_failure c :
  env_child E i (af3_cmd (env_cwd E) input_json output_dir model_params database_dir) = Exits c ->
  returncode c <> 0%Z ->
  Utf8.utf8_valid (out_bytes c) = true -> Utf8.utf8_valid (err_bytes c) = true ->
  run_alphafold3 E i input_json output_dir model_params database_dir =
  (EvSpawn (af3_cmd (env_cwd E) input_json output_dir model_params database_dir)
     :: map EvPrint (failure_lines c),
   Raise (CalledProcessError (returncode c)
            (af3_cmd (env_cwd E) input_json output_dir model_params database_dir)
            (Some (err_bytes c)) None)).
Proof.
  intros Hch Hrc Ho He. run_unfold Hch.
  replace (negb (returncode c =? 0)%Z) with true by (symmetry; apply negb_true_iff, Z.eqb_neq, Hrc).
  unfold on_failure. rewrite (decode_ok _ He), (decode_ok _ Ho). reflexivity.
Qed.

(** C7. A child that exits with a nonzero status and whose stderr is not
    valid UTF-8: [stderr.decode()] raises [UnicodeDecodeError] before
    anything is printed, and the exit status is not reported. *)
Theorem run_af3_failure_undecodable c :
  env_child E i (af3_cmd (env_cwd E) input_json output_dir model_params database_dir) = Exits c ->
  returncode c <> 0%Z -> Utf8.utf8_valid (err_bytes c) = false ->
  run_alphafold3 E i input_json output_dir model_params database_dir =
  ([EvSpawn (af3_cmd (env_cwd E) input_json output_dir model_params database_dir)],
   Raise UnicodeDecodeError).
Proof.
  intros Hch Hrc He. run_unfold Hch.
  replace (negb (returncode c =? 0)%Z) with true by (symmetry; apply negb_true_iff, Z.eqb_neq, Hrc).
  unfold on_failure. rewrite (decode_err _ He). reflexivity.
Qed.

(** C8. A child that never exits blocks the run right after the spawn:
    nothing is printed and nothing is raised. *)
Theorem run_af3_hang :
  env_child E i (af3_cmd (env_cwd E) input_json output_dir model_params database_dir) = Hangs ->
  run_alphafold3 E i input_json output_dir model_params database_dir =
  ([EvSpawn (af3_cmd (env_cwd E) input_json output_dir model_params database_dir)], Blocked).
Proof. intros Hch. run_unfold Hch. reflexivity. Qed.

Lemma decode_print_cases b (k : string -> PyM unit) :
  mbind (decode b) (fun s => mbind (print [s]) (fun _ => k s)) =
  if Utf8.utf8_valid b
  then let (t, r) := k (string_of_list_byte b) in (EvPrint (Str.py_print_line [string_of_list_byte b]) :: t, r)
  else ([], Raise UnicodeDecodeError).
Proof.
  unfold decode, Utf8.py_decode. destruct (Utf8.utf8_valid b); [|reflexivity].
  cbn. now destruct (k (string_of_list_byte b)).
Qed.

(** C9. Whatever the child does, [run_alphafold3] starts exactly one
    process, the command string, and does so before it prints anything;
    it prints each of the child's two streams at most once: the lines it
    prints are a prefix of stdout, stderr, the completion notice and the
    output directory (status 0), or of stderr, stdout (other status). *)
Theorem run_af3_one_spawn_no_duplicate :
  let cmd := af3_cmd (env_cwd E) input_json output_dir model_params database_dir in
  let t := trace_of (run_alphafold3 E i input_json output_dir model_params database_dir) in
  (exists t', t = EvSpawn cmd :: t' /\ spawns t' = []) /\
  match env_child E i cmd with
  | Exits c => exists k, prints t = firstn k (if (returncode c =? 0)%Z
                                            then success_lines output_dir c
                                            else failure_lines c)
  | Hangs => prints t = []
  end.
Proof.
  intros cmd t. unfold t. unfold run_alphafold3. fold cmd. cbn [mbind emit].
  destruct (env_child E i cmd) as [c|]; [|split; [exists []; auto | reflexivity]].
  destruct (returncode c =? 0)%Z; simpl negb; cbv iota.
  - unfold on_success. rewrite !decode_print_cases.
    destruct (Utf8.utf8_valid (out_bytes c)); [destruct (Utf8.utf8_valid (err_bytes c))|];
      simpl; (split; [eexists; split; reflexivity|]).
    + exists 4%nat. reflexivity.
    + exists 1%nat. reflexivity.
    + exists 0%nat. reflexivity.
  - unfold on_failure. rewrite !decode_print_cases.
    destruct (Utf8.utf8_valid (err_bytes c)); [destruct (Utf8.utf8_valid (out_bytes c))|];
      simpl; (split; [eexists; split; reflexivity|]).
    + exists 2%nat. reflexivity.
    + exists 1%nat. reflexivity.
    + exists 0%nat. reflexivity.
Qed.
End Supervision.

(** ** Concrete runs *)

Lemma mount_input_src_abs_witness :
  mount_input_src ["home"; "u"] "a.json" = "/" ++ join "/" (["home"; "u"] ++ [])%list.
Proof.
  apply (mount_input_src_abs ["home"; "u"]); [apply PPath.canon_parts_b; reflexivity | reflexivity |].
  simpl. intros [H|H]; [discriminate | exact H].
Defined.

Lemma run_af3_success_witness :
  run_alphafold3 (fixture_env (Exits fixture_ok)) 0 "a.json" "out" "/m" "/d" =
  (EvSpawn (af3_cmd ["home"; "u"] "a.json" "out" "/m" "/d")
     :: map EvPrint (success_lines "out" fixture_ok), Ret tt).
Proof. apply (run_af3_success (fixture_env (Exits fixture_ok)) 0 "a.json" "out" "/m" "/d" fixture_ok); reflexivity. Defined.

Lemma run_af3_failure_witness :
  run_alphafold3 (fixture_env (Exits fixture_killed)) 0 "a.json" "out" "/m" "/d" =
  (EvSpawn (af3_cmd ["home"; "u"] "a.json" "out" "/m" "/d") :: map EvPrint (failure_lines fixture_killed),
   Raise (CalledProcessError 137 (af3_cmd ["home"; "u"] "a.json" "out" "/m" "/d") (Some [x6b]) None)).
Proof. apply (run_af3_failure (fixture_env (Exits fixture_killed)) 0 "a.json" "out" "/m" "/d" fixture_killed); [reflexivity | discriminate | reflexivity | reflexivity]. Defined.

Lemma run_af3_failure_undecodable_witness :
  run_alphafold3 (fixture_env (Exits fixture_bad_err)) 0 "a.json" "out" "/m" "/d" =
  ([EvSpawn (af3_cmd ["home"; "u"] "a.json" "out" "/m" "/d")], Raise UnicodeDecodeError).
Proof. apply (run_af3_failure_undecodable (fixture_env (Exits fixture_bad_err)) 0 "a.json" "out" "/m" "/d" fixture_bad_err); [reflexivity | discriminate | reflexivity]. Defined.

Lemma run_af3_hang_witness :
  run_alphafold3 (fixture_env Hangs) 0 "a.json" "out" "/m" "/d" =
  ([EvSpawn (af3_cmd ["home"; "u"] "a.json" "out" "/m" "/d")], Blocked).
Proof. apply (run_af3_hang (fixture_env Hangs) 0). reflexivity. Defined.


End AF3.
