(* ===== verification/Main.v ===== *)
(** The [__main__] block of [src/alphafold3.py] after argument parsing
    (lines 85-128): the batch validator (lines 85-93), the defaulting of
    [args.output_json] (lines 95-96), and the loop over the input files
    (lines 98-128).  Each iteration opens the input file in a [with]
    block, loads it with [json.load], optionally calls [add_msa_to_json]
    and derives the path to run (lines 102-121), leaves the block (the
    file is closed), and calls [run_alphafold3] (lines 123-128).  The
    first exception, or a child that never exits, ends the run. *)

From Stdlib Require Import String Ascii List Bool Arith ZArith Lia.
From S2P Require Import Prelude PyStr Utf8 PurePath Runtime RunAF3.
Import ListNotations.
Open Scope string_scope.
Import Py.

Module Main.

(** The namespace [parser.parse_args()] returns (line 83) for the
    declarations of lines 46-73: [input_json] (line 47, [nargs="+"]: a
    nonempty list), [output_dir] (line 49), [output_json] (line 50,
    optional with [nargs="+"]: [None] when absent), [database_dir] (lines
    52-57, [--database], required), [mmseqs2] (lines 58-62,
    [store_true]), [model_params] (lines 64-68, required).  The last five
    fields are the options [mmseqs2_argparse_util] and
    [custom_template_argpase_util] register (lines 70-71), read at lines
    90 and 104-109 and otherwise passed through untouched. *)
Record args : Type := mk_args {
  a_input_json : list string;
  a_output_dir : string;
  a_output_json : option (list string);
  a_database_dir : string;
  a_mmseqs2 : bool;
  a_model_params : string;
  a_templates : pyval;
  a_num_templates : pyval;
  a_custom_template : pyval;
  a_custom_template_chain : pyval;
  a_target_id : pyval
}.

(** The messages of lines 86-87 and 91-92 (a backslash before a newline
    inside a Python string literal continues the line). *)
Definition msg_count : string :=
  "If output_json is specified, the number of output json files must match the number of input json files".

Definition msg_template : string :=
  "Multiple input json files found. This is not supported with custom template. Please run custom template separately for each input json file".

(** The condition of line 85:
    [args.output_json and len(args.input_json) != len(args.output_json)]. *)
Definition count_mismatch (a : args) : bool :=
  Str.truthy_list (a_output_json a)
  && negb (Nat.eqb (length (a_input_json a))
                   (length (match a_output_json a with Some l => l | None => [] end))).

(** The condition of line 90:
    [len(args.input_json) > 1 and args.custom_template]. *)
Definition template_conflict (a : args) : bool :=
  Nat.ltb 1 (length (a_input_json a)) && truthy (a_custom_template a).

(** Lines 85-93: [None] when the batch is accepted, else the exception. *)
Definition validate (a : args) : option exc :=
  if count_mismatch a then Some (ValueError msg_count)
  else if template_conflict a then Some (ValueError msg_template)
  else None.

(** Lines 95-96: [args.output_json] after the defaulting, as the list of
    values [args.output_json[i]] can take ([None] or a path). *)
Definition default_outputs (a : args) : list (option string) :=
  if Str.truthy_list (a_output_json a)
  then map Some (match a_output_json a with Some l => l | None => [] end)
  else repeat None (length (a_input_json a)).

(** [args.output_json[i]]: [IndexError] past the end. *)
Definition index (outs : list (option string)) (i : nat) : PyM (option string) :=
  match nth_error outs i with
  | Some o => mret o
  | None => mraise IndexError
  end.

(** Lines 115-119: the path to run after augmentation. *)
Definition derive_run_json (json_file : string) (out_i : option string) : string :=
  match out_i with
  | None => Str.py_replace json_file ".json" "_mmseqs.json"
  | Some o => o
  end.

(** [with open(path, "r") as f: body]: [open] may raise; once the file is
    open, it is closed whether the body returns or raises. *)
Definition with_open {A} (E : env) (i : nat) (path : string) (body : PyM A) : PyM A :=
  match env_open E i path with
  | Some e => mraise e
  | None => mbind (emit (EvOpen path)) (fun _ => mfinally body (emit (EvClose path)))
  end.

Local Open Scope py_scope.

(** The call of lines 103-113, its keyword arguments in source order. *)
Definition msa_call_of (a : args) (json_file : string) (out_i : option string) : msa_call :=
  mk_msa_call json_file (a_templates a) (a_num_templates a) (a_custom_template a)
              (a_custom_template_chain a) (a_target_id a) out_i true.

(** The body of the [with] block (lines 100-121): the path to run. *)
Definition prepare (E : env) (a : args) (outs : list (option string)) (i : nat) (json_file : string)
  : PyM string :=
  raise_opt (env_json_load E i json_file) ;;;
  if a_mmseqs2 a then
    out_i <- index outs i ;;
    emit (EvMsa (msa_call_of a json_file out_i)) ;;;
    raise_opt (env_msa E i (msa_call_of a json_file out_i)) ;;;
    out_i' <- index outs i ;;
    mret (derive_run_json json_file out_i')
  else mret json_file.

(** One iteration of the loop (lines 99-128). *)
Definition iteration (E : env) (a : args) (outs : list (option string)) (i : nat) (json_file : string)
  : PyM unit :=
  run_json <- with_open E i json_file (prepare E a outs i json_file) ;;
  AF3.run_alphafold3 E i run_json (a_output_dir a) (a_model_params a) (a_database_dir a).

(** Lines 85-128. *)
Definition main (E : env) (a : args) : PyM unit :=
  raise_opt (validate a) ;;;
  mfor (a_input_json a) (iteration E a (default_outputs a)) 0.

(** The accepted batches: output paths, when given, match the inputs one
    to one, and a custom template comes with a single input. *)
Definition batch_ok (a : args) : Prop :=
  (forall outs, a_output_json a = Some outs -> outs <> [] -> length outs = length (a_input_json a)) /\
  (length (a_input_json a) <= 1 \/ truthy (a_custom_template a) = false).

(** The path iteration [i] hands to [run_alphafold3] when every call
    before it returns (lines 102-121). *)
Definition run_path (a : args) (outs : list (option string)) (i : nat) (json_file : string) : string :=
  if a_mmseqs2 a then derive_run_json json_file (nth i outs None) else json_file.

Definition is_msa (ev : event) : Prop := match ev with EvMsa _ => True | _ => False end.

(** The command iteration [k] runs for file [f]. *)
Definition cmd_for (E : env) (a : args) (k : nat) (f : string) : string :=
  AF3.af3_cmd (env_cwd E) (run_path a (default_outputs a) k f) (a_output_dir a) (a_model_params a)
              (a_database_dir a).

(** Replay the trace counting the files open ([d]): [None] when a
    process starts while a file is open, else the count at the end. *)
Fixpoint open_files (d : nat) (t : list event) : option nat :=
  match t with
  | [] => Some d
  | EvOpen _ :: t' => open_files (S d) t'
  | EvClose _ :: t' => open_files (pred d) t'
  | EvSpawn _ :: t' => if Nat.eqb d 0 then open_files d t' else None
  | _ :: t' => open_files d t'
  end.

Definition fixture_args (ins : list string) (outs : option (list string)) (mm : bool) (ct : pyval)
  : args :=
  mk_args ins "out" outs "/db" mm "/m" PyNone PyNone ct PyNone PyNone.

Definition fixture_env_ok : env := AF3.fixture_env (Exits AF3.fixture_ok).

(** [b.json] cannot be opened. *)
Definition fixture_env_missing : env :=
  mk_env ["home"; "u"] (fun _ p => if String.eqb p "b.json" then Some (OSError p) else None)
         (fun _ _ => None) (fun _ _ => None) (fun _ _ => Exits AF3.fixture_ok).

(** No file parses. *)
Definition fixture_env_badjson : env :=
  mk_env ["home"; "u"] (fun _ _ => None) (fun _ p => Some (JSONDecodeError p))
         (fun _ _ => None) (fun _ _ => Exits AF3.fixture_ok).

Definition batch3 : args := fixture_args ["a.json"; "b.json"; "c.json"] None false PyNone.

Definition batch2 : args := fixture_args ["a.json"; "b.json"] None false PyNone.

(** ** The validator *)

Lemma raise_opt_none_bind {A} (k : unit -> PyM A) : mbind (raise_opt None) k = k tt.
Proof. apply mbind_ret_l. Qed.

Lemma raise_opt_some_bind {A} e (k : unit -> PyM A) : mbind (raise_opt (Some e)) k = ([], Raise e).
Proof. reflexivity. Qed.

#[export] Hint Rewrite @raise_opt_none_bind @raise_opt_some_bind : af3_rw.

Lemma count_mismatch_false (a : args) :
  count_mismatch a = false <->
  (forall outs, a_output_json a = Some outs -> outs <> [] -> length outs = length (a_input_json a)).
Proof.
  unfold count_mismatch. destruct (a_output_json a) as [[|o os]|]; simpl.
  1,3: split; [intros _ outs [= <-]; congruence | reflexivity].
  rewrite negb_false_iff, Nat.eqb_eq. split.
  - intros H outs [= <-] _. symmetry. exact H.
  - intros H. symmetry. exact (H (o :: os) eq_refl ltac:(discriminate)).
Qed.

Lemma template_conflict_false (a : args) :
  template_conflict a = false <-> length (a_input_json a) <= 1 \/ truthy (a_custom_template a) = false.
Proof.
  unfold template_conflict. rewrite andb_false_iff, Nat.ltb_ge. reflexivity.
Qed.

(** C10. [validate] accepts exactly the batches of [batch_ok]. *)
Theorem validate_spec (a : args) : validate a = None <-> batch_ok a.
Proof.
  unfold validate, batch_ok. rewrite <- count_mismatch_false, <- template_conflict_false.
  destruct (count_mismatch a), (template_conflict a); intuition discriminate.
Qed.

Section Batch.
Variable E : env.

(** C1. Output paths given in a number different from the inputs: the
    run raises [ValueError] before any file is opened or any process is
    started. *)
Theorem main_rejects_count_mismatch (a : args) outs :
  a_output_json a = Some outs -> outs <> [] -> length outs <> length (a_input_json a) ->
  main E a = ([], Raise (ValueError msg_count)).
Proof.
  intros Ho Hne Hl. unfold main, validate, count_mismatch. rewrite Ho.
  destruct outs as [|o os]; [congruence|]. simpl Str.truthy_list.
  replace (Nat.eqb (length (a_input_json a)) (length (o :: os))) with false
    by (symmetry; apply Nat.eqb_neq; auto).
  reflexivity.
Qed.

(** C2. More than one input with a (truthy) custom template, the output
    paths being consistent: the run raises [ValueError] before any file
    is opened or any process is started. *)
Theorem main_rejects_template_batch (a : args) :
  (forall outs, a_output_json a = Some outs -> outs <> [] -> length outs = length (a_input_json a)) ->
  1 < length (a_input_json a) -> truthy (a_custom_template a) = true ->
  main E a = ([], Raise (ValueError msg_template)).
Proof.
  intros Ho Hl Ht. apply count_mismatch_false in Ho. unfold main, validate, template_conflict.
  apply Nat.ltb_lt in Hl. rewrite Ho, Hl, Ht. reflexivity.
Qed.
End Batch.

(** ** [args.output_json[i]] *)

Lemma length_default_outputs (a : args) :
  validate a = None -> length (default_outputs a) = length (a_input_json a).
Proof.
  intros Hv. apply validate_spec in Hv as [Ho _]. unfold default_outputs.
  destruct (a_output_json a) as [[|o os]|] eqn:E; simpl; try apply repeat_length.
  rewrite length_map. exact (Ho (o :: os) eq_refl ltac:(discriminate)).
Qed.

(** C11. Once the batch is accepted, [args.output_json[i]] never raises
    [IndexError] in the loop, and it is [None] when [--output_json] was
    not given and the [i]-th output path when it was. *)
Theorem index_default_outputs (a : args) i :
  validate a = None -> i < length (a_input_json a) ->
  index (default_outputs a) i =
  mret (match a_output_json a with
        | Some ((_ :: _) as outs) => Some (nth i outs "")
        | _ => None
        end).
Proof.
  intros Hv Hi. pose proof (length_default_outputs a Hv) as Hlen. unfold index.
  destruct (nth_error (default_outputs a) i) as [o|] eqn:Hn;
    [|apply nth_error_None in Hn; lia].
  f_equal. unfold default_outputs in *.
  destruct (a_output_json a) as [[|x xs]|]; simpl in *;
    try (apply nth_error_In, repeat_spec in Hn; exact Hn).
  change (Some x :: map Some xs) with (map Some (x :: xs)) in Hn.
  rewrite nth_error_map in Hn. destruct (nth_error (x :: xs) i) eqn:Hx; [|discriminate].
  inv Hn. f_equal. symmetry. exact (nth_error_nth (x :: xs) i "" Hx).
Qed.

(** ** One iteration *)

Lemma with_open_closed {A} E i f (body : PyM A) t r :
  env_open E i f = None -> body = (t, r) -> r <> Blocked ->
  with_open E i f body = (EvOpen f :: (t ++ [EvClose f])%list, r).
Proof. intros Ho Hb Hr. unfold with_open. rewrite Ho, Hb. destruct r; try congruence; reflexivity. Qed.

Lemma prepare_ok E a outs i f :
  env_json_load E i f = None ->
  (a_mmseqs2 a = true -> i < length outs /\ env_msa E i (msa_call_of a f (nth i outs None)) = None) ->
  prepare E a outs i f =
  (if a_mmseqs2 a then [EvMsa (msa_call_of a f (nth i outs None))] else [], Ret (run_path a outs i f)).
Proof.
  intros Hj Hm. unfold prepare, run_path, index. rewrite Hj.
  destruct (a_mmseqs2 a); [|reflexivity].
  destruct (Hm eq_refl) as [Hi Hmsa].
  rewrite (nth_error_nth' outs None Hi). cbn. rewrite Hmsa. reflexivity.
Qed.

(** [prepare] emits only the MSA call, never blocks, and returns the
    run path. *)
Lemma prepare_shape E a outs i f :
  Forall is_msa (trace_of (prepare E a outs i f)) /\
  match outcome_of (prepare E a outs i f) with
  | Ret p => p = run_path a outs i f
  | Raise _ => True
  | Blocked => False
  end.
Proof.
  unfold prepare, run_path, index. destruct (env_json_load E i f); cbn; [split; [constructor | exact I]|].
  destruct (a_mmseqs2 a); [|split; [constructor | reflexivity]].
  destruct (nth_error outs i) as [o|] eqn:Hn; cbn; [|split; [constructor | exact I]].
  destruct (env_msa E i _); cbn; [split; [repeat constructor | exact I]|].
  split; [repeat constructor|]. now rewrite (nth_error_nth outs i None Hn).
Qed.

(** The three ways an iteration goes: [open] raises; the body of the
    [with] block raises (the file is closed); or the body returns, the
    file is closed and [run_alphafold3] runs on the run path. *)
Lemma iteration_cases E a outs i f :
  (exists e, iteration E a outs i f = ([], Raise e)) \/
  (exists tp e, Forall is_msa tp /\ iteration E a outs i f = (EvOpen f :: (tp ++ [EvClose f])%list, Raise e)) \/
  (exists tp, Forall is_msa tp /\
     iteration E a outs i f =
     let (t, r) := AF3.run_alphafold3 E i (run_path a outs i f) (a_output_dir a) (a_model_params a) (a_database_dir a)
     in (EvOpen f :: (tp ++ EvClose f :: t)%list, r)).
Proof.
  unfold iteration. destruct (env_open E i f) as [e|] eqn:Ho.
  - left. exists e. unfold with_open. now rewrite Ho.
  - right. destruct (prepare_shape E a outs i f) as [Ht Hr].
    destruct (prepare E a outs i f) as [tp [p|e|]]; simpl in Ht, Hr; [| |contradiction].
    + right. exists tp. split; [exact Ht|]. subst p.
      rewrite (with_open_closed E i f (tp, Ret _) tp _ Ho eq_refl) by discriminate.
      unfold mbind at 1. cbv beta iota.
      destruct (AF3.run_alphafold3 E i (run_path a outs i f) (a_output_dir a) (a_model_params a)
                  (a_database_dir a)).
      simpl. now rewrite <- app_assoc.
    + left. exists tp, e. split; [exact Ht|].
      rewrite (with_open_closed E i f (tp, Raise e) tp _ Ho eq_refl) by discriminate. reflexivity.
Qed.

Lemma iteration_ok E a outs i f :
  env_open E i f = None -> env_json_load E i f = None ->
  (a_mmseqs2 a = true -> i < length outs /\ env_msa E i (msa_call_of a f (nth i outs None)) = None) ->
  iteration E a outs i f =
  let (t, r) := AF3.run_alphafold3 E i (run_path a outs i f) (a_output_dir a) (a_model_params a) (a_database_dir a) in
  (EvOpen f :: ((if a_mmseqs2 a then [EvMsa (msa_call_of a f (nth i outs None))] else []) ++ EvClose f :: t)%list, r).
Proof.
  intros Ho Hj Hm. unfold iteration. rewrite (prepare_ok E a outs i f Hj Hm).
  rewrite (with_open_closed E i f _ _ _ Ho eq_refl) by discriminate.
  unfold mbind at 1. cbv beta iota.
  destruct (AF3.run_alphafold3 E i (run_path a outs i f) (a_output_dir a) (a_model_params a) (a_database_dir a)).
  simpl. now rewrite <- app_assoc.
Qed.

(** C12. Without [--mmseqs2], an iteration whose file opens and parses
    closes the file and then runs [run_alphafold3] on the input path
    unchanged. *)
Theorem iteration_no_augmentation E a outs i f :
  a_mmseqs2 a = false -> env_open E i f = None -> env_json_load E i f = None ->
  iteration E a outs i f =
  let (t, r) := AF3.run_alphafold3 E i f (a_output_dir a) (a_model_params a) (a_database_dir a) in
  (EvOpen f :: EvClose f :: t, r).
Proof.
  intros Hm Ho Hj. rewrite iteration_ok by (auto; congruence).
  unfold run_path. rewrite Hm. reflexivity.
Qed.

(** C13. With [--mmseqs2], an iteration whose file opens and parses and
    whose MSA call returns calls [add_msa_to_json] with the file and
    [args.output_json[i]], closes the file, and runs [run_alphafold3] on
    [args.output_json[i]] when it is a path, or on the file name with
    [.json] replaced by [_mmseqs.json] when it is [None]. *)
Theorem iteration_augmented E a outs i f out_i :
  a_mmseqs2 a = true -> nth_error outs i = Some out_i ->
  env_open E i f = None -> env_json_load E i f = None -> env_msa E i (msa_call_of a f out_i) = None ->
  iteration E a outs i f =
  let (t, r) := AF3.run_alphafold3 E i (derive_run_json f out_i) (a_output_dir a) (a_model_params a)
                  (a_database_dir a) in
  (EvOpen f :: EvMsa (msa_call_of a f out_i) :: EvClose f :: t, r).
Proof.
  intros Hm Hn Ho Hj Hmsa. pose proof (nth_error_nth outs i None Hn) as Hnth.
  rewrite iteration_ok; auto.
  - unfold run_path. rewrite Hm, Hnth. reflexivity.
  - intros _. rewrite Hnth. split; [apply nth_error_Some; congruence | exact Hmsa].
Qed.

(** C14. For an input path [s.json] where [s] contains no [.json], the
    path run after augmentation without [--output_json] is
    [s_mmseqs.json]. *)
Theorem derive_run_json_suffix s :
  Str.occurs ".json" s = false -> derive_run_json (s ++ ".json") None = s ++ "_mmseqs.json".
Proof.
  intros H. unfold derive_run_json, Str.py_replace. simpl.
  refine (Str.rep_scan_suffix "."%char "json" "_mmseqs.json" s _ H).
  intros [|[|[|[|n]]]]; simpl; discriminate.
Qed.


(** ** The loop *)

(** C33. Without an output path, the path to run is [json_file] with
    [.json] replaced as the textbook definition of [str.replace] does it
    (replace the first occurrence, then replace in the text after it):
    the one-pass scan [Str.py_replace] is equivalent to it, for any fuel
    larger than the length of the path. *)
Theorem derive_run_json_reference json_file fuel :
  String.length json_file < fuel ->
  derive_run_json json_file None = Str.replace_ref fuel ".json" "_mmseqs.json" json_file.
Proof.
  intros H. unfold derive_run_json, Str.py_replace. simpl.
  apply Str.rep_scan_ref; [discriminate | exact H].
Qed.

Lemma spawns_nil t : Forall (fun ev => is_spawn ev = false) t -> spawns t = [].
Proof. induction 1 as [|[] t Hx _ IH]; simpl in *; congruence. Qed.

Lemma msa_not_spawn t : Forall is_msa t -> Forall (fun ev => is_spawn ev = false) t.
Proof. apply Forall_impl. intros []; simpl; tauto. Qed.

Lemma print_not_spawn t : Forall AF3.is_print t -> Forall (fun ev => is_spawn ev = false) t.
Proof. apply Forall_impl. intros []; simpl; tauto. Qed.

Lemma iteration_ret_spawns E a i f :
  outcome_of (iteration E a (default_outputs a) i f) = Ret tt ->
  spawns (trace_of (iteration E a (default_outputs a) i f)) = [cmd_for E a i f].
Proof.
  destruct (iteration_cases E a (default_outputs a) i f) as [[e H]|[[tp [e [_ H]]]|[tp [Ht H]]]];
    rewrite H; try discriminate.
  destruct (AF3.run_af3_shape E i (run_path a (default_outputs a) i f) (a_output_dir a) (a_model_params a)
              (a_database_dir a)) as [t' [Htr Hp]].
  destruct (AF3.run_alphafold3 E i _ _ _ _) as [t r]. simpl in Htr. subst t. intros _. simpl.
  rewrite spawns_app, (spawns_nil _ (msa_not_spawn _ Ht)). simpl.
  now rewrite (spawns_nil _ (print_not_spawn _ Hp)).
Qed.

Lemma spawns_mfor_trace E a xs i :
  (forall k f, nth_error xs k = Some f -> outcome_of (iteration E a (default_outputs a) (i + k) f) = Ret tt) ->
  spawns (mfor_trace xs (iteration E a (default_outputs a)) i) = imap (cmd_for E a) i xs.
Proof.
  revert i. induction xs as [|x xs IH]; intros i H; [reflexivity|]. simpl.
  rewrite spawns_app, iteration_ret_spawns.
  - simpl. f_equal. apply IH. intros k f Hk. replace (S i + k) with (i + S k) by lia. apply (H (S k)), Hk.
  - rewrite <- (Nat.add_0_r i) at 1. apply (H 0). reflexivity.
Qed.

Section Loop.
Variable E : env.

(** C16. When iteration [k] is the first that does not return (it raises
    or its child never exits), the run ends with it: the events of the
    earlier iterations, then its own, and nothing of the files after it. *)
Theorem main_stops_at_first_failure (a : args) k f :
  validate a = None -> nth_error (a_input_json a) k = Some f ->
  (forall j g, j < k -> nth_error (a_input_json a) j = Some g ->
               outcome_of (iteration E a (default_outputs a) j g) = Ret tt) ->
  outcome_of (iteration E a (default_outputs a) k f) <> Ret tt ->
  main E a = ((mfor_trace (firstn k (a_input_json a)) (iteration E a (default_outputs a)) 0
               ++ trace_of (iteration E a (default_outputs a) k f))%list,
              outcome_of (iteration E a (default_outputs a) k f)).
Proof.
  intros Hv Hk Hbefore Hfail. unfold main. rewrite Hv, raise_opt_none_bind.
  apply (mfor_stop _ _ 0 k f); auto.
Qed.

(** C17. When every iteration returns, the run returns, and it has
    started exactly one container per input file, in the order of the
    files, the [k]-th on the [k]-th file's run path. *)
Theorem main_runs_every_file (a : args) :
  validate a = None ->
  (forall k f, nth_error (a_input_json a) k = Some f ->
               outcome_of (iteration E a (default_outputs a) k f) = Ret tt) ->
  outcome_of (main E a) = Ret tt /\ spawns (trace_of (main E a)) = imap (cmd_for E a) 0 (a_input_json a).
Proof.
  intros Hv H. unfold main. rewrite Hv, raise_opt_none_bind, mfor_all_ret by exact H.
  split; [reflexivity|]. apply spawns_mfor_trace. exact H.
Qed.
End Loop.

(** ** Files are closed before a container starts *)

Lemma open_files_app d t1 t2 :
  open_files d (t1 ++ t2) = match open_files d t1 with Some d' => open_files d' t2 | None => None end.
Proof.
  revert d. induction t1 as [|[] t1 IH]; intros d; simpl; auto.
  destruct (Nat.eqb d 0); auto.
Qed.

Lemma open_files_msa d t : Forall is_msa t -> open_files d t = Some d.
Proof. induction 1 as [|[] t Hx _ IH]; simpl in *; tauto. Qed.

Lemma open_files_print d t : Forall AF3.is_print t -> open_files d t = Some d.
Proof. induction 1 as [|[] t Hx _ IH]; simpl in *; tauto. Qed.

Lemma iteration_open_files E a outs i f : open_files 0 (trace_of (iteration E a outs i f)) = Some 0.
Proof.
  destruct (iteration_cases E a outs i f) as [[e H]|[[tp [e [Ht H]]]|[tp [Ht H]]]]; rewrite H.
  - reflexivity.
  - simpl. now rewrite open_files_app, (open_files_msa _ _ Ht).
  - destruct (AF3.run_af3_shape E i (run_path a outs i f) (a_output_dir a) (a_model_params a)
                (a_database_dir a)) as [t' [Htr Hp]].
    destruct (AF3.run_alphafold3 E i _ _ _ _) as [t r]. simpl in Htr. subst t. simpl.
    rewrite open_files_app, (open_files_msa _ _ Ht). simpl. exact (open_files_print _ _ Hp).
Qed.

(** C18. In every run, however it ends, no container is started while an
    input file is open, and every file opened has been closed by the end:
    the [with open] block of line 99 is left before line 123 runs. *)
Theorem main_closes_before_spawn E a : open_files 0 (trace_of (main E a)) = Some 0.
Proof.
  unfold main. rewrite trace_mbind. destruct (validate a); [reflexivity|]. simpl.
  apply (mfor_trace_inv _ (fun t => open_files 0 t = Some 0)); [reflexivity | | ].
  - intros t1 t2 H1 H2. now rewrite open_files_app, H1.
  - apply iteration_open_files.
Qed.

(** ** Whole runs *)

(** C19. A single input [a.json] without [--mmseqs2]: the file is opened
    and closed, one container is started with the command for [a.json],
    and when it exits with status 0 and decodable output the run prints
    the output, the completion notice and the output directory, and
    returns. *)
Theorem main_single_input E a c :
  a_input_json a = ["a.json"] -> a_mmseqs2 a = false -> validate a = None ->
  env_open E 0 "a.json" = None -> env_json_load E 0 "a.json" = None ->
  env_child E 0 (AF3.af3_cmd (env_cwd E) "a.json" (a_output_dir a) (a_model_params a) (a_database_dir a))
    = Exits c ->
  returncode c = 0%Z -> Utf8.utf8_valid (out_bytes c) = true -> Utf8.utf8_valid (err_bytes c) = true ->
  main E a =
  (EvOpen "a.json" :: EvClose "a.json"
     :: EvSpawn (AF3.af3_cmd (env_cwd E) "a.json" (a_output_dir a) (a_model_params a) (a_database_dir a))
     :: map EvPrint (AF3.success_lines (a_output_dir a) c), Ret tt).
Proof.
  intros Hin Hm Hv Ho Hj Hch Hrc Hout Herr. unfold main. rewrite Hv, raise_opt_none_bind, Hin.
  rewrite mfor_cons, iteration_ok by (auto; congruence).
  unfold run_path. rewrite Hm. unfold AF3.run_alphafold3. cbn [mbind emit]. rewrite Hch, Hrc.
  cbn [negb Z.eqb]. rewrite (AF3.on_success_ok _ _ Hout Herr). reflexivity.
Qed.

(** C20. When the first file does not parse as JSON, the run raises the
    parse error after opening and closing that file, whether or not
    [--mmseqs2] was given: no MSA call, no container. *)
Theorem main_json_error_aborts E a f rest e :
  validate a = None -> a_input_json a = f :: rest ->
  env_open E 0 f = None -> env_json_load E 0 f = Some e ->
  main E a = ([EvOpen f; EvClose f], Raise e).
Proof.
  intros Hv Hin Ho Hj. unfold main. rewrite Hv, raise_opt_none_bind, Hin, mfor_cons.
  unfold iteration, with_open, prepare. rewrite Ho, Hj. reflexivity.
Qed.

(** ** Concrete batches *)

Lemma main_rejects_count_mismatch_witness :
  main fixture_env_ok (fixture_args ["a.json"; "b.json"] (Some ["x.json"]) false PyNone) =
  ([], Raise (ValueError msg_count)).
Proof. apply (main_rejects_count_mismatch _ _ ["x.json"]); [reflexivity | discriminate | simpl; lia]. Defined.

Lemma main_rejects_template_batch_witness :
  main fixture_env_ok (fixture_args ["a.json"; "b.json"] None false (PyStr "t.cif")) =
  ([], Raise (ValueError msg_template)).
Proof.
  apply main_rejects_template_batch; [intros outs [=] | simpl; lia | reflexivity].
Defined.

Lemma index_default_outputs_witness :
  index (default_outputs (fixture_args ["a.json"; "b.json"] (Some ["x.json"; "y.json"]) true PyNone)) 1 =
  mret (Some "y.json").
Proof.
  exact (index_default_outputs (fixture_args ["a.json"; "b.json"] (Some ["x.json"; "y.json"]) true PyNone) 1
           eq_refl ltac:(simpl; lia)).
Defined.

Lemma iteration_no_augmentation_witness :
  iteration fixture_env_ok (fixture_args ["a.json"] None false PyNone) [None] 0 "a.json" =
  let (t, r) := AF3.run_alphafold3 fixture_env_ok 0 "a.json" "out" "/m" "/db" in
  (EvOpen "a.json" :: EvClose "a.json" :: t, r).
Proof.
  exact (iteration_no_augmentation fixture_env_ok (fixture_args ["a.json"] None false PyNone) [None] 0 "a.json"
           eq_refl eq_refl eq_refl).
Defined.

Lemma iteration_augmented_witness :
  iteration fixture_env_ok (fixture_args ["a.json"] None true PyNone) [None] 0 "a.json" =
  let (t, r) := AF3.run_alphafold3 fixture_env_ok 0 (derive_run_json "a.json" None) "out" "/m" "/db" in
  (EvOpen "a.json" :: EvMsa (msa_call_of (fixture_args ["a.json"] None true PyNone) "a.json" None)
     :: EvClose "a.json" :: t, r).
Proof.
  exact (iteration_augmented fixture_env_ok (fixture_args ["a.json"] None true PyNone) [None] 0 "a.json" None
           eq_refl eq_refl eq_refl eq_refl eq_refl).
Defined.

Lemma derive_run_json_suffix_witness :
  derive_run_json ("case1" ++ ".json") None = "case1" ++ "_mmseqs.json".
Proof. apply derive_run_json_suffix. reflexivity. Defined.

Lemma main_stops_at_first_failure_witness :
  main fixture_env_missing batch3 =
  ((mfor_trace (firstn 1 (a_input_json batch3)) (iteration fixture_env_missing batch3 (default_outputs batch3)) 0
    ++ trace_of (iteration fixture_env_missing batch3 (default_outputs batch3) 1 "b.json"))%list,
   outcome_of (iteration fixture_env_missing batch3 (default_outputs batch3) 1 "b.json")).
Proof.
  apply (main_stops_at_first_failure fixture_env_missing batch3 1 "b.json"); [reflexivity | reflexivity | |].
  - intros j g Hj Hg. destruct j; [|lia]. simpl in Hg. inv Hg. vm_compute. reflexivity.
  - vm_compute. discriminate.
Defined.

Lemma main_runs_every_file_witness :
  outcome_of (main fixture_env_ok batch2) = Ret tt /\
  spawns (trace_of (main fixture_env_ok batch2)) = imap (cmd_for fixture_env_ok batch2) 0 ["a.json"; "b.json"].
Proof.
  apply (main_runs_every_file fixture_env_ok batch2); [reflexivity|].
  intros k f H. destruct k as [|[|k]]; simpl in H; [inv H; vm_compute; reflexivity | inv H; vm_compute; reflexivity | ].
  destruct k; discriminate.
Defined.

Lemma main_single_input_witness :
  main fixture_env_ok (fixture_args ["a.json"] None false PyNone) =
  (EvOpen "a.json" :: EvClose "a.json"
     :: EvSpawn (AF3.af3_cmd ["home"; "u"] "a.json" "out" "/m" "/db")
     :: map EvPrint (AF3.success_lines "out" AF3.fixture_ok), Ret tt).
Proof.
  exact (main_single_input fixture_env_ok (fixture_args ["a.json"] None false PyNone) AF3.fixture_ok
           eq_refl eq_refl eq_refl eq_refl eq_refl eq_refl eq_refl eq_refl eq_refl).
Defined.

Lemma main_json_error_aborts_witness :
  main fixture_env_badjson (fixture_args ["a.json"] None true PyNone) =
  ([EvOpen "a.json"; EvClose "a.json"], Raise (JSONDecodeError "a.json")).
Proof.
  exact (main_json_error_aborts fixture_env_badjson (fixture_args ["a.json"] None true PyNone) "a.json" []
           (JSONDecodeError "a.json") eq_refl eq_refl eq_refl eq_refl).
Defined.

Lemma derive_run_json_reference_witness :
  derive_run_json "runs.json/case1.json" None = Str.replace_ref 30 ".json" "_mmseqs.json" "runs.json/case1.json".
Proof. apply derive_run_json_reference. simpl. lia. Defined.

End Main.
