(* ===== verification/Batch.v ===== *)
(** An abstract specification of a batch run, as [spec.md] describes it
    (sections 2, 4, 5 and 7), and the refinement theorem: every run of
    [Main.main] is a run of the specification.

    The specification is a transition system on abstract states: the
    manifest items still to run and the commands launched so far.  The
    validator accepts the batch or rejects it before anything runs; each
    item is then prepared and invoked in order, one container at a
    time; its preparation may fail (no container is started for it), its
    container may exit 0 (the run goes on), exit nonzero (the run stops
    with a process-execution error carrying the status and the command)
    or never exit (the run hangs); any failure stops the whole run.  The
    command of item [k] is the one [run_alphafold3] builds for the path
    [Main.run_path] gives. *)

From Stdlib Require Import String List Bool Arith ZArith Lia.
From S2P Require Import Prelude Utf8 Runtime RunAF3 Main.
Import ListNotations.
Open Scope string_scope.
Import Py Main.

Module Batch.

Inductive bstate : Type :=
| BStart
(** The items still to run, with their positions, and the commands
    launched so far. *)
| BRun (todo : list (nat * string)) (launched : list string)
| BDone (launched : list string)
| BFail (launched : list string) (e : exc)
| BHung (launched : list string).

Section Spec.
Variables (E : env) (a : args).

Definition cmd (k : nat) (f : string) : string := cmd_for E a k f.

Inductive bstep : bstate -> bstate -> Prop :=
| bs_reject msg : ~ batch_ok a -> bstep BStart (BFail [] (ValueError msg))
| bs_accept : batch_ok a -> bstep BStart (BRun (imap pair 0 (a_input_json a)) [])
| bs_prepare_fail k f todo L e : bstep (BRun ((k, f) :: todo) L) (BFail L e)
| bs_success k f todo L : bstep (BRun ((k, f) :: todo) L) (BRun todo (L ++ [cmd k f]))
| bs_child_fail k f todo L rc out err :
    rc <> 0%Z ->
    bstep (BRun ((k, f) :: todo) L) (BFail (L ++ [cmd k f]) (CalledProcessError rc (cmd k f) out err))
| bs_hang k f todo L : bstep (BRun ((k, f) :: todo) L) (BHung (L ++ [cmd k f]))
| bs_done L : bstep (BRun [] L) (BDone L).

End Spec.

(** What the specification observes of a run of the program: the
    commands started, in order, and how the run ended. *)
Definition abs (L : list string) (m : PyM unit) : bstate :=
  match outcome_of m with
  | Ret _ => BDone (L ++ spawns (trace_of m))
  | Raise e => BFail (L ++ spawns (trace_of m)) e
  | Blocked => BHung (L ++ spawns (trace_of m))
  end.

(** Every child the run may start prints decodable output (the
    specification does not cover [UnicodeDecodeError]). *)
Definition children_decode (E : env) : Prop :=
  forall i cmd c, env_child E i cmd = Exits c ->
  Utf8.utf8_valid (out_bytes c) = true /\ Utf8.utf8_valid (err_bytes c) = true.



(** The number of input files open after the events [t], starting with
    [d] open. *)
Fixpoint depth (d : nat) (t : list event) : nat :=
  match t with
  | [] => d
  | EvOpen _ :: t' => depth (S d) t'
  | EvClose _ :: t' => depth (pred d) t'
  | _ :: t' => depth d t'
  end.

(** The largest number of input files open at once during [t]. *)
Fixpoint max_open (d : nat) (t : list event) : nat :=
  match t with
  | [] => d
  | EvOpen _ :: t' => Nat.max d (max_open (S d) t')
  | EvClose _ :: t' => Nat.max d (max_open (pred d) t')
  | _ :: t' => Nat.max d (max_open d t')
  end.

Definition no_file_event (ev : event) : Prop :=
  match ev with EvOpen _ | EvClose _ => False | _ => True end.

(** ** Lemmas *)

Lemma abs_mbind {B} L (m : PyM B) (k : B -> PyM unit) :
  abs L (mbind m k) =
  match outcome_of m with
  | Ret x => abs (L ++ spawns (trace_of m)) (k x)
  | Raise e => BFail (L ++ spawns (trace_of m)) e
  | Blocked => BHung (L ++ spawns (trace_of m))
  end.
Proof.
  unfold abs. rewrite trace_mbind, outcome_mbind.
  destruct (outcome_of m); rewrite ?spawns_app, ?app_nil_r, ?app_assoc; reflexivity.
Qed.

(** One iteration, as the specification sees it: it fails before its
    container starts, or it starts exactly its container, which returns,
    hangs, or fails with [CalledProcessError]. *)
Lemma iteration_spec E a i f :
  children_decode E ->
  let it := iteration E a (default_outputs a) i f in
  (exists e, outcome_of it = Raise e /\ spawns (trace_of it) = []) \/
  (spawns (trace_of it) = [cmd_for E a i f] /\
   (outcome_of it = Ret tt \/ outcome_of it = Blocked \/
    exists rc out err, rc <> 0%Z /\
      outcome_of it = Raise (CalledProcessError rc (cmd_for E a i f) out err))).
Proof.
  intros Hdec it. subst it.
  destruct (iteration_cases E a (default_outputs a) i f) as [[e H]|[[tp [e [Ht H]]]|[tp [Ht H]]]];
    rewrite H.
  - left. now exists e.
  - left. exists e. split; [reflexivity|]. simpl. rewrite spawns_app, (spawns_nil _ (msa_not_spawn _ Ht)).
    reflexivity.
  - right. unfold cmd_for.
    set (rp := run_path a (default_outputs a) i f).
    pose proof (AF3.run_af3_outcome E i rp (a_output_dir a) (a_model_params a) (a_database_dir a)
                  (fun c Hc => Hdec _ _ c Hc)) as Ho.
    destruct (AF3.run_af3_shape E i rp (a_output_dir a) (a_model_params a) (a_database_dir a))
      as [t' [Htr Hp]].
    destruct (AF3.run_alphafold3 E i rp _ _ _) as [t r]. simpl in Ho, Htr |- *. subst t.
    split.
    + rewrite spawns_app, (spawns_nil _ (msa_not_spawn _ Ht)). simpl.
      now rewrite (spawns_nil _ (print_not_spawn _ Hp)).
    + rewrite Ho. destruct (env_child E i _) as [c|]; [|auto].
      destruct (returncode c =? 0)%Z eqn:Hrc; [auto|].
      right; right. exists (returncode c), (Some (err_bytes c)), None. split; [|reflexivity].
      now apply Z.eqb_neq.
Qed.

Lemma mfor_refines E a xs : forall i L,
  children_decode E ->
  star (bstep E a) (BRun (imap pair i xs) L) (abs L (mfor xs (iteration E a (default_outputs a)) i)).
Proof.
  induction xs as [|f xs IH]; intros i L Hdec.
  - unfold abs. simpl. rewrite app_nil_r. apply star_one, bs_done.
  - rewrite mfor_cons, abs_mbind. simpl imap.
    destruct (iteration_spec E a i f Hdec) as [(e & Ho & Hs)|(Hs & [Ho|[Ho|(rc & out & err & Hrc & Ho)]])];
      rewrite Ho, Hs; [rewrite app_nil_r; apply star_one, bs_prepare_fail | | |].
    + eapply star_step; [apply bs_success | apply IH, Hdec].
    + apply star_one, bs_hang.
    + apply star_one, bs_child_fail, Hrc.
Qed.

Lemma validate_some_rejects a e : validate a = Some e -> (exists msg, e = ValueError msg) /\ ~ batch_ok a.
Proof.
  unfold validate, batch_ok. rewrite <- count_mismatch_false, <- template_conflict_false.
  destruct (count_mismatch a), (template_conflict a); intros H; inv H;
    (split; [eexists; reflexivity | intros [H1 H2]; discriminate]).
Qed.

Lemma validate_none_accepts a : validate a = None -> batch_ok a.
Proof.
  unfold validate, batch_ok. rewrite <- count_mismatch_false, <- template_conflict_false.
  destruct (count_mismatch a), (template_conflict a); intros H; inv H; auto.
Qed.





(** ** Refinement *)

(** C29. Refinement: when the children's output decodes, every run of
    [main] (the commands it starts, in order, and how it ends: returned,
    raised, or blocked on a child) is a run of the abstract
    specification, from its initial state. *)
Theorem main_refines_spec E a :
  children_decode E -> star (bstep E a) BStart (abs [] (main E a)).
Proof.
  intros Hdec. unfold main. destruct (validate a) as [e|] eqn:Hv.
  - destruct (validate_some_rejects a e Hv) as [[msg ->] Hno].
    apply star_one. exact (bs_reject E a msg Hno).
  - rewrite raise_opt_none_bind. eapply star_step.
    + apply bs_accept, validate_none_accepts, Hv.
    + apply mfor_refines, Hdec.
Qed.



(** ** Resources *)

Lemma max_open_ge d t : d <= max_open d t.
Proof. destruct t as [|[] t]; simpl; lia. Qed.

Lemma depth_app d t1 t2 : depth d (t1 ++ t2) = depth (depth d t1) t2.
Proof. revert d. induction t1 as [|[] t1 IH]; intros d; simpl; auto. Qed.

Lemma max_open_app d t1 t2 :
  max_open d (t1 ++ t2) = Nat.max (max_open d t1) (max_open (depth d t1) t2).
Proof.
  revert d. induction t1 as [|[] t1 IH]; intros d; simpl;
    [pose proof (max_open_ge d t2); lia | rewrite IH; lia ..].
Qed.

Lemma no_file_events d t : Forall no_file_event t -> depth d t = d /\ max_open d t = d.
Proof. induction 1 as [|[] t Hx _ [IH1 IH2]]; simpl in *; try contradiction; auto; lia. Qed.

Lemma msa_no_file t : Forall is_msa t -> Forall no_file_event t.
Proof. apply Forall_impl. intros []; simpl; tauto. Qed.

Lemma print_no_file t : Forall AF3.is_print t -> Forall no_file_event t.
Proof. apply Forall_impl. intros []; simpl; tauto. Qed.

(** A trace that closes every file it opens and never has two open. *)
Definition one_at_a_time (t : list event) : Prop := depth 0 t = 0 /\ max_open 0 t <= 1.

Lemma one_at_a_time_app t1 t2 :
  one_at_a_time t1 -> one_at_a_time t2 -> one_at_a_time (t1 ++ t2).
Proof.
  unfold one_at_a_time. intros [D1 M1] [D2 M2].
  rewrite depth_app, max_open_app, D1. split; [exact D2 | lia].
Qed.

Lemma iteration_one_at_a_time E a outs i f : one_at_a_time (trace_of (iteration E a outs i f)).
Proof.
  unfold one_at_a_time.
  destruct (iteration_cases E a outs i f) as [[e H]|[[tp [e [Ht H]]]|[tp [Ht H]]]]; rewrite H.
  - simpl. split; [reflexivity | lia].
  - destruct (no_file_events 1 tp (msa_no_file _ Ht)) as [D M]. simpl.
    rewrite depth_app, max_open_app, D, M. simpl. split; [reflexivity | lia].
  - destruct (AF3.run_af3_shape E i (run_path a outs i f) (a_output_dir a) (a_model_params a)
                (a_database_dir a)) as [t' [Htr Hp]].
    destruct (AF3.run_alphafold3 E i _ _ _ _) as [t r]. simpl in Htr |- *. subst t.
    destruct (no_file_events 1 tp (msa_no_file _ Ht)) as [D M].
    destruct (no_file_events 0 t' (print_no_file _ Hp)) as [D' M'].
    rewrite depth_app, max_open_app, D, M. simpl. rewrite D', M'. split; [reflexivity | lia].
Qed.

(** C32. Bound on open files: in every run, however it ends, at most one
    input file is open at any time, and every file opened is closed by
    the end of the trace. *)
Theorem main_one_file_open E a :
  max_open 0 (trace_of (main E a)) <= 1 /\ depth 0 (trace_of (main E a)) = 0.
Proof.
  enough (H : one_at_a_time (trace_of (main E a))) by (destruct H; auto).
  unfold main. destruct (validate a); [rewrite raise_opt_some_bind; split; simpl; lia|].
  rewrite raise_opt_none_bind.
  apply (mfor_trace_inv _ one_at_a_time); [split; simpl; lia | apply one_at_a_time_app |].
  intros. apply iteration_one_at_a_time.
Qed.

(** ** Witnesses *)

Lemma main_refines_spec_witness :
  star (bstep fixture_env_ok batch2) BStart (abs [] (main fixture_env_ok batch2)).
Proof.
  apply main_refines_spec. intros i cmd c H. simpl in H. inv H. split; reflexivity.
Defined.



End Batch.
