(* ===== verification/Cli.v ===== *)
(** The command line of [src/alphafold3.py]: the declarations of
    [af3_argparse_main] (lines 46-73), the head of the [__main__] block
    that builds the parser and parses [sys.argv] (lines 76-83), and the
    whole program (lines 76-128): parsing, then [Main.main] on the
    namespace.  The options the two collaborators register (lines 70-71)
    are parameters: lists of declarations, added after the six of the
    script. *)

From Stdlib Require Import String List Bool Arith ZArith Lia.
From S2P Require Import Prelude Argparse Runtime Main.
Import ListNotations.
Open Scope string_scope.
Import Py Argparse Main.

Module Cli.

(** Line 47: [parser.add_argument("input_json", nargs="+")]. *)
Definition input_json_arg : action := positional "input_json" NPlus.

(** Line 49: [parser.add_argument("output_dir")]. *)
Definition output_dir_arg : action := positional "output_dir" NOne.

(** Line 50: [parser.add_argument("--output_json", nargs="+")]. *)
Definition output_json_arg : action := optional ["--output_json"] None (Store NPlus) false.

(** Lines 52-57: [--database], [required=True], [dest="database_dir"]. *)
Definition database_arg : action :=
  optional ["--database"] (Some "database_dir") (Store NOne) true.

(** Lines 58-62: [--mmseqs2], [action="store_true"]. *)
Definition mmseqs2_arg : action := optional ["--mmseqs2"] None StoreTrue false.

(** Lines 64-68: [--model_params], [required=True]. *)
Definition model_params_arg : action := optional ["--model_params"] None (Store NOne) true.

Definition af3_decls : list action :=
  [input_json_arg; output_dir_arg; output_json_arg; database_arg; mmseqs2_arg; model_params_arg].

(** Lines 46-73: the six declarations, then [mmseqs2_argparse_util(parser)]
    and [custom_template_argpase_util(parser)], which add the
    declarations [mmseqs2_opts] and [template_opts]; a conflicting option
    string raises [ArgumentError]. *)
Definition af3_argparse_main (mmseqs2_opts template_opts : list action) (p : parser)
  : list string + parser :=
  match add_arguments p af3_decls with
  | inl c => inl c
  | inr p1 =>
      match add_arguments p1 mmseqs2_opts with
      | inl c => inl c
      | inr p2 => add_arguments p2 template_opts
      end
  end.

(** The attributes the collaborators' options give, as Python values. *)
Definition to_pyval (v : value) : pyval :=
  match v with
  | VNone => PyNone
  | VBool b => PyBool b
  | VStr s => PyStr s
  | VList l => PyList l
  end.

Definition output_json_of (v : value) : option (option (list string)) :=
  match v with
  | VNone => Some None
  | VList l => Some (Some l)
  | _ => None
  end.

(** The attributes of the namespace the script reads (lines 85-128):
    [None] when one is missing or not of the type the script uses it
    at. *)
Definition to_args (ns : list (string * value)) : option args :=
  match assoc "input_json" ns, assoc "output_dir" ns, assoc "output_json" ns,
        assoc "database_dir" ns, assoc "mmseqs2" ns, assoc "model_params" ns,
        assoc "templates" ns, assoc "num_templates" ns, assoc "custom_template" ns,
        assoc "custom_template_chain" ns, assoc "target_id" ns with
  | Some (VList ins), Some (VStr out), Some oj, Some (VStr db), Some (VBool mm), Some (VStr mp),
    Some t, Some nt, Some ct, Some ctc, Some tid =>
      match output_json_of oj with
      | Some o => Some (mk_args ins out o db mm mp (to_pyval t) (to_pyval nt) (to_pyval ct)
                                (to_pyval ctc) (to_pyval tid))
      | None => None
      end
  | _, _, _, _, _, _, _, _, _, _, _ => None
  end.

(** The namespace [parser.parse_args()] gives (line 83), as [args]. *)
Definition cli_args (p : parser) (argv : list string) : option args :=
  match parse_args p argv with Parsed ns => to_args ns | _ => None end.

Local Open Scope py_scope.

(** Lines 76-128 on [sys.argv[1:] = argv]: [ArgumentParser(...)] (line
    79), [af3_argparse_main] (line 81), [parse_args()] (line 83), then the
    validation and the loop.  [None] when the run is outside the model:
    an input [Argparse] answers [Unsupported], or a namespace without the
    attributes the script reads. *)
Definition program (E : env) (mmseqs2_opts template_opts : list action) (argv : list string)
  : option (PyM unit) :=
  match af3_argparse_main mmseqs2_opts template_opts new_parser with
  | inl c => Some (mraise (ArgumentError c))
  | inr p =>
      match parse_args p argv with
      | Parsed ns => option_map (Main.main E) (to_args ns)
      | HelpExit => Some (emit EvHelp ;;; mraise (SystemExit 0))
      | Error e => Some (mraise (ArgParseError e))
      | Unsupported => None
      end
  end.

(** A command line for [a]: the input files and the output directory,
    then [--database], [--model_params], [--mmseqs2] when set, and
    [--output_json] last. *)
Definition render (a : args) : list string :=
  (a_input_json a ++ [a_output_dir a; "--database"; a_database_dir a; "--model_params"; a_model_params a]
   ++ (if a_mmseqs2 a then ["--mmseqs2"] else [])
   ++ match a_output_json a with Some l => "--output_json" :: l | None => [] end)%list.

(** One registration of the five options the script reads from the
    collaborators, for the concrete runs. *)
Definition fixture_mmseqs2_opts : list action :=
  [optional ["--templates"] None StoreTrue false;
   optional ["--num_templates"] None (Store NOne) false;
   optional ["--target_id"] None (Store NOne) false].

Definition fixture_template_opts : list action :=
  [optional ["--custom_template"] None (Store NOne) false;
   optional ["--custom_template_chain"] None (Store NOne) false].

(** The parser the program builds: the help action, the six
    declarations, then the collaborators'. *)
Definition af3_base : parser := (new_parser ++ af3_decls)%list.

(** The collaborators add optional, not required, arguments. *)
Definition collab_ok (collab : list action) : bool :=
  forallb (fun a => is_optional a && negb (act_required a)) collab.

Definition collab_attr (collab : list action) (d : string) : option pyval :=
  option_map to_pyval (default_of collab d).

(** The attributes the collaborators' defaults give are those of [a]. *)
Definition collab_agrees (collab : list action) (a : args) : Prop :=
  collab_attr collab "templates" = Some (a_templates a) /\
  collab_attr collab "num_templates" = Some (a_num_templates a) /\
  collab_attr collab "custom_template" = Some (a_custom_template a) /\
  collab_attr collab "custom_template_chain" = Some (a_custom_template_chain a) /\
  collab_attr collab "target_id" = Some (a_target_id a).

(** The strings of [render a] that must be read as arguments do not
    start with ['-'], the input list is not empty, and [--output_json]
    has at least one path. *)
Definition render_ok (a : args) : Prop :=
  a_input_json a <> [] /\ a_output_json a <> Some [] /\
  forallb plain (a_input_json a ++ [a_output_dir a; a_database_dir a; a_model_params a]
                 ++ match a_output_json a with Some l => l | None => [] end)%list = true.

(** The attributes [render a] sets. *)
Definition set_keys : list string :=
  ["output_json"; "mmseqs2"; "model_params"; "database_dir"; "output_dir"; "input_json"].

(** The namespace [parse_args] builds from [render a]. *)
Definition render_ns (p : parser) (a : args) : list (string * value) :=
  (match a_output_json a with Some l => [("output_json", VList l)] | None => [] end
   ++ (if a_mmseqs2 a then [("mmseqs2", VBool true)] else [])
   ++ [("model_params", VStr (a_model_params a)); ("database_dir", VStr (a_database_dir a));
       ("output_dir", VStr (a_output_dir a)); ("input_json", VList (a_input_json a))]
   ++ init_ns p)%list.

(** The collaborators' options set none of the attributes the script's
    own declarations set. *)
Definition collab_fresh (collab : list action) : bool :=
  forallb (fun a => negb (existsb (String.eqb (act_dest a)) set_keys)) collab.

(** No option string of the collaborators starts with [s]: the
    abbreviation [s] then names at most one of the script's options. *)
Definition collab_no_prefix (collab : list action) (s : string) : bool :=
  forallb (fun a => forallb (fun o => negb (prefix s o)) (act_opts a)) collab.

Definition abbrev_ok (collab : list action) : bool :=
  collab_no_prefix collab "--data" && collab_no_prefix collab "--model".

Definition fixture_parser : parser :=
  match af3_argparse_main fixture_mmseqs2_opts fixture_template_opts new_parser with
  | inr p => p
  | inl _ => new_parser
  end.

(** Two inputs, their output paths, [--mmseqs2], and the collaborators'
    defaults. *)
Definition fixture_batch : args :=
  mk_args ["a.json"; "b.json"] "out" (Some ["a_out.json"; "b_out.json"]) "/db" true "/m"
          (PyBool false) PyNone PyNone PyNone PyNone.

(** ** Lemmas *)

Lemma af3_parser_shape mm tpl p :
  af3_argparse_main mm tpl new_parser = inr p -> p = (af3_base ++ mm ++ tpl)%list.
Proof.
  unfold af3_argparse_main.
  destruct (add_arguments new_parser af3_decls) as [c|p1] eqn:H1; [discriminate|].
  destruct (add_arguments p1 mm) as [c|p2] eqn:H2; [discriminate|]. intros H3.
  apply add_arguments_spec in H1, H2, H3. subst. unfold af3_base. now rewrite !app_assoc.
Qed.

Lemma init_state_af3 collab :
  collab_ok collab = true ->
  init_state (af3_base ++ collab)%list =
  mk_pstate (init_ns (af3_base ++ collab)%list) [] [] [(1, input_json_arg); (2, output_dir_arg)].
Proof.
  intros H. unfold init_state. f_equal. rewrite indexed_app, filter_app, filter_positional_optionals.
  - reflexivity.
  - unfold collab_ok in H. induction collab as [|a l IH]; [reflexivity|]. simpl in *.
    apply andb_prop in H as [Ha Hl]. apply andb_prop in Ha as [Ha _]. now rewrite Ha, IH.
Qed.

Lemma consume_two ns seen ex ins out :
  ins <> [] ->
  consume_positionals (mk_pstate ns seen ex [(1, input_json_arg); (2, output_dir_arg)]) (ins ++ [out])
  = inr (mk_pstate (("output_dir", VStr out) :: ("input_json", VList ins) :: ns) (2 :: 1 :: seen) ex [], []).
Proof.
  intros Hne. unfold consume_positionals. simpl st_pos.
  rewrite length_app. simpl length.
  rewrite Nat.min_l by (destruct ins; [congruence | simpl; lia]).
  simpl. replace (length ins + 1 - 1) with (length ins) by lia.
  rewrite firstn_app, firstn_all, Nat.sub_diag, skipn_app, skipn_all, Nat.sub_diag. simpl.
  rewrite app_nil_r, skipn_app, skipn_all2 by lia. simpl.
  replace (length ins + 1 - length ins) with 1 by lia. reflexivity.
Qed.

Lemma assoc_base collab s ia :
  assoc s (option_table af3_base) = Some ia -> assoc s (option_table (af3_base ++ collab)%list) = Some ia.
Proof. intros H. now rewrite option_table_app, assoc_app, H. Qed.

Lemma collab_not_required collab :
  collab_ok collab = true -> forallb (fun a => negb (act_required a)) collab = true.
Proof.
  unfold collab_ok. induction collab as [|a l IH]; simpl; [reflexivity|].
  intros H. apply andb_prop in H as [Ha Hl]. apply andb_prop in Ha as [_ Ha]. now rewrite Ha, IH.
Qed.

(** Classify one more string of a command line whose option strings
    are the script's own. *)
Ltac classify_step :=
  first [ rewrite classify_cons_plain by assumption
        | rewrite classify_all_all_plain by assumption
        | erewrite classify_cons_known by (reflexivity || (apply assoc_base; reflexivity)) ].

(** Split hypotheses [plain s1 && plain s2 && ... = true]. *)
Ltac split_plain :=
  repeat match goal with H : _ && _ = true |- _ => apply andb_prop in H as [? ?] end.

(** Once the strings are classified and cut into runs: run the loop of
    [_parse_known_args] and the required-argument check. *)
Ltac finish_loop Hok :=
  cbn -[init_ns required_missing af3_base];
  rewrite required_missing_app by (apply collab_not_required, Hok).

Ltac finish_parse Hok := rewrite init_state_af3 by exact Hok; finish_loop Hok.

Lemma parse_render collab a :
  collab_ok collab = true -> render_ok a ->
  parse_args (af3_base ++ collab)%list (render a) = Parsed (render_ns (af3_base ++ collab)%list a).
Proof.
  intros Hok (Hins & Hoj & Hpl).
  destruct a as [ins out oj db mm mp t nt ct ctc tid]; unfold render, render_ns in *;
    cbn [a_input_json a_output_dir a_output_json a_database_dir a_mmseqs2 a_model_params] in *.
  rewrite !forallb_app in Hpl. cbn [forallb] in Hpl. split_plain.
  unfold parse_args. rewrite classify_all_plain by assumption.
  destruct oj as [[|o outs]|]; [congruence| |]; destruct mm; cbn [app]; repeat classify_step.
  all: rewrite split_runs_plain; cbn [split_runs]; rewrite ?split_runs_all_plain; cbn beta iota zeta.
  all: rewrite init_state_af3 by exact Hok; unfold parse_segments at 1; rewrite consume_two by exact Hins.
  all: finish_loop Hok; reflexivity.
Qed.

Lemma collab_table_no_prefix collab s k :
  collab_no_prefix collab s = true ->
  filter (fun '(o, _) => prefix s o) (concat (imap (fun i a => map (fun o => (o, (i, a))) (act_opts a)) k collab)) = [].
Proof.
  revert k. induction collab as [|a l IH]; intros k H; [reflexivity|].
  cbn [collab_no_prefix forallb imap concat] in *. apply andb_prop in H as [Ha Hl].
  rewrite filter_app, IH by exact Hl. rewrite app_nil_r.
  induction (act_opts a) as [|o os IHo]; [reflexivity|]. cbn [forallb] in Ha. apply andb_prop in Ha as [Ho Hos].
  cbn. apply negb_true_iff in Ho. rewrite Ho. exact (IHo Hos).
Qed.

(** An abbreviation that names one of the script's options and no
    collaborator's is read as that option. *)
Lemma parse_optional_abbrev_af3 collab r t :
  collab_no_prefix collab (String dash (String dash r)) = true -> partition_eq r = (r, None) ->
  assoc (String dash (String dash r)) (option_table af3_base) = None ->
  option_tuples (option_table af3_base) (String dash (String dash r)) = [t] ->
  parse_optional (option_table (af3_base ++ collab)%list) (String dash (String dash r)) = COpt (otuple_token t).
Proof.
  intros Hc Hpe Ha Ht. unfold dash in *. apply parse_optional_abbrev; [|exact Hpe|].
  - rewrite option_table_app, assoc_app, Ha. apply assoc_prefix_free, collab_table_no_prefix, Hc.
  - rewrite option_table_app, option_tuples_app, Ht, (option_tuples_long _ _ Hpe), collab_table_no_prefix by exact Hc.
    reflexivity.
Qed.

Lemma parse_abbrev collab ins out db mp :
  collab_ok collab = true -> abbrev_ok collab = true -> ins <> [] ->
  forallb plain (ins ++ [out; db; mp]) = true ->
  parse_args (af3_base ++ collab)%list (ins ++ [out; "--data"; db; "--model"; mp]) =
  Parsed (render_ns (af3_base ++ collab)%list (mk_args ins out None db false mp PyNone PyNone PyNone PyNone PyNone)).
Proof.
  intros Hok Hab Hins Hpl. unfold abbrev_ok in Hab. split_plain.
  rewrite forallb_app in Hpl. cbn [forallb] in Hpl. split_plain.
  unfold parse_args. rewrite classify_all_plain by assumption. classify_step.
  rewrite (classify_cons_opt _ "--data" (OKnown 4 database_arg "--database" None)) by
    (reflexivity || (apply (parse_optional_abbrev_af3 _ _ (4, database_arg, "--database", None)); auto)).
  classify_step.
  rewrite (classify_cons_opt _ "--model" (OKnown 6 model_params_arg "--model_params" None)) by
    (reflexivity || (apply (parse_optional_abbrev_af3 _ _ (6, model_params_arg, "--model_params", None)); auto)).
  classify_step. cbn [classify_all app]. cbn iota.
  rewrite split_runs_plain; cbn [split_runs]; rewrite ?split_runs_all_plain; cbn beta iota zeta.
  rewrite init_state_af3 by exact Hok; unfold parse_segments at 1; rewrite consume_two by exact Hins.
  finish_loop Hok; reflexivity.
Qed.

Lemma af3_base_defaults :
  default_of af3_base "output_json" = Some VNone /\ default_of af3_base "mmseqs2" = Some (VBool false) /\
  default_of af3_base "templates" = None /\ default_of af3_base "num_templates" = None /\
  default_of af3_base "custom_template" = None /\ default_of af3_base "custom_template_chain" = None /\
  default_of af3_base "target_id" = None.
Proof. vm_compute. repeat split. Qed.

Lemma to_args_lookups ns ins out oj o db mm mp t nt ct ctc tid :
  assoc "input_json" ns = Some (VList ins) -> assoc "output_dir" ns = Some (VStr out) ->
  assoc "output_json" ns = Some oj -> output_json_of oj = Some o ->
  assoc "database_dir" ns = Some (VStr db) -> assoc "mmseqs2" ns = Some (VBool mm) ->
  assoc "model_params" ns = Some (VStr mp) ->
  option_map to_pyval (assoc "templates" ns) = Some t ->
  option_map to_pyval (assoc "num_templates" ns) = Some nt ->
  option_map to_pyval (assoc "custom_template" ns) = Some ct ->
  option_map to_pyval (assoc "custom_template_chain" ns) = Some ctc ->
  option_map to_pyval (assoc "target_id" ns) = Some tid ->
  to_args ns = Some (mk_args ins out o db mm mp t nt ct ctc tid).
Proof.
  intros H1 H2 H3 H4 H5 H6 H7 H8 H9 H10 H11 H12. unfold to_args.
  rewrite H1, H2, H3, H5, H6, H7.
  destruct (assoc "templates" ns), (assoc "num_templates" ns), (assoc "custom_template" ns),
    (assoc "custom_template_chain" ns), (assoc "target_id" ns); try discriminate.
  simpl in *. rewrite H4. congruence.
Qed.

Lemma assoc_render_ns p a d :
  existsb (String.eqb d) set_keys = false -> assoc d (render_ns p a) = assoc d (init_ns p).
Proof.
  intros H. simpl in H. repeat rewrite orb_false_iff in H.
  destruct H as (H1 & H2 & H3 & H4 & H5 & H6 & _).
  unfold render_ns. destruct (a_output_json a), (a_mmseqs2 a); simpl; now rewrite ?H1, ?H2, ?H3, ?H4, ?H5, ?H6.
Qed.

Lemma assoc_init_collab collab d :
  default_of af3_base d = None -> assoc d (init_ns (af3_base ++ collab)%list) = default_of collab d.
Proof. intros H. now rewrite init_ns_assoc, default_of_app, H. Qed.

Lemma to_args_render collab a :
  collab_agrees collab a -> to_args (render_ns (af3_base ++ collab)%list a) = Some a.
Proof.
  unfold collab_agrees, collab_attr. intros (H1 & H2 & H3 & H4 & H5).
  destruct af3_base_defaults as (D1 & D2 & D3 & D4 & D5 & D6 & D7).
  destruct a as [ins out oj db mm mp t nt ct ctc tid];
    cbn [a_input_json a_output_dir a_output_json a_database_dir a_mmseqs2 a_model_params
         a_templates a_num_templates a_custom_template a_custom_template_chain a_target_id] in *.
  apply to_args_lookups with (oj := match oj with Some l => VList l | None => VNone end);
    try (rewrite assoc_render_ns, assoc_init_collab by assumption || reflexivity; assumption);
    try (destruct oj; reflexivity);
    unfold render_ns; destruct oj, mm; cbn -[init_ns af3_base]; try reflexivity;
    rewrite init_ns_assoc, default_of_app, ?D1, ?D2; reflexivity.
Qed.

Lemma to_args_some ns a :
  to_args ns = Some a ->
  assoc "input_json" ns = Some (VList (a_input_json a)) /\
  (forall l, a_output_json a = Some l -> assoc "output_json" ns = Some (VList l)).
Proof.
  unfold to_args, output_json_of. intros H.
  repeat match type of H with
         | context [match ?x with _ => _ end] => destruct x eqn:?; try discriminate H
         end.
  inv H. simpl. split; [reflexivity|]. intros l0 ->. destruct v1; inv Heqo10; reflexivity.
Qed.

(** The script's own actions that store under [input_json] or
    [output_json] are the two ["+"] ones: their values are [None] or a
    nonempty list. *)
Lemma base_list_dest b d v :
  In b af3_base -> act_dest b = d -> d = "input_json" \/ d = "output_json" ->
  act_default b = Some v \/ shape_ok b v -> v = VNone \/ exists x l, v = VList (x :: l).
Proof.
  intros Hb Hd Hdd Hv.
  destruct Hb as [<-|[<-|[<-|[<-|[<-|[<-|[<-|[]]]]]]]]; simpl in Hd; subst;
    try (destruct Hdd; discriminate).
  all: destruct Hv as [Hv|Hv]; [inv Hv; now left | right].
  all: destruct v as [| | |[|x l']]; try contradiction; now exists x, l'.
Qed.

Lemma list_attr_nonempty mm tpl ns d l :
  collab_fresh (mm ++ tpl) = true -> ns_inv (af3_base ++ mm ++ tpl)%list ns ->
  d = "input_json" \/ d = "output_json" -> assoc d ns = Some (VList l) -> l <> [].
Proof.
  intros Hf Hinv Hd Hl. destruct (Hinv _ _ Hl) as (b & Hb & Hbd & Hv).
  apply in_app_or in Hb as [Hb|Hb].
  - destruct (base_list_dest b d _ Hb Hbd Hd Hv) as [E|(x & l' & E)]; inv E; discriminate.
  - unfold collab_fresh in Hf. rewrite forallb_forall in Hf. specialize (Hf b Hb).
    rewrite Hbd in Hf. destruct Hd; subst; discriminate.
Qed.

Lemma main_invalid E a e : validate a = Some e -> Main.main E a = ([], Raise e).
Proof. intros H. unfold Main.main. now rewrite H. Qed.

(** ** The command line *)

Section Collaborators.
Variables mmseqs2_opts template_opts : list action.
Variable p : parser.
Hypothesis Hp : af3_argparse_main mmseqs2_opts template_opts new_parser = inr p.

(** C23. Round trip: for a namespace whose strings do not start with
    ['-'], with at least one input and, when given, at least one output
    path, and whose collaborator attributes are the collaborators'
    defaults, the command line [render a] parses back to exactly [a]. *)
Theorem cli_args_render (a : args) :
  collab_ok (mmseqs2_opts ++ template_opts) = true ->
  collab_agrees (mmseqs2_opts ++ template_opts) a -> render_ok a ->
  cli_args p (render a) = Some a.
Proof.
  intros Hok Hag Hr. rewrite (af3_parser_shape _ _ _ Hp). unfold cli_args.
  rewrite parse_render by assumption. apply to_args_render, Hag.
Qed.


(** C25. Whatever the command line, the namespace [parse_args] accepts
    has a nonempty list of input files and, when [--output_json] is
    given, a nonempty list of output paths ([nargs="+"]), provided the
    collaborators store nothing under those two names. *)
Theorem cli_args_types argv (a : args) :
  collab_fresh (mmseqs2_opts ++ template_opts) = true ->
  cli_args p argv = Some a ->
  a_input_json a <> [] /\ (forall l, a_output_json a = Some l -> l <> []).
Proof.
  intros Hf. unfold cli_args. destruct (parse_args p argv) as [ns| | |] eqn:Hparse; try discriminate.
  intros Ha. pose proof (parse_args_inv _ _ _ Hparse) as Hinv.
  rewrite (af3_parser_shape _ _ _ Hp) in Hinv. destruct (to_args_some _ _ Ha) as [Hi Ho].
  split.
  - exact (list_attr_nonempty _ _ _ _ _ Hf Hinv (or_introl eq_refl) Hi).
  - intros l Hl. exact (list_attr_nonempty _ _ _ _ _ Hf Hinv (or_intror eq_refl) (Ho l Hl)).
Qed.

(** C26. A flag written between the input files ends the positional
    [input_json]: [x --mmseqs2 y z --database db --model_params mp] gives
    [input_json = [x]] and [output_dir = y], and [z] is refused as an
    unrecognized argument; the run stops with [SystemExit(2)] before any
    file is opened. *)
Theorem program_flag_between_inputs E x y z db mp :
  collab_ok (mmseqs2_opts ++ template_opts) = true ->
  forallb plain [x; y; z; db; mp] = true ->
  program E mmseqs2_opts template_opts [x; "--mmseqs2"; y; z; "--database"; db; "--model_params"; mp] =
  Some ([], Raise (ArgParseError (ErrUnrecognized [z]))).
Proof.
  intros Hok Hpl. unfold program. rewrite Hp, (af3_parser_shape _ _ _ Hp).
  cbn [forallb] in Hpl. split_plain.
  unfold parse_args. repeat classify_step. cbn [split_runs]. cbn beta iota zeta.
  finish_parse Hok. reflexivity.
Qed.

(** C27. [--output_json] written before the input files takes every
    string up to the next option ([nargs="+"] is greedy), inputs and
    output directory included: the command line is refused because
    [input_json] and [output_dir] are missing. *)
Theorem program_output_json_first E o ins out db mp :
  collab_ok (mmseqs2_opts ++ template_opts) = true ->
  forallb plain (o :: ins ++ [out; db; mp]) = true ->
  program E mmseqs2_opts template_opts
          ("--output_json" :: o :: ins ++ [out; "--database"; db; "--model_params"; mp]) =
  Some ([], Raise (ArgParseError (ErrRequired ["input_json"; "output_dir"]))).
Proof.
  intros Hok Hpl. unfold program. rewrite Hp, (af3_parser_shape _ _ _ Hp).
  cbn [forallb] in Hpl. rewrite forallb_app in Hpl. cbn [forallb] in Hpl. split_plain.
  unfold parse_args. do 2 classify_step. rewrite classify_all_plain by assumption.
  repeat classify_step. cbn [split_runs]. rewrite split_runs_plain. cbn [split_runs]. cbn beta iota zeta.
  finish_parse Hok. reflexivity.
Qed.

(** C28. Every event of a run but the help text comes after the command
    line has parsed to a namespace with the attributes the script reads
    and the batch has passed validation: a refused command line or batch
    opens no file and starts no process. *)
Theorem program_io_after_validation E argv m ev :
  program E mmseqs2_opts template_opts argv = Some m -> In ev (trace_of m) -> ev <> EvHelp ->
  exists ns a, parse_args p argv = Parsed ns /\ to_args ns = Some a /\ validate a = None.
Proof.
  unfold program. rewrite Hp. intros Hm Hin Hev.
  destruct (parse_args p argv) as [ns| |e|] eqn:Hparse; try discriminate.
  - destruct (to_args ns) as [a|] eqn:Ha; [|discriminate]. inv Hm.
    destruct (validate a) as [e|] eqn:Hv; [|now exists ns, a].
    rewrite (main_invalid E a e Hv) in Hin. contradiction.
  - inv Hm. destruct Hin as [<-|[]]. now elim Hev.
  - inv Hm. contradiction.
Qed.

(** C35. [-h] or [--help] after input strings stops the parse with the
    help text and [SystemExit(0)] before the required-argument check: the
    program prints help and exits 0 whatever else is missing, and runs
    nothing. *)
Theorem program_help_exits E xs h rest :
  collab_ok (mmseqs2_opts ++ template_opts) = true -> h = "-h" \/ h = "--help" ->
  forallb plain xs = true -> forallb plain rest = true ->
  program E mmseqs2_opts template_opts (xs ++ h :: rest) = Some ([EvHelp], Raise (SystemExit 0)).
Proof.
  intros Hok Hh Hxs Hpl. unfold program. rewrite Hp, (af3_parser_shape _ _ _ Hp).
  unfold parse_args. rewrite classify_all_plain by exact Hxs.
  destruct Hh as [->| ->]; classify_step; classify_step; cbn beta iota; rewrite split_runs_plain;
    cbn [split_runs]; rewrite split_runs_all_plain; cbn beta iota zeta; rewrite init_state_af3 by exact Hok;
    (destruct (consume_positionals_not_help
                 (mk_pstate (init_ns (af3_base ++ mmseqs2_opts ++ template_opts)%list) [] []
                            [(1, input_json_arg); (2, output_dir_arg)]) xs eq_refl) as (st' & r & Hc));
    cbn [parse_segments]; rewrite app_nil_r, Hc; reflexivity.
Qed.

(** C36. [allow_abbrev] is left on: where no collaborator's option
    starts with [--data] or [--model], the command line with [--data]
    and [--model] gives the same run as the one with [--database] and
    [--model_params]. *)
Theorem program_abbreviations E ins out db mp :
  collab_ok (mmseqs2_opts ++ template_opts) = true -> abbrev_ok (mmseqs2_opts ++ template_opts) = true ->
  ins <> [] -> forallb plain (ins ++ [out; db; mp]) = true ->
  program E mmseqs2_opts template_opts (ins ++ [out; "--data"; db; "--model"; mp]) =
  program E mmseqs2_opts template_opts (ins ++ [out; "--database"; db; "--model_params"; mp]).
Proof.
  intros Hok Hab Hins Hpl. unfold program. rewrite Hp, (af3_parser_shape _ _ _ Hp), parse_abbrev by assumption.
  set (a := mk_args ins out None db false mp PyNone PyNone PyNone PyNone PyNone).
  change (ins ++ [out; "--database"; db; "--model_params"; mp])%list with (render a).
  rewrite parse_render; [reflexivity | exact Hok |].
  split; [exact Hins | split; [discriminate | exact Hpl]].
Qed.

End Collaborators.

(** ** Witnesses *)

Lemma cli_args_render_witness : cli_args fixture_parser (render fixture_batch) = Some fixture_batch.
Proof.
  apply (cli_args_render fixture_mmseqs2_opts fixture_template_opts fixture_parser);
    [vm_compute; reflexivity | vm_compute; reflexivity | unfold collab_agrees; vm_compute; repeat split |
     unfold render_ok; split; [discriminate | split; [discriminate | vm_compute; reflexivity]]].
Defined.


Lemma cli_args_types_witness :
  a_input_json fixture_batch <> [] /\ (forall l, a_output_json fixture_batch = Some l -> l <> []).
Proof.
  apply (cli_args_types fixture_mmseqs2_opts fixture_template_opts fixture_parser
           ltac:(vm_compute; reflexivity) (render fixture_batch));
    [vm_compute; reflexivity | vm_compute; reflexivity].
Defined.

Lemma program_flag_between_inputs_witness :
  program fixture_env_ok fixture_mmseqs2_opts fixture_template_opts
          ["a.json"; "--mmseqs2"; "b.json"; "out"; "--database"; "/db"; "--model_params"; "/m"]
  = Some ([], Raise (ArgParseError (ErrUnrecognized ["out"]))).
Proof.
  apply (program_flag_between_inputs fixture_mmseqs2_opts fixture_template_opts fixture_parser);
    vm_compute; reflexivity.
Defined.

Lemma program_output_json_first_witness :
  program fixture_env_ok fixture_mmseqs2_opts fixture_template_opts
          ("--output_json" :: "o.json" :: ["a.json"] ++ ["out"; "--database"; "/db"; "--model_params"; "/m"])
  = Some ([], Raise (ArgParseError (ErrRequired ["input_json"; "output_dir"]))).
Proof.
  apply (program_output_json_first fixture_mmseqs2_opts fixture_template_opts fixture_parser);
    vm_compute; reflexivity.
Defined.

Lemma program_io_after_validation_witness :
  exists ns a, parse_args fixture_parser (render fixture_batch) = Parsed ns /\ to_args ns = Some a /\
               validate a = None.
Proof.
  apply (program_io_after_validation fixture_mmseqs2_opts fixture_template_opts fixture_parser
           ltac:(vm_compute; reflexivity) fixture_env_ok (render fixture_batch)
           (Main.main fixture_env_ok fixture_batch) (EvOpen "a.json"));
    [vm_compute; reflexivity | vm_compute; left; reflexivity | discriminate].
Defined.

Lemma program_help_exits_witness :
  program fixture_env_ok fixture_mmseqs2_opts fixture_template_opts ["a.json"; "--help"; "out"]
  = Some ([EvHelp], Raise (SystemExit 0)).
Proof.
  apply (program_help_exits fixture_mmseqs2_opts fixture_template_opts fixture_parser
           ltac:(vm_compute; reflexivity) fixture_env_ok ["a.json"] "--help" ["out"]);
    [vm_compute; reflexivity | right; reflexivity | vm_compute; reflexivity | vm_compute; reflexivity].
Defined.

Lemma program_abbreviations_witness :
  program fixture_env_ok fixture_mmseqs2_opts fixture_template_opts
          (["a.json"] ++ ["out"; "--data"; "/db"; "--model"; "/m"])
  = program fixture_env_ok fixture_mmseqs2_opts fixture_template_opts
            (["a.json"] ++ ["out"; "--database"; "/db"; "--model_params"; "/m"]).
Proof.
  apply (program_abbreviations fixture_mmseqs2_opts fixture_template_opts fixture_parser);
    [vm_compute; reflexivity | vm_compute; reflexivity | vm_compute; reflexivity | discriminate |
     vm_compute; reflexivity].
Defined.

End Cli.
